(** * The internal polling service (lib/polling/internal-poller.ts)

    A shallow embedding of the [InternalPoller] class: its two poll tasks
    ([pollSchedules], [pollOutlook]), its lifecycle ([start], [stop]) and the
    part of the JavaScript runtime they run on (timers, template literals,
    the relational comparison [> 0] on values decoded from JSON).

    Time is simulated: timers fire when the clock is advanced, in order of
    their due time.  A poll task is run to completion when its timer fires;
    the one suspension point of a task (the [await] of the HTTP call) is
    answered by the environment the task is run in.  The logger and the
    console record what they are given and never throw. *)

From Stdlib Require Import ZArith NArith List String Bool Lia.
From Stdlib Require Import Floats DecimalString.
Import ListNotations.
Local Open Scope string_scope.
Local Open Scope Z_scope.
Set Warnings "-register-all".

(* ================================================================== *)
(** ** JavaScript values and completions *)

(** What a [throw] carries.  The poller only ever logs it. *)
Inductive exn : Type :=
| TypeError (message : string)
| Thrown (description : string).

(** An evaluation either completes normally or throws; an [async]
    function, likewise, resolves or rejects. *)
Inductive completion (A : Type) : Type :=
| Normal (a : A)
| Throw (e : exn).
Arguments Normal {A} a.
Arguments Throw {A} e.

(** Values as [response.json()] decodes them, and [undefined] (what a
    missing property reads as).  Numbers are IEEE-754 binary64.  An object
    is the list of its own properties, a key occurring once. *)
Inductive value : Type :=
| VUndefined
| VNull
| VBool (b : bool)
| VNumber (n : float)
| VString (s : string)
| VArray (elements : list value)
| VObject (properties : list (string * value)).

(** The two number/string conversions of the runtime.  They are not code
    of the repository; the development is parametric in them. *)
Class Runtime : Type := {
  StringToNumber : string -> float;
  Number_toString : float -> string
}.

Definition has_own (properties : list (string * value)) (key : string) : bool :=
  existsb (fun p => String.eqb (fst p) key) properties.

Fixpoint own_property (properties : list (string * value)) (key : string)
  : option value :=
  match properties with
  | [] => None
  | (k, v) :: rest => if String.eqb k key then Some v else own_property rest key
  end.

(** [data.key] for a key that no built-in prototype defines (the poller
    reads [executedCount], [total] and [successful]): reading a property
    of [null] or [undefined] throws, an object answers with its own
    property, every other value with [undefined]. *)
Definition Get (data : value) (key : string) : completion value :=
  match data with
  | VUndefined =>
      Throw (TypeError ("Cannot read properties of undefined (reading '" ++ key ++ "')"))
  | VNull =>
      Throw (TypeError ("Cannot read properties of null (reading '" ++ key ++ "')"))
  | VObject properties =>
      match own_property properties key with
      | Some v => Normal v
      | None => Normal VUndefined
      end
  | _ => Normal VUndefined
  end.

Section Coercions.
Context {R : Runtime}.

(** [ToString], as a template literal applies it.  An array is joined
    with commas ([null] and [undefined] elements print as nothing); a
    plain object prints through [Object.prototype.toString] unless an own
    property shadows it: a decoded property is never callable, and
    [valueOf] returns the object itself, so the conversion throws. *)
Fixpoint ToString (v : value) : completion string :=
  match v with
  | VUndefined => Normal "undefined"
  | VNull => Normal "null"
  | VBool true => Normal "true"
  | VBool false => Normal "false"
  | VNumber n => Normal (Number_toString n)
  | VString s => Normal s
  | VArray elements =>
      (fix join (l : list value) : completion string :=
         match l with
         | [] => Normal ""
         | x :: rest =>
             let element :=
               match x with
               | VUndefined | VNull => Normal ""
               | _ => ToString x
               end in
             match element with
             | Throw e => Throw e
             | Normal s =>
                 match rest with
                 | [] => Normal s
                 | _ :: _ =>
                     match join rest with
                     | Throw e => Throw e
                     | Normal t => Normal (s ++ "," ++ t)
                     end
                 end
             end
         end) elements
  | VObject properties =>
      if has_own properties "toString"
      then Throw (TypeError "Cannot convert object to primitive value")
      else Normal "[object Object]"
  end.

(** [ToNumber]: an object is first converted to a primitive, which for
    arrays and plain objects is the string above. *)
Definition ToNumber (v : value) : completion float :=
  match v with
  | VUndefined => Normal nan
  | VNull => Normal 0%float
  | VBool true => Normal 1%float
  | VBool false => Normal 0%float
  | VNumber n => Normal n
  | VString s => Normal (StringToNumber s)
  | VArray _ | VObject _ =>
      match ToString v with
      | Throw e => Throw e
      | Normal s => Normal (StringToNumber s)
      end
  end.

(** [v > 0]: the right operand is a number, so the left one is converted
    to a number and compared; a comparison with [NaN] is false. *)
Definition greater_than_zero (v : value) : completion bool :=
  match ToNumber v with
  | Throw e => Throw e
  | Normal n => Normal (PrimFloat.ltb 0%float n)
  end.

End Coercions.

(** Values of the environment object [env]: a string or [undefined]. *)
Definition truthy (x : option string) : bool :=
  match x with
  | Some s => negb (String.eqb s "")
  | None => false
  end.

(** [x || fallback] *)
Definition or_else (x : option string) (fallback : string) : string :=
  match x with
  | Some s => if String.eqb s "" then fallback else s
  | None => fallback
  end.

(** [`${x}`] for [x : string | undefined] *)
Definition interpolate (x : option string) : string :=
  match x with
  | Some s => s
  | None => "undefined"
  end.

(* ================================================================== *)
(** ** The world the poller runs in *)

Inductive Level : Type := debug | info | warn | error.

Record LogEntry : Type := {
  level : Level;
  message : string;
  detail : option exn
}.

Record Request : Type := {
  url : string;
  method : string;
  headers : list (string * string)
}.

(** A response of [fetch]: the status line and what [json()] settles to. *)
Record Response : Type := {
  status : N;
  statusText : string;
  json : completion value
}.

(** [response.ok]: the status is in the range 200 to 299. *)
Definition ok (response : Response) : bool :=
  ((200 <=? status response) && (status response <=? 299))%N.

(** [`${response.status}`]: a status is a small non-negative integer,
    which prints in decimal. *)
Definition status_string (response : Response) : string :=
  NilZero.string_of_uint (N.to_uint (status response)).

(** How the surroundings answer one run of a poll task: the two
    configuration reads and the HTTP call, each of which may throw. *)
Record Env : Type := {
  NEXT_PUBLIC_APP_URL : completion (option string);
  CRON_SECRET : completion (option string);
  fetch : Request -> completion Response
}.

Inductive Task : Type := Schedule | Outlook.

Inductive TimerKind : Type := Interval | OneShot.

(** A [NodeJS.Timeout]: an object, hence truthy. *)
Record Timeout : Type := { timer_id : nat }.

Record Timer : Type := {
  handle : Timeout;
  kind : TimerKind;
  callback : Task;
  delay : Z;
  due : Z
}.

(** The runtime's timers: the clock in milliseconds, the next fresh
    identifier and the armed timers in order of creation. *)
Record TimerQueue : Type := {
  now : Z;
  next_id : nat;
  pending : list Timer
}.

(** The fields of the [InternalPoller] instance. *)
Record InternalPoller : Type := {
  scheduleIntervalId : option Timeout;
  outlookIntervalId : option Timeout;
  isRunning : bool
}.

Record World : Type := {
  this : InternalPoller;
  timers : TimerQueue;
  console : list string;
  logged : list LogEntry;
  network : list Request;
  bodyReads : nat;
  invocations : list (Z * Task)
}.

(** [new InternalPoller()] in a process that has armed no timer yet. *)
Definition new_InternalPoller : InternalPoller :=
  {| scheduleIntervalId := None; outlookIntervalId := None; isRunning := false |}.

Definition initial_world : World :=
  {| this := new_InternalPoller;
     timers := {| now := 0; next_id := 1; pending := [] |};
     console := []; logged := []; network := []; bodyReads := 0;
     invocations := [] |}.

(* ------------------------------------------------------------------ *)
(** *** A state monad with exceptions

    Effects made before a [throw] stay made, so the world is returned on
    both outcomes. *)

Definition M (A : Type) : Type := World -> completion A * World.

Definition ret {A} (a : A) : M A := fun w => (Normal a, w).

Definition bind {A B} (m : M A) (k : A -> M B) : M B :=
  fun w =>
    match m w with
    | (Normal a, w') => k a w'
    | (Throw e, w') => (Throw e, w')
    end.

Definition try_catch {A} (body : M A) (handler : exn -> M A) : M A :=
  fun w =>
    match body w with
    | (Normal a, w') => (Normal a, w')
    | (Throw e, w') => handler e w'
    end.

(** The outcome of an evaluation that has no effect on the world. *)
Definition lift {A} (c : completion A) : M A := fun w => (c, w).

Declare Scope poller_scope.
Delimit Scope poller_scope with poller.
Notation "x <- c1 ;; c2" := (bind c1 (fun x => c2))
  (at level 61, c1 at next level, right associativity) : poller_scope.
Notation "c1 ;; c2" := (bind c1 (fun _ => c2))
  (at level 61, right associativity) : poller_scope.
Local Open Scope poller_scope.

Definition exec {A} (m : M A) (w : World) : World := snd (m w).

(* ------------------------------------------------------------------ *)
(** *** Field updates *)

Definition with_this (p : InternalPoller) (w : World) : World :=
  {| this := p; timers := timers w; console := console w; logged := logged w;
     network := network w; bodyReads := bodyReads w;
     invocations := invocations w |}.

Definition with_timers (q : TimerQueue) (w : World) : World :=
  {| this := this w; timers := q; console := console w; logged := logged w;
     network := network w; bodyReads := bodyReads w;
     invocations := invocations w |}.

Definition with_console (c : list string) (w : World) : World :=
  {| this := this w; timers := timers w; console := c; logged := logged w;
     network := network w; bodyReads := bodyReads w;
     invocations := invocations w |}.

Definition with_logged (l : list LogEntry) (w : World) : World :=
  {| this := this w; timers := timers w; console := console w; logged := l;
     network := network w; bodyReads := bodyReads w;
     invocations := invocations w |}.

Definition with_network (n : list Request) (w : World) : World :=
  {| this := this w; timers := timers w; console := console w; logged := logged w;
     network := n; bodyReads := bodyReads w;
     invocations := invocations w |}.

Definition with_bodyReads (n : nat) (w : World) : World :=
  {| this := this w; timers := timers w; console := console w; logged := logged w;
     network := network w; bodyReads := n;
     invocations := invocations w |}.

Definition with_invocations (i : list (Z * Task)) (w : World) : World :=
  {| this := this w; timers := timers w; console := console w; logged := logged w;
     network := network w; bodyReads := bodyReads w;
     invocations := i |}.

(* ------------------------------------------------------------------ *)
(** *** Console, logger, network *)

Definition console_log (line : string) : M unit :=
  fun w => (Normal tt, with_console (console w ++ [line]) w).

Definition logger_write (l : Level) (msg : string) (d : option exn) : M unit :=
  fun w =>
    (Normal tt,
     with_logged (logged w ++ [{| level := l; message := msg; detail := d |}]) w).

Definition logger_debug (msg : string) : M unit := logger_write debug msg None.
Definition logger_info (msg : string) : M unit := logger_write info msg None.
Definition logger_warn (msg : string) : M unit := logger_write warn msg None.
Definition logger_error (msg : string) : M unit := logger_write error msg None.
Definition logger_error_with (msg : string) (e : exn) : M unit :=
  logger_write error msg (Some e).

(** [await fetch(url, init)]: the request goes out, the environment
    answers. *)
Definition await_fetch (E : Env) (request : Request) : M Response :=
  fun w => (fetch E request, with_network (network w ++ [request]) w).

(** [await response.json()]: the body is read, successfully or not. *)
Definition await_json (response : Response) : M value :=
  fun w => (json response, with_bodyReads (S (bodyReads w)) w).

(* ------------------------------------------------------------------ *)
(** *** Timers *)

(** The runtime replaces a delay below 1 or above 2^31-1 by 1. *)
Definition timer_delay (ms : Z) : Z :=
  if (ms <? 1) || (2147483647 <? ms) then 1 else ms.

Definition arm (k : TimerKind) (cb : Task) (ms : Z) : M Timeout :=
  fun w =>
    let q := timers w in
    let h := {| timer_id := next_id q |} in
    let t := {| handle := h; kind := k; callback := cb;
                delay := timer_delay ms; due := now q + timer_delay ms |} in
    (Normal h,
     with_timers {| now := now q; next_id := S (next_id q);
                    pending := pending q ++ [t] |} w).

Definition setInterval (cb : Task) (ms : Z) : M Timeout := arm Interval cb ms.
Definition setTimeout (cb : Task) (ms : Z) : M Timeout := arm OneShot cb ms.

Definition is_timer (h : Timeout) (t : Timer) : bool :=
  Nat.eqb (timer_id (handle t)) (timer_id h).

Definition clearInterval (h : Timeout) : M unit :=
  fun w =>
    let q := timers w in
    (Normal tt,
     with_timers {| now := now q; next_id := next_id q;
                    pending := filter (fun t => negb (is_timer h t)) (pending q) |} w).

(* ------------------------------------------------------------------ *)
(** *** The fields of [this] *)

Definition get_isRunning : M bool := fun w => (Normal (isRunning (this w)), w).
Definition get_scheduleIntervalId : M (option Timeout) :=
  fun w => (Normal (scheduleIntervalId (this w)), w).
Definition get_outlookIntervalId : M (option Timeout) :=
  fun w => (Normal (outlookIntervalId (this w)), w).

Definition set_isRunning (b : bool) : M unit :=
  fun w =>
    (Normal tt,
     with_this {| scheduleIntervalId := scheduleIntervalId (this w);
                  outlookIntervalId := outlookIntervalId (this w);
                  isRunning := b |} w).

Definition set_scheduleIntervalId (h : option Timeout) : M unit :=
  fun w =>
    (Normal tt,
     with_this {| scheduleIntervalId := h;
                  outlookIntervalId := outlookIntervalId (this w);
                  isRunning := isRunning (this w) |} w).

Definition set_outlookIntervalId (h : option Timeout) : M unit :=
  fun w =>
    (Normal tt,
     with_this {| scheduleIntervalId := scheduleIntervalId (this w);
                  outlookIntervalId := h;
                  isRunning := isRunning (this w) |} w).

(* ================================================================== *)
(** ** class InternalPoller *)

(** [start()] *)
Definition start : M unit :=
  console_log "[InternalPoller] start() called" ;;
  running <- get_isRunning ;;
  if running then
    console_log "[InternalPoller] Already running, skipping" ;;
    logger_warn "Internal poller already running"
  else
    console_log "[InternalPoller] Starting internal polling service..." ;;
    logger_info "Starting internal polling service..." ;;
    set_isRunning true ;;
    scheduleId <- setInterval Schedule (60 * 1000) ;;
    set_scheduleIntervalId (Some scheduleId) ;;
    outlookId <- setInterval Outlook (60 * 1000) ;;
    set_outlookIntervalId (Some outlookId) ;;
    setTimeout Schedule 5000 ;;
    setTimeout Outlook 10000 ;;
    console_log "[InternalPoller] Service started successfully" ;;
    logger_info "Internal polling service started successfully" ;;
    logger_info "- Schedule polling: every 60 seconds" ;;
    logger_info "- Outlook polling: every 60 seconds" ;;
    console_log "[InternalPoller] Timers set: schedules in 5s, outlook in 10s".

(** [stop()] *)
Definition stop : M unit :=
  running <- get_isRunning ;;
  if negb running then
    ret tt
  else
    logger_info "Stopping internal polling service..." ;;
    (scheduleId <- get_scheduleIntervalId ;;
     match scheduleId with
     | Some h => clearInterval h ;; set_scheduleIntervalId None
     | None => ret tt
     end) ;;
    (outlookId <- get_outlookIntervalId ;;
     match outlookId with
     | Some h => clearInterval h ;; set_outlookIntervalId None
     | None => ret tt
     end) ;;
    set_isRunning false ;;
    logger_info "Internal polling service stopped".

Section Tasks.
Context {R : Runtime}.

(** The [try] block of [pollSchedules()]. *)
Definition pollSchedules_try (E : Env) : M unit :=
    (configured <- lift (NEXT_PUBLIC_APP_URL E) ;;
     let appUrl := or_else configured "http://localhost:3000" in
     cronSecret <- lift (CRON_SECRET E) ;;
     if negb (truthy cronSecret) then
       logger_warn "CRON_SECRET not configured - skipping schedule polling"
     else
       let url := appUrl ++ "/api/schedules/execute" in
       logger_debug "Polling schedules..." ;;
       response <- await_fetch E
         {| url := url; method := "GET";
            headers := [("Authorization", "Bearer " ++ interpolate cronSecret)] |} ;;
       if negb (ok response) then
         logger_error ("Schedule polling failed: " ++ status_string response
                       ++ " " ++ statusText response)
       else
         data <- await_json response ;;
         executedCount <- lift (Get data "executedCount") ;;
         positive <- lift (greater_than_zero executedCount) ;;
         if positive then
           executedCount <- lift (Get data "executedCount") ;;
           shown <- lift (ToString executedCount) ;;
           logger_info ("Schedule poll completed: " ++ shown ++ " workflows executed")
         else
           logger_debug "Schedule poll completed: no workflows due").

(** [pollSchedules()] *)
Definition pollSchedules (E : Env) : M unit :=
  try_catch (pollSchedules_try E)
    (fun error => logger_error_with "Error polling schedules:" error).

(** The [try] block of [pollOutlook()]. *)
Definition pollOutlook_try (E : Env) : M unit :=
    (configured <- lift (NEXT_PUBLIC_APP_URL E) ;;
     let appUrl := or_else configured "http://localhost:3000" in
     cronSecret <- lift (CRON_SECRET E) ;;
     if negb (truthy cronSecret) then
       logger_warn "CRON_SECRET not configured - skipping Outlook polling"
     else
       let url := appUrl ++ "/api/webhooks/poll/outlook" in
       logger_debug "Polling Outlook..." ;;
       response <- await_fetch E
         {| url := url; method := "GET";
            headers := [("Authorization", "Bearer " ++ interpolate cronSecret)] |} ;;
       if negb (ok response) then
         logger_error ("Outlook polling failed: " ++ status_string response
                       ++ " " ++ statusText response)
       else
         data <- await_json response ;;
         total <- lift (Get data "total") ;;
         positive <- lift (greater_than_zero total) ;;
         if positive then
           total <- lift (Get data "total") ;;
           shownTotal <- lift (ToString total) ;;
           successful <- lift (Get data "successful") ;;
           shownSuccessful <- lift (ToString successful) ;;
           logger_info ("Outlook poll completed: " ++ shownTotal
                        ++ " webhooks checked, " ++ shownSuccessful ++ " successful")
         else
           logger_debug "Outlook poll completed: no active webhooks").

(** [pollOutlook()] *)
Definition pollOutlook (E : Env) : M unit :=
  try_catch (pollOutlook_try E)
    (fun error => logger_error_with "Error polling Outlook:" error).

(** What a timer calls: [() => this.pollSchedules()] and the like. *)
Definition run_callback (E : Env) (cb : Task) : M unit :=
  match cb with
  | Schedule => pollSchedules E
  | Outlook => pollOutlook E
  end.

End Tasks.

(* ================================================================== *)
(** ** Simulated time *)

(** The armed timer that is due first; among timers due at the same
    instant, the one armed first. *)
Fixpoint earliest (l : list Timer) : option Timer :=
  match l with
  | [] => None
  | t :: rest =>
      match earliest rest with
      | Some u => if due u <? due t then Some u else Some t
      | None => Some t
      end
  end.

Definition postpone (t : Timer) : Timer :=
  {| handle := handle t; kind := kind t; callback := callback t;
     delay := delay t; due := due t + delay t |}.

(** A recurring timer that fired is due again one period later; a
    one-shot timer is gone. *)
Definition after_firing (t : Timer) (l : list Timer) : list Timer :=
  match kind t with
  | Interval => map (fun u => if is_timer (handle t) u then postpone u else u) l
  | OneShot => filter (fun u => negb (is_timer (handle t) u)) l
  end.

(** The next timer to fire on the way to [target], and the queue once it
    has been taken. *)
Definition next_fire (target : Z) (q : TimerQueue) : option (Timer * TimerQueue) :=
  match earliest (pending q) with
  | Some t =>
      if due t <=? target
      then Some (t, {| now := Z.max (now q) (due t); next_id := next_id q;
                       pending := after_firing t (pending q) |})
      else None
  | None => None
  end.

Definition settle (target : Z) (q : TimerQueue) : TimerQueue :=
  {| now := Z.max (now q) target; next_id := next_id q; pending := pending q |}.

(** How advancing the clock ends: every timer due was run; a callback
    threw (an unhandled rejection, which ends the process); or the fuel
    ran out before the target. *)
Inductive Run : Type :=
| Done (w : World)
| Crashed (e : exn) (w : World)
| OutOfFuel.

Section EventLoop.
Context {R : Runtime}.

(** Advance the clock to [target], firing the timers due on the way in
    order.  [B n] is how the surroundings answer the [n]-th callback. *)
Fixpoint advanceTimersTo (fuel : nat) (B : nat -> Env) (target : Z) (w : World)
  : Run :=
  match next_fire target (timers w) with
  | None => Done (with_timers (settle target (timers w)) w)
  | Some (t, q) =>
      match fuel with
      | O => OutOfFuel
      | S fuel' =>
          let w1 := with_invocations (invocations w ++ [(due t, callback t)])
                      (with_timers q w) in
          match run_callback (B (List.length (invocations w))) (callback t) w1 with
          | (Normal _, w2) => advanceTimersTo fuel' B target w2
          | (Throw e, w2) => Crashed e w2
          end
      end
  end.

(** The worlds a process can be in: [start()], [stop()] and the passing
    of time, from a fresh poller. *)
Inductive reachable : World -> Prop :=
| reach_initial : reachable initial_world
| reach_start w : reachable w -> reachable (exec start w)
| reach_stop w : reachable w -> reachable (exec stop w)
| reach_advance w fuel B target w' :
    reachable w -> advanceTimersTo fuel B target w = Done w' -> reachable w'.

End EventLoop.

(** The timers alone: which callbacks fire on the way to [target], and
    the queue afterwards. *)
Fixpoint drain (fuel : nat) (target : Z) (q : TimerQueue)
  : option (list (Z * Task) * TimerQueue) :=
  match next_fire target q with
  | None => Some ([], settle target q)
  | Some (t, q') =>
      match fuel with
      | O => None
      | S fuel' =>
          match drain fuel' target q' with
          | Some (trace, q'') => Some ((due t, callback t) :: trace, q'')
          | None => None
          end
      end
  end.

(* ================================================================== *)
(** ** Vocabulary of the statements *)

Definition Task_eqb (a b : Task) : bool :=
  match a, b with
  | Schedule, Schedule | Outlook, Outlook => true
  | _, _ => false
  end.

(** How often [cb] was invoked in a trace of invocations. *)
Definition fires (cb : Task) (trace : list (Z * Task)) : nat :=
  List.length (filter (fun p => Task_eqb (snd p) cb) trace).

Definition is_recurring (cb : Task) (t : Timer) : bool :=
  match kind t with
  | Interval => Task_eqb (callback t) cb
  | OneShot => false
  end.

(** The number of armed recurring timers that call [cb]. *)
Definition recurring (cb : Task) (q : TimerQueue) : nat :=
  List.length (filter (is_recurring cb) (pending q)).

(** The invariant of the data model: a stopped poller holds no handle. *)
Definition PollerState_invariant (p : InternalPoller) : Prop :=
  isRunning p = false ->
  scheduleIntervalId p = None /\ outlookIntervalId p = None.

Inductive Call : Type := Start | Stop.

Definition call (c : Call) : M unit :=
  match c with
  | Start => start
  | Stop => stop
  end.

Definition run_calls (cs : list Call) (w : World) : World :=
  fold_left (fun w c => exec (call c) w) cs w.

(** The four timers a [start()] that takes effect arms on the queue [q]. *)
Definition armed_by_start (q : TimerQueue) : list Timer :=
  [ {| handle := {| timer_id := next_id q |}; kind := Interval;
       callback := Schedule; delay := 60000; due := now q + 60000 |};
    {| handle := {| timer_id := S (next_id q) |}; kind := Interval;
       callback := Outlook; delay := 60000; due := now q + 60000 |};
    {| handle := {| timer_id := S (S (next_id q)) |}; kind := OneShot;
       callback := Schedule; delay := 5000; due := now q + 5000 |};
    {| handle := {| timer_id := S (S (S (next_id q))) |}; kind := OneShot;
       callback := Outlook; delay := 10000; due := now q + 10000 |} ].

Definition entry (l : Level) (msg : string) : LogEntry :=
  {| level := l; message := msg; detail := None |}.

(** The one request of a poll task. *)
Definition poll_request (path : string) (configured cronSecret : option string)
  : Request :=
  {| url := or_else configured "http://localhost:3000" ++ path;
     method := "GET";
     headers := [("Authorization", "Bearer " ++ interpolate cronSecret)] |}.

Definition schedule_request := poll_request "/api/schedules/execute".
Definition outlook_request := poll_request "/api/webhooks/poll/outlook".

(** The configuration is readable and holds an auth token. *)
Definition configured_with (E : Env) (configured cronSecret : option string) : Prop :=
  NEXT_PUBLIC_APP_URL E = Normal configured /\
  CRON_SECRET E = Normal cronSecret /\
  truthy cronSecret = true.

(** The world after a task sent [request] and logged [entries], having
    read [reads] response bodies. *)
Definition polled (w : World) (request : Request) (reads : nat)
    (entries : list LogEntry) : World :=
  with_logged (logged w ++ entries)
    (with_bodyReads (reads + bodyReads w)
       (with_network (network w ++ [request]) w)).


(** The queue once the timer behind a handle field has been cleared. *)
Definition cleared (h : option Timeout) (l : list Timer) : list Timer :=
  match h with
  | Some t => filter (fun u => negb (is_timer t u)) l
  | None => l
  end.

Definition is_interval (t : Timer) : bool :=
  match kind t with
  | Interval => true
  | OneShot => false
  end.

(** The armed recurring timers: their handles and what they call. *)
Definition recurring_timers (q : TimerQueue) : list (Timeout * Task) :=
  map (fun t => (handle t, callback t)) (filter is_interval (pending q)).

Definition identifiers (l : list Timer) : list nat :=
  map (fun t => timer_id (handle t)) l.

(** Identifiers are handed out once, in increasing order. *)
Definition well_formed (q : TimerQueue) : Prop :=
  NoDup (identifiers (pending q)) /\
  Forall (fun t => (timer_id (handle t) < next_id q)%nat) (pending q).

(** The poller and the runtime agree: a running poller holds the handles
    of the only two recurring timers, one per task; a stopped poller
    holds none and no recurring timer is armed. *)
Definition consistent (w : World) : Prop :=
  well_formed (timers w) /\
  if isRunning (this w)
  then exists h1 h2,
         scheduleIntervalId (this w) = Some h1 /\
         outlookIntervalId (this w) = Some h2 /\
         recurring_timers (timers w) = [(h1, Schedule); (h2, Outlook)]
  else scheduleIntervalId (this w) = None /\
       outlookIntervalId (this w) = None /\
       recurring_timers (timers w) = [].

(** Which invocations advancing the clock adds, if it comes to an end. *)
Definition trace_of (r : Run) : option (list (Z * Task)) :=
  match r with
  | Done w => Some (invocations w)
  | _ => None
  end.

(** A computation that leaves the poller, the timers and the record of
    invocations as they are, however it completes. *)
Definition frames {A} (m : M A) : Prop :=
  forall w c w',
    m w = (c, w') ->
    this w' = this w /\ timers w' = timers w /\ invocations w' = invocations w.

(** The [try] block and the [catch] message of each task. *)
Definition run_try {R : Runtime} (E : Env) (cb : Task) : M unit :=
  match cb with
  | Schedule => pollSchedules_try E
  | Outlook => pollOutlook_try E
  end.

Definition catch_message (cb : Task) : string :=
  match cb with
  | Schedule => "Error polling schedules:"
  | Outlook => "Error polling Outlook:"
  end.

Definition caught (cb : Task) (e : exn) : LogEntry :=
  {| level := error; message := catch_message cb; detail := Some e |}.

(** The counts for which [count > 0] is false: a missing field, [null],
    [false], a number that is not greater than zero ([NaN] included), and
    a string, array or object whose conversion to a number is not greater
    than zero. *)
Inductive count_not_positive {R : Runtime} : value -> Prop :=
| absent_count : count_not_positive VUndefined
| null_count : count_not_positive VNull
| false_count : count_not_positive (VBool false)
| number_count n :
    PrimFloat.ltb 0%float n = false -> count_not_positive (VNumber n)
| string_count s :
    PrimFloat.ltb 0%float (StringToNumber s) = false ->
    count_not_positive (VString s)
| array_count elements s :
    ToString (VArray elements) = Normal s ->
    PrimFloat.ltb 0%float (StringToNumber s) = false ->
    count_not_positive (VArray elements)
| object_count properties s :
    ToString (VObject properties) = Normal s ->
    PrimFloat.ltb 0%float (StringToNumber s) = false ->
    count_not_positive (VObject properties).

(* ================================================================== *)
(** ** Further vocabulary *)

(** The path each task polls. *)
Definition endpoint (cb : Task) : string :=
  match cb with
  | Schedule => "/api/schedules/execute"
  | Outlook => "/api/webhooks/poll/outlook"
  end.

(** The delay each timer of the poller is armed with. *)
Definition period_of (k : TimerKind) (cb : Task) : Z :=
  match k, cb with
  | Interval, _ => 60000
  | OneShot, Schedule => 5000
  | OneShot, Outlook => 10000
  end.

Definition periods_fixed (q : TimerQueue) : Prop :=
  Forall (fun t => delay t = period_of (kind t) (callback t)) (pending q).

(** What two recurring timers due together at [D] fire in [k + 1] rounds,
    60 seconds apart. *)
Fixpoint rounds_trace (D : Z) (k : nat) : list (Z * Task) :=
  match k with
  | O => [(D, Schedule); (D, Outlook)]
  | S k' => (D, Schedule) :: (D, Outlook) :: rounds_trace (D + 60000) k'
  end.

(** How often a timer still fires on the way to [T]. *)
Definition fires_left (T : Z) (t : Timer) : nat :=
  if due t <=? T
  then match kind t with
       | OneShot => 1
       | Interval => S (Z.to_nat ((T - due t) / delay t))
       end
  else 0.

(** The callbacks still to run on the way to [T]: enough fuel for it. *)
Definition load (T : Z) (q : TimerQueue) : nat :=
  list_sum (map (fires_left T) (pending q)).

(** The debug line each task logs before its request. *)
Definition polling_message (cb : Task) : string :=
  match cb with
  | Schedule => "Polling schedules..."
  | Outlook => "Polling Outlook..."
  end.

(* ================================================================== *)
(** ** The bootstrap (instrumentation.ts, instrumentation-node.ts)

    The bootstrap talks to code outside the repository (the tracing SDK,
    the module loader, [process]).  Each such step is recorded as an
    effect and answered by the host: it completes or it throws.  Objects
    the SDK hands back are opaque; an effect records the plain data it
    was given. *)

Inductive Effect : Type :=
| ImportModule (specifier : string)
| Construct (class : string) (arguments : list value)
| Invoke (function : string) (arguments : list value).

(** What the bootstrap finds: the process environment, the application's
    [env] object (whose reads may throw), the default export of
    [./telemetry.config] (or the failure to import it), and the answer to
    the [n]-th effect. *)
Record Host : Type := {
  NODE_ENV : option string;
  ENABLE_POLLING : option string;
  NEXT_RUNTIME : option string;
  window_defined : bool;
  NEXT_TELEMETRY_DISABLED : completion (option string);
  TELEMETRY_ENDPOINT : option string;
  env_NODE_ENV : completion (option string);
  telemetry_config : completion value;
  edge_exports_register : bool;
  answer : nat -> Effect -> completion unit
}.

(** The process: the poller module's world (its singleton, the timers,
    and the console, which is shared), the effects so far, what the
    bootstrap's own logger was given, and [console.error]. *)
Record Process : Type := {
  poller : World;
  effects : list Effect;
  otel_logged : list LogEntry;
  console_errors : list (string * exn)
}.

Definition initial_process : Process :=
  {| poller := initial_world; effects := []; otel_logged := [];
     console_errors := [] |}.

Definition MB (A : Type) : Type := Process -> completion A * Process.

Definition retP {A} (a : A) : MB A := fun p => (Normal a, p).

Definition bindP {A B} (m : MB A) (k : A -> MB B) : MB B :=
  fun p =>
    match m p with
    | (Normal a, p') => k a p'
    | (Throw e, p') => (Throw e, p')
    end.

Definition try_catchP {A} (body : MB A) (handler : exn -> MB A) : MB A :=
  fun p =>
    match body p with
    | (Normal a, p') => (Normal a, p')
    | (Throw e, p') => handler e p'
    end.

Definition liftP {A} (c : completion A) : MB A := fun p => (c, p).

Definition execP {A} (m : MB A) (p : Process) : Process := snd (m p).

Declare Scope boot_scope.
Delimit Scope boot_scope with boot.
Notation "x <- c1 ;; c2" := (bindP c1 (fun x => c2))
  (at level 61, c1 at next level, right associativity) : boot_scope.
Notation "c1 ;; c2" := (bindP c1 (fun _ => c2))
  (at level 61, right associativity) : boot_scope.
Local Open Scope boot_scope.

(** A call into the poller module. *)
Definition in_poller {A} (m : M A) : MB A :=
  fun p =>
    let (c, w) := m (poller p) in
    (c, {| poller := w; effects := effects p; otel_logged := otel_logged p;
           console_errors := console_errors p |}).

(** [console.log(line)] *)
Definition print (line : string) : MB unit := in_poller (console_log line).

(** [console.error(line, error)] *)
Definition print_error (line : string) (e : exn) : MB unit :=
  fun p =>
    (Normal tt,
     {| poller := poller p; effects := effects p; otel_logged := otel_logged p;
        console_errors := (console_errors p ++ [(line, e)])%list |}).

Definition otel_write (l : Level) (msg : string) (d : option exn) : MB unit :=
  fun p =>
    (Normal tt,
     {| poller := poller p; effects := effects p;
        otel_logged := (otel_logged p
                        ++ [{| level := l; message := msg; detail := d |}])%list;
        console_errors := console_errors p |}).

Definition otel_info (msg : string) : MB unit := otel_write info msg None.
Definition otel_error (msg : string) (e : exn) : MB unit :=
  otel_write error msg (Some e).

Definition record (x : Effect) (p : Process) : Process :=
  {| poller := poller p; effects := (effects p ++ [x])%list;
     otel_logged := otel_logged p; console_errors := console_errors p |}.

(** An effect: it is recorded, and the host answers. *)
Definition perform (H : Host) (x : Effect) : MB unit :=
  fun p => (answer H (List.length (effects p)) x, record x p).

(** [(await import('./telemetry.config')).default] *)
Definition import_telemetry_config (H : Host) : MB value :=
  fun p => (telemetry_config H, record (ImportModule "./telemetry.config") p).

(** [x === s] for [x : string | undefined] *)
Definition is_string (x : option string) (s : string) : bool :=
  match x with
  | Some y => String.eqb y s
  | None => false
  end.

(** [v === false] *)
Definition strictly_false (v : value) : bool :=
  match v with
  | VBool false => true
  | _ => false
  end.

(** [v?.key] *)
Definition optional_Get (v : value) (key : string) : completion value :=
  match v with
  | VUndefined | VNull => Normal VUndefined
  | _ => Get v key
  end.

(** [telemetryConfig.batchSettings.key] *)
Definition batch_setting (telemetryConfig : value) (key : string)
  : completion value :=
  match Get telemetryConfig "batchSettings" with
  | Normal batchSettings => Get batchSettings key
  | Throw e => Throw e
  end.

Module InstrumentationNode.

(** [DEFAULT_TELEMETRY_CONFIG], with [env.TELEMETRY_ENDPOINT] as it read
    when the module was loaded. *)
Definition DEFAULT_TELEMETRY_CONFIG (H : Host) : value :=
  VObject
    [("endpoint",
      VString (or_else (TELEMETRY_ENDPOINT H)
                 "https://telemetry.simstudio.ai/v1/traces"));
     ("serviceName", VString "sim-studio");
     ("serviceVersion", VString "0.1.0");
     ("serverSide", VObject [("enabled", VBool true)]);
     ("batchSettings",
      VObject [("maxQueueSize", VNumber 2048%float);
               ("maxExportBatchSize", VNumber 512%float);
               ("scheduledDelayMillis", VNumber 5000%float);
               ("exportTimeoutMillis", VNumber 30000%float)])].

(** [shutdownHandler], the listener for [SIGTERM] and [SIGINT]. *)
Definition shutdownHandler (H : Host) : MB unit :=
  try_catchP
    (perform H (Invoke "sdk.shutdown" []) ;;
     otel_info "OpenTelemetry SDK shut down successfully")
    (fun err => otel_error "Error shutting down OpenTelemetry SDK" err).

(** From the imports of the SDK to [sdk.start()] and the listeners.  The
    keys computed from the SDK's constants are recorded under the names
    of the constants. *)
Definition start_sdk (H : Host) (telemetryConfig : value) : MB unit :=
  perform H (ImportModule "@opentelemetry/sdk-node") ;;
  perform H (ImportModule "@opentelemetry/resources") ;;
  perform H (ImportModule "@opentelemetry/semantic-conventions/incubating") ;;
  perform H (ImportModule "@opentelemetry/exporter-trace-otlp-http") ;;
  perform H (ImportModule "@opentelemetry/sdk-trace-node") ;;
  perform H (ImportModule "@opentelemetry/sdk-trace-base") ;;
  url <- liftP (Get telemetryConfig "endpoint") ;;
  timeoutMillis <- liftP (batch_setting telemetryConfig "exportTimeoutMillis") ;;
  perform H (Construct "OTLPTraceExporter"
               [VObject [("url", url); ("headers", VObject []);
                         ("timeoutMillis", timeoutMillis)]]) ;;
  maxQueueSize <- liftP (batch_setting telemetryConfig "maxQueueSize") ;;
  maxExportBatchSize <- liftP (batch_setting telemetryConfig "maxExportBatchSize") ;;
  scheduledDelayMillis <-
    liftP (batch_setting telemetryConfig "scheduledDelayMillis") ;;
  exportTimeoutMillis <-
    liftP (batch_setting telemetryConfig "exportTimeoutMillis") ;;
  perform H (Construct "BatchSpanProcessor"
               [VObject [("maxQueueSize", maxQueueSize);
                         ("maxExportBatchSize", maxExportBatchSize);
                         ("scheduledDelayMillis", scheduledDelayMillis);
                         ("exportTimeoutMillis", exportTimeoutMillis)]]) ;;
  perform H (Invoke "defaultResource" []) ;;
  serviceName <- liftP (Get telemetryConfig "serviceName") ;;
  serviceVersion <- liftP (Get telemetryConfig "serviceVersion") ;;
  environment <- liftP (env_NODE_ENV H) ;;
  perform H (Invoke "resourceFromAttributes"
               [VObject [("ATTR_SERVICE_NAME", serviceName);
                         ("ATTR_SERVICE_VERSION", serviceVersion);
                         ("ATTR_DEPLOYMENT_ENVIRONMENT",
                          VString (or_else environment "development"));
                         ("service.namespace", VString "sim-ai-platform");
                         ("telemetry.sdk.name", VString "opentelemetry");
                         ("telemetry.sdk.language", VString "nodejs");
                         ("telemetry.sdk.version", VString "1.0.0")]]) ;;
  perform H (Invoke "merge" []) ;;
  perform H (Construct "TraceIdRatioBasedSampler"
               [VNumber 0x1.999999999999ap-4%float]) ;;
  perform H (Construct "ParentBasedSampler" []) ;;
  perform H (Construct "NodeSDK" []) ;;
  perform H (Invoke "sdk.start" []) ;;
  perform H (Invoke "process.on" [VString "SIGTERM"]) ;;
  perform H (Invoke "process.on" [VString "SIGINT"]) ;;
  otel_info "OpenTelemetry instrumentation initialized".

(** The [try] block of [initializeOpenTelemetry()]. *)
Definition initializeOpenTelemetry_try (H : Host) : MB unit :=
  disabled <- liftP (NEXT_TELEMETRY_DISABLED H) ;;
  if is_string disabled "1" then
    otel_info "OpenTelemetry disabled via NEXT_TELEMETRY_DISABLED=1"
  else
    telemetryConfig <-
      try_catchP (import_telemetry_config H)
        (fun _ => retP (DEFAULT_TELEMETRY_CONFIG H)) ;;
    serverSide <- liftP (Get telemetryConfig "serverSide") ;;
    enabled <- liftP (optional_Get serverSide "enabled") ;;
    if strictly_false enabled then
      otel_info "Server-side OpenTelemetry disabled in config"
    else
      start_sdk H telemetryConfig.

(** [initializeOpenTelemetry()] *)
Definition initializeOpenTelemetry (H : Host) : MB unit :=
  try_catchP (initializeOpenTelemetry_try H)
    (fun error =>
       otel_error "Failed to initialize OpenTelemetry instrumentation" error).

(** Whether [register()] starts the poller. *)
Definition polling_enabled (H : Host) : bool :=
  is_string (NODE_ENV H) "production" || is_string (ENABLE_POLLING H) "true".

(** [register()] of instrumentation-node.ts *)
Definition register (H : Host) : MB unit :=
  print "[OTelInstrumentation] register() starting..." ;;
  print ("[OTelInstrumentation] NODE_ENV: " ++ interpolate (NODE_ENV H)) ;;
  print ("[OTelInstrumentation] ENABLE_POLLING: "
         ++ interpolate (ENABLE_POLLING H)) ;;
  initializeOpenTelemetry H ;;
  print "[OTelInstrumentation] Checking if should start polling..." ;;
  (if polling_enabled H then
     print "[OTelInstrumentation] Condition met, importing internal-poller..." ;;
     try_catchP
       (perform H (ImportModule "./lib/polling/internal-poller") ;;
        print "[OTelInstrumentation] internal-poller imported, calling start()..." ;;
        in_poller start ;;
        print "[OTelInstrumentation] Internal polling service registered" ;;
        otel_info "Internal polling service registered")
       (fun error =>
          print_error
            "[OTelInstrumentation] Failed to start internal polling service:"
            error ;;
          otel_error "Failed to start internal polling service" error)
   else
     print "[OTelInstrumentation] Polling not enabled (not production and ENABLE_POLLING not true)") ;;
  print "[OTelInstrumentation] register() completed".

End InstrumentationNode.

Module Instrumentation.

(** Whether the entry point loads the Node.js instrumentation. *)
Definition loads_node (H : Host) : bool :=
  is_string (NEXT_RUNTIME H) "nodejs"
  || (negb (truthy (NEXT_RUNTIME H)) && negb (window_defined H)).

(** [register()] of instrumentation.ts, the entry point. *)
Definition register (H : Host) : MB unit :=
  print ("[Instrumentation] register() called, NEXT_RUNTIME: "
         ++ interpolate (NEXT_RUNTIME H)) ;;
  (if loads_node H then
     print "[Instrumentation] Loading Node.js instrumentation..." ;;
     perform H (ImportModule "./instrumentation-node") ;;
     InstrumentationNode.register H
   else retP tt) ;;
  (if is_string (NEXT_RUNTIME H) "edge" then
     print "[Instrumentation] Loading Edge instrumentation..." ;;
     perform H (ImportModule "./instrumentation-edge") ;;
     if edge_exports_register H
     then perform H (Invoke "instrumentation-edge.register" [])
     else retP tt
   else retP tt) ;;
  (if window_defined H then
     print "[Instrumentation] Loading client instrumentation..." ;;
     perform H (ImportModule "./instrumentation-client")
   else retP tt).

End Instrumentation.

Local Close Scope boot_scope.

Definition set_poller (w : World) (p : Process) : Process :=
  {| poller := w; effects := effects p; otel_logged := otel_logged p;
     console_errors := console_errors p |}.

(** A step of the bootstrap that neither reads nor writes the poller
    module's world. *)
Definition ignores_poller {A} (m : MB A) : Prop :=
  forall p w, m (set_poller w p) = (fst (m p), set_poller w (snd (m p))).

(** The host whose [./telemetry.config] exports [config]. *)
Definition with_telemetry_config (config : completion value) (H : Host) : Host :=
  {| NODE_ENV := NODE_ENV H; ENABLE_POLLING := ENABLE_POLLING H;
     NEXT_RUNTIME := NEXT_RUNTIME H; window_defined := window_defined H;
     NEXT_TELEMETRY_DISABLED := NEXT_TELEMETRY_DISABLED H;
     TELEMETRY_ENDPOINT := TELEMETRY_ENDPOINT H;
     env_NODE_ENV := env_NODE_ENV H;
     telemetry_config := config;
     edge_exports_register := edge_exports_register H;
     answer := answer H |}.

Definition otel_entry (l : Level) (msg : string) (d : option exn) : LogEntry :=
  {| level := l; message := msg; detail := d |}.

(** The process after [console.log] of some lines. *)
Definition printed (lines : list string) (p : Process) : Process :=
  set_poller (with_console (console (poller p) ++ lines) (poller p)) p.

(** The import of the poller module by the bootstrap. *)
Definition poller_import : Effect := ImportModule "./lib/polling/internal-poller".

(** The process after its logger was given [e], and after
    [console.error(line, e)]. *)
Definition noted (e : LogEntry) (p : Process) : Process :=
  {| poller := poller p; effects := effects p;
     otel_logged := (otel_logged p ++ [e])%list;
     console_errors := console_errors p |}.

Definition complained (line : string) (e : exn) (p : Process) : Process :=
  {| poller := poller p; effects := effects p; otel_logged := otel_logged p;
     console_errors := (console_errors p ++ [(line, e)])%list |}.

(** The import of the Node.js instrumentation by the entry point. *)
Definition node_import : Effect := ImportModule "./instrumentation-node".

(* ================================================================== *)
(** ** A runtime and surroundings for closed examples *)

Definition integer_of_float (f : float) : option Z :=
  match Prim2SF f with
  | S754_zero _ => Some 0
  | S754_finite negative m e =>
      let magnitude :=
        if 0 <=? e then Some (Z.pos m * 2 ^ e)
        else if Z.pos m mod 2 ^ (- e) =? 0 then Some (Z.pos m / 2 ^ (- e))
        else None in
      match magnitude with
      | Some z => Some (if negative then - z else z)
      | None => None
      end
  | _ => None
  end.

(** A runtime to evaluate examples with.  On what the examples use
    (integers of magnitude at most 2^53, [NaN], the infinities, and
    numerals made of decimal digits) it converts as ECMAScript does; on
    the rest it answers the empty string and [NaN], which no example
    relies on.  Every theorem holds for every runtime. *)
Definition sample_Number_toString (f : float) : string :=
  match Prim2SF f with
  | S754_nan => "NaN"
  | S754_infinity false => "Infinity"
  | S754_infinity true => "-Infinity"
  | _ =>
      match integer_of_float f with
      | Some z => if Z.abs z <=? 2 ^ 53 then NilZero.string_of_int (Z.to_int z) else ""
      | None => ""
      end
  end.

Definition sample_StringToNumber (s : string) : float :=
  match s with
  | EmptyString => 0%float
  | _ =>
      match NilZero.uint_of_string s with
      | Some d => SF2Prim (binary_normalize prec emax (Z.of_uint d) 0 false)
      | None => nan
      end
  end.

Definition sample_runtime : Runtime :=
  {| StringToNumber := sample_StringToNumber;
     Number_toString := sample_Number_toString |}.

(** Surroundings with the default base URL, the given token, and one
    answer to whatever is requested. *)
Definition sample_env (cronSecret : option string) (answer : completion Response)
  : Env :=
  {| NEXT_PUBLIC_APP_URL := Normal None;
     CRON_SECRET := Normal cronSecret;
     fetch := fun _ => answer |}.

Definition response_200 (body : completion value) : Response :=
  {| status := 200; statusText := "OK"; json := body |}.

Definition response_500 : Response :=
  {| status := 500; statusText := "Internal Server Error";
     json := Normal (VObject [("error", VString "boom")]) |}.

(** Surroundings without an auth token in which the base URL cannot be
    read: the read of [env.NEXT_PUBLIC_APP_URL] throws. *)
Definition unreadable_base_url : Env :=
  {| NEXT_PUBLIC_APP_URL := Throw (Thrown "Invalid environment variables");
     CRON_SECRET := Normal None;
     fetch := fun _ => Throw (Thrown "unreachable") |}.

(** Surroundings without an auth token, whenever a callback runs. *)
Definition unconfigured : nat -> Env :=
  fun _ => sample_env None (Throw (Thrown "unreachable")).

Definition sample_request (path : string) : Request :=
  poll_request path None (Some "secret").

(** A host on which every effect completes and no configuration is set,
    in production or not. *)
Definition quiet_host (node_env : option string) : Host :=
  {| NODE_ENV := node_env; ENABLE_POLLING := None; NEXT_RUNTIME := None;
     window_defined := false;
     NEXT_TELEMETRY_DISABLED := Normal None;
     TELEMETRY_ENDPOINT := None;
     env_NODE_ENV := Normal node_env;
     telemetry_config := Throw (Thrown "Cannot find module './telemetry.config'");
     edge_exports_register := false;
     answer := fun _ _ => Normal tt |}.


Example sample_numbers :
  sample_StringToNumber "3" = 3%float /\
  sample_Number_toString 3%float = "3" /\
  sample_Number_toString (-1)%float = "-1" /\
  sample_Number_toString 0%float = "0".
Proof. repeat split; vm_compute; reflexivity. Qed.

(* ================================================================== *)
(** ** The poll tasks *)

Ltac unfold_task :=
  unfold run_callback, run_try, pollSchedules, pollOutlook, pollSchedules_try,
    pollOutlook_try, try_catch, bind, lift, ret, await_fetch, await_json,
    logger_warn, logger_debug, logger_info, logger_error, logger_error_with,
    logger_write, polled, caught, entry, schedule_request, outlook_request,
    poll_request in *.

(** C2.  Whatever the configuration reads, the HTTP call and the decoding
    of the body do, throwing included, a poll task resolves: if its [try]
    block completes, the task ends in the world the block left; if the
    block throws, the exception is logged at error level and the task
    still resolves. *)
Theorem poll_task_never_throws {R : Runtime} (E : Env) (cb : Task) (w : World) :
  exists w',
    run_callback E cb w = (Normal tt, w') /\
    (forall w1, run_try E cb w = (Normal tt, w1) -> w' = w1) /\
    (forall e w1, run_try E cb w = (Throw e, w1) ->
       w' = with_logged (logged w1 ++ [caught cb e]) w1).
Proof.
  destruct cb; unfold run_callback, run_try, pollSchedules, pollOutlook, try_catch.
  - destruct (pollSchedules_try E w) as [[[] | e] w1] eqn:Htry.
    + exists w1; repeat split; intros; congruence.
    + eexists; split; [reflexivity|].
      split; intros; [congruence|].
      inversion H; subst; reflexivity.
  - destruct (pollOutlook_try E w) as [[[] | e] w1] eqn:Htry.
    + exists w1; repeat split; intros; congruence.
    + eexists; split; [reflexivity|].
      split; intros; [congruence|].
      inversion H; subst; reflexivity.
Qed.

(** C5, as the code has it.  With the auth token absent ([undefined], or
    the empty string, which [!cronSecret] treats alike), a poll task sends
    no request and resolves, whatever the read of the base URL does.  When
    that read completes, the task logs exactly one warning that names the
    poll it skips, and nothing else changes.  The base URL is read first,
    inside the same [try]: when that read throws, the token is never
    looked at, and the task logs the exception at error level instead of
    the warning. *)
Theorem token_absent_skips {R : Runtime} (E : Env) (w : World)
    (cronSecret : option string) :
  CRON_SECRET E = Normal cronSecret ->
  truthy cronSecret = false ->
  (fst (pollSchedules E w) = Normal tt /\
   network (exec (pollSchedules E) w) = network w /\
   fst (pollOutlook E w) = Normal tt /\
   network (exec (pollOutlook E) w) = network w) /\
  (forall configured,
     NEXT_PUBLIC_APP_URL E = Normal configured ->
     pollSchedules E w =
       (Normal tt,
        with_logged
          (logged w ++ [entry warn "CRON_SECRET not configured - skipping schedule polling"])
          w) /\
     pollOutlook E w =
       (Normal tt,
        with_logged
          (logged w ++ [entry warn "CRON_SECRET not configured - skipping Outlook polling"])
          w)) /\
  (forall e,
     NEXT_PUBLIC_APP_URL E = Throw e ->
     pollSchedules E w =
       (Normal tt, with_logged (logged w ++ [caught Schedule e]) w) /\
     pollOutlook E w =
       (Normal tt, with_logged (logged w ++ [caught Outlook e]) w)).
Proof.
  intros Htoken Habsent.
  assert (Hread : forall configured,
             NEXT_PUBLIC_APP_URL E = Normal configured ->
             pollSchedules E w =
               (Normal tt,
                with_logged
                  (logged w ++ [entry warn "CRON_SECRET not configured - skipping schedule polling"])
                  w) /\
             pollOutlook E w =
               (Normal tt,
                with_logged
                  (logged w ++ [entry warn "CRON_SECRET not configured - skipping Outlook polling"])
                  w)).
  { intros configured Hurl.
    unfold_task. rewrite Hurl, Htoken, Habsent. simpl. split; reflexivity. }
  assert (Hthrown : forall e,
             NEXT_PUBLIC_APP_URL E = Throw e ->
             pollSchedules E w =
               (Normal tt, with_logged (logged w ++ [caught Schedule e]) w) /\
             pollOutlook E w =
               (Normal tt, with_logged (logged w ++ [caught Outlook e]) w)).
  { intros e Hurl.
    unfold_task. rewrite Hurl. simpl. split; reflexivity. }
  split; [|split; assumption].
  unfold exec.
  destruct (NEXT_PUBLIC_APP_URL E) as [configured | e] eqn:Hurl.
  - destruct (Hread configured eq_refl) as [-> ->]. repeat split.
  - destruct (Hthrown e eq_refl) as [-> ->]. repeat split.
Qed.

Lemma token_absent_skips_witness :
  pollSchedules (R := sample_runtime) (sample_env None (Throw (Thrown "unreachable")))
    initial_world =
    (Normal tt,
     with_logged
       [entry warn "CRON_SECRET not configured - skipping schedule polling"]
       initial_world) /\
  network (exec (pollSchedules (R := sample_runtime)
                   (sample_env None (Throw (Thrown "unreachable")))) initial_world) = [].
Proof.
  pose proof (token_absent_skips (R := sample_runtime)
                (sample_env None (Throw (Thrown "unreachable")))
                initial_world None eq_refl eq_refl) as (Hquiet & Hread & _).
  split.
  - apply (proj1 (Hread None eq_refl)).
  - apply (proj1 (proj2 Hquiet)).
Defined.

(** C5 as written fails when the base URL cannot be read: with the token
    absent and the read of [env.NEXT_PUBLIC_APP_URL] throwing, the task
    logs one entry at error level and no warning.  It still sends no
    request and resolves. *)
Lemma token_absent_logs_error_not_warning :
  CRON_SECRET unreadable_base_url = Normal None /\
  truthy None = false /\
  pollSchedules (R := sample_runtime) unreadable_base_url initial_world =
    (Normal tt,
     with_logged [caught Schedule (Thrown "Invalid environment variables")]
       initial_world) /\
  level (caught Schedule (Thrown "Invalid environment variables")) = error /\
  filter (fun x => match level x with warn => true | _ => false end)
    (logged (exec (pollSchedules (R := sample_runtime) unreadable_base_url)
               initial_world)) = [].
Proof. repeat split; vm_compute; reflexivity. Qed.

(** C6.  On a response that is not 2xx a poll task has sent exactly one
    request, logs the status code and the status text at error level,
    reads no body, and resolves. *)
Theorem non_2xx_is_logged_not_retried {R : Runtime} (E : Env) (w : World)
    (configured cronSecret : option string) (response : Response) :
  configured_with E configured cronSecret ->
  ok response = false ->
  (fetch E (schedule_request configured cronSecret) = Normal response ->
   pollSchedules E w =
     (Normal tt,
      polled w (schedule_request configured cronSecret) 0
        [entry debug "Polling schedules...";
         entry error ("Schedule polling failed: " ++ status_string response
                      ++ " " ++ statusText response)])) /\
  (fetch E (outlook_request configured cronSecret) = Normal response ->
   pollOutlook E w =
     (Normal tt,
      polled w (outlook_request configured cronSecret) 0
        [entry debug "Polling Outlook...";
         entry error ("Outlook polling failed: " ++ status_string response
                      ++ " " ++ statusText response)])).
Proof.
  intros (Hurl & Htoken & Hpresent) Hok.
  split; intros Hfetch; unfold_task;
    rewrite Hurl, Htoken, Hpresent; simpl in *;
    rewrite Hfetch, Hok; simpl;
    destruct w; simpl; rewrite <- app_assoc; reflexivity.
Qed.

Lemma non_2xx_is_logged_not_retried_witness :
  pollSchedules (R := sample_runtime)
    (sample_env (Some "secret") (Normal response_500)) initial_world =
    (Normal tt,
     polled initial_world (sample_request "/api/schedules/execute") 0
       [entry debug "Polling schedules...";
        entry error "Schedule polling failed: 500 Internal Server Error"]).
Proof.
  apply (proj1 (non_2xx_is_logged_not_retried (R := sample_runtime)
                  (sample_env (Some "secret") (Normal response_500))
                  initial_world None (Some "secret") response_500
                  (conj eq_refl (conj eq_refl eq_refl)) eq_refl)).
  reflexivity.
Defined.

(** Whatever compares with zero also prints. *)
Lemma ToString_of_comparable {R : Runtime} (v : value) (b : bool) :
  greater_than_zero v = Normal b -> exists s, ToString v = Normal s.
Proof.
  unfold greater_than_zero, ToNumber.
  destruct v as [ | | [] | n | s | l | ps]; intros H;
    try (eexists; reflexivity).
  - destruct (ToString (VArray l)) as [s | e]; [eauto | discriminate].
  - destruct (ToString (VObject ps)) as [s | e]; [eauto | discriminate].
Qed.

Lemma count_not_positive_iff {R : Runtime} (v : value) :
  count_not_positive v <-> greater_than_zero v = Normal false.
Proof.
  unfold greater_than_zero, ToNumber. split.
  - intros H; destruct H;
      try reflexivity; try (rewrite H; reflexivity);
      rewrite H; rewrite H0; reflexivity.
  - destruct v as [ | | [] | n | s | l | ps]; intros H.
    + constructor.
    + constructor.
    + discriminate.
    + constructor.
    + constructor. congruence.
    + constructor. congruence.
    + destruct (ToString (VArray l)) as [s | e] eqn:Hs; [|discriminate].
      apply array_count with s; congruence.
    + destruct (ToString (VObject ps)) as [s | e] eqn:Hs; [|discriminate].
      apply object_count with s; congruence.
Qed.

(** A 2xx answer to [pollSchedules()], for a body that is neither [null]
    nor [undefined] and a count that compares with zero. *)
Lemma pollSchedules_2xx {R : Runtime} (E : Env) (w : World)
    (configured cronSecret : option string) (response : Response)
    (data executedCount : value) (positive : bool) :
  configured_with E configured cronSecret ->
  fetch E (schedule_request configured cronSecret) = Normal response ->
  ok response = true ->
  json response = Normal data ->
  Get data "executedCount" = Normal executedCount ->
  greater_than_zero executedCount = Normal positive ->
  exists shown,
    ToString executedCount = Normal shown /\
    pollSchedules E w =
      (Normal tt,
       polled w (schedule_request configured cronSecret) 1
         [entry debug "Polling schedules...";
          if positive
          then entry info ("Schedule poll completed: " ++ shown ++ " workflows executed")
          else entry debug "Schedule poll completed: no workflows due"]).
Proof.
  intros (Hurl & Htoken & Hpresent) Hfetch Hok Hjson Hget Hgt.
  destruct (ToString_of_comparable _ _ Hgt) as [shown Hshown].
  exists shown. split; [exact Hshown|].
  unfold_task. rewrite Hurl, Htoken, Hpresent. simpl in Hfetch |- *.
  rewrite Hfetch, Hok. simpl. rewrite Hjson, Hget, Hgt.
  destruct positive; [rewrite Hshown|];
    destruct w; simpl; rewrite <- !app_assoc; reflexivity.
Qed.

(** The same for [pollOutlook()], whose summary also prints
    [data.successful]. *)
Lemma pollOutlook_2xx {R : Runtime} (E : Env) (w : World)
    (configured cronSecret : option string) (response : Response)
    (data total successful : value) (positive : bool) (shownSuccessful : string) :
  configured_with E configured cronSecret ->
  fetch E (outlook_request configured cronSecret) = Normal response ->
  ok response = true ->
  json response = Normal data ->
  Get data "total" = Normal total ->
  greater_than_zero total = Normal positive ->
  Get data "successful" = Normal successful ->
  (positive = true -> ToString successful = Normal shownSuccessful) ->
  exists shownTotal,
    ToString total = Normal shownTotal /\
    pollOutlook E w =
      (Normal tt,
       polled w (outlook_request configured cronSecret) 1
         [entry debug "Polling Outlook...";
          if positive
          then entry info ("Outlook poll completed: " ++ shownTotal
                           ++ " webhooks checked, " ++ shownSuccessful ++ " successful")
          else entry debug "Outlook poll completed: no active webhooks"]).
Proof.
  intros (Hurl & Htoken & Hpresent) Hfetch Hok Hjson Hget Hgt Hget2 Hshown2.
  destruct (ToString_of_comparable _ _ Hgt) as [shown Hshown].
  exists shown. split; [exact Hshown|].
  unfold_task. rewrite Hurl, Htoken, Hpresent. simpl in Hfetch |- *.
  rewrite Hfetch, Hok. simpl. rewrite Hjson, Hget, Hgt.
  destruct positive; [rewrite Hshown, Hget2, (Hshown2 eq_refl)|];
    destruct w; simpl; rewrite <- !app_assoc; reflexivity.
Qed.

(** C7, as the code has it.  On a 2xx response whose body decodes to a
    value other than [null] and [undefined], [pollSchedules()] logs an
    info summary that includes the count when [executedCount > 0] holds
    and logs at debug level when it does not; [pollOutlook()] logs an info
    summary that includes [total] and [successful] when [total > 0] holds
    (and [successful] converts to a string) and logs at debug level when
    it does not.  The test is [> 0], not [!= 0]. *)
Theorem positive_count_decides_verbosity {R : Runtime} (E : Env) (w : World)
    (configured cronSecret : option string) (response : Response) (data : value) :
  configured_with E configured cronSecret ->
  ok response = true ->
  json response = Normal data ->
  (forall executedCount positive,
     fetch E (schedule_request configured cronSecret) = Normal response ->
     Get data "executedCount" = Normal executedCount ->
     greater_than_zero executedCount = Normal positive ->
     exists shown,
       ToString executedCount = Normal shown /\
       pollSchedules E w =
         (Normal tt,
          polled w (schedule_request configured cronSecret) 1
            [entry debug "Polling schedules...";
             if positive
             then entry info ("Schedule poll completed: " ++ shown
                              ++ " workflows executed")
             else entry debug "Schedule poll completed: no workflows due"])) /\
  (forall total successful positive shownSuccessful,
     fetch E (outlook_request configured cronSecret) = Normal response ->
     Get data "total" = Normal total ->
     greater_than_zero total = Normal positive ->
     Get data "successful" = Normal successful ->
     (positive = true -> ToString successful = Normal shownSuccessful) ->
     exists shownTotal,
       ToString total = Normal shownTotal /\
       pollOutlook E w =
         (Normal tt,
          polled w (outlook_request configured cronSecret) 1
            [entry debug "Polling Outlook...";
             if positive
             then entry info ("Outlook poll completed: " ++ shownTotal
                              ++ " webhooks checked, " ++ shownSuccessful
                              ++ " successful")
             else entry debug "Outlook poll completed: no active webhooks"])).
Proof.
  intros Hconf Hok Hjson. split; intros.
  - eapply pollSchedules_2xx; eassumption.
  - eapply pollOutlook_2xx; eassumption.
Qed.

Lemma positive_count_decides_verbosity_witness :
  exists shown,
    ToString (R := sample_runtime) (VNumber 3%float) = Normal shown /\
    pollSchedules (R := sample_runtime)
      (sample_env (Some "secret")
         (Normal (response_200
                    (Normal (VObject [("executedCount", VNumber 3%float)])))))
      initial_world =
      (Normal tt,
       polled initial_world (sample_request "/api/schedules/execute") 1
         [entry debug "Polling schedules...";
          entry info ("Schedule poll completed: " ++ shown ++ " workflows executed")]).
Proof.
  apply (proj1 (positive_count_decides_verbosity (R := sample_runtime)
                  (sample_env (Some "secret")
                     (Normal (response_200
                                (Normal (VObject [("executedCount", VNumber 3%float)])))))
                  initial_world None (Some "secret")
                  (response_200 (Normal (VObject [("executedCount", VNumber 3%float)])))
                  (VObject [("executedCount", VNumber 3%float)])
                  (conj eq_refl (conj eq_refl eq_refl)) eq_refl eq_refl)
               (VNumber 3%float) true eq_refl eq_refl eq_refl).
Defined.

(** The payloads of the specification: a count of 3 is logged at info
    level with the count in the message, a count of 0 at debug level. *)
Example executedCount_3_and_0 :
  logged (exec (pollSchedules (R := sample_runtime)
                  (sample_env (Some "secret")
                     (Normal (response_200
                                (Normal (VObject [("executedCount", VNumber 3%float)]))))))
            initial_world) =
    [entry debug "Polling schedules...";
     entry info "Schedule poll completed: 3 workflows executed"] /\
  logged (exec (pollSchedules (R := sample_runtime)
                  (sample_env (Some "secret")
                     (Normal (response_200
                                (Normal (VObject [("executedCount", VNumber 0%float)]))))))
            initial_world) =
    [entry debug "Polling schedules...";
     entry debug "Schedule poll completed: no workflows due"].
Proof. split; vm_compute; reflexivity. Qed.

(** C7 as written fails: a 2xx response whose [executedCount] is -1, which
    is not zero, is logged at debug level, and nothing is logged at info
    level. *)
Lemma nonzero_count_logged_at_debug :
  ok (response_200 (Normal (VObject [("executedCount", VNumber (-1)%float)]))) = true /\
  PrimFloat.eqb (-1)%float 0%float = false /\
  logged (exec (pollSchedules (R := sample_runtime)
                  (sample_env (Some "secret")
                     (Normal (response_200
                                (Normal (VObject [("executedCount",
                                                   VNumber (-1)%float)]))))))
            initial_world) =
    [entry debug "Polling schedules...";
     entry debug "Schedule poll completed: no workflows due"].
Proof. repeat split; vm_compute; reflexivity. Qed.

(** A 2xx response whose body does not decode is logged at error level,
    neither at info nor at debug level. *)
Example undecodable_body_logged_at_error :
  logged (exec (pollSchedules (R := sample_runtime)
                  (sample_env (Some "secret")
                     (Normal (response_200
                                (Throw (Thrown "SyntaxError: Unexpected token"))))))
            initial_world) =
    [entry debug "Polling schedules...";
     caught Schedule (Thrown "SyntaxError: Unexpected token")].
Proof. vm_compute; reflexivity. Qed.

(** C10, as the code has it.  On a 2xx response whose decoded body is
    neither [null] nor [undefined], a count field that is missing or for
    which [count > 0] is false sends the task down its debug branch: two
    debug entries, nothing at error level, and the task resolves. *)
Theorem count_not_positive_logs_debug {R : Runtime} (E : Env) (w : World)
    (configured cronSecret : option string) (response : Response)
    (data count : value) :
  configured_with E configured cronSecret ->
  ok response = true ->
  json response = Normal data ->
  count_not_positive count ->
  (fetch E (schedule_request configured cronSecret) = Normal response ->
   Get data "executedCount" = Normal count ->
   pollSchedules E w =
     (Normal tt,
      polled w (schedule_request configured cronSecret) 1
        [entry debug "Polling schedules...";
         entry debug "Schedule poll completed: no workflows due"])) /\
  (fetch E (outlook_request configured cronSecret) = Normal response ->
   Get data "total" = Normal count ->
   pollOutlook E w =
     (Normal tt,
      polled w (outlook_request configured cronSecret) 1
        [entry debug "Polling Outlook...";
         entry debug "Outlook poll completed: no active webhooks"])).
Proof.
  intros Hconf Hok Hjson Hcount.
  apply count_not_positive_iff in Hcount.
  split; intros Hfetch Hget.
  - destruct (pollSchedules_2xx E w _ _ _ _ _ false Hconf Hfetch Hok Hjson Hget Hcount)
      as (shown & _ & Hrun).
    exact Hrun.
  - assert (Hsucc : exists successful, Get data "successful" = Normal successful).
    { destruct data; simpl in *; try discriminate; eauto.
      destruct (own_property properties "successful"); eauto. }
    destruct Hsucc as [successful Hsucc].
    destruct (pollOutlook_2xx E w _ _ _ _ _ successful false ""
                Hconf Hfetch Hok Hjson Hget Hcount Hsucc)
      as (shown & _ & Hrun); [discriminate|].
    exact Hrun.
Qed.

Lemma count_not_positive_logs_debug_witness :
  pollOutlook (R := sample_runtime)
    (sample_env (Some "secret")
       (Normal (response_200 (Normal (VObject [("successful", VNumber 0%float)])))))
    initial_world =
    (Normal tt,
     polled initial_world (sample_request "/api/webhooks/poll/outlook") 1
       [entry debug "Polling Outlook...";
        entry debug "Outlook poll completed: no active webhooks"]).
Proof.
  apply (proj2 (count_not_positive_logs_debug (R := sample_runtime)
                  (sample_env (Some "secret")
                     (Normal (response_200
                                (Normal (VObject [("successful", VNumber 0%float)])))))
                  initial_world None (Some "secret")
                  (response_200 (Normal (VObject [("successful", VNumber 0%float)])))
                  (VObject [("successful", VNumber 0%float)]) VUndefined
                  (conj eq_refl (conj eq_refl eq_refl)) eq_refl eq_refl
                  absent_count)
               eq_refl eq_refl).
Defined.

(** C10 as written fails: [true] is not a number, yet [true > 0] holds, so
    a 2xx body [{executedCount: true}] is logged at info level. *)
Lemma boolean_count_logged_at_info :
  ok (response_200 (Normal (VObject [("executedCount", VBool true)]))) = true /\
  logged (exec (pollSchedules (R := sample_runtime)
                  (sample_env (Some "secret")
                     (Normal (response_200
                                (Normal (VObject [("executedCount", VBool true)]))))))
            initial_world) =
    [entry debug "Polling schedules...";
     entry info "Schedule poll completed: true workflows executed"].
Proof. split; vm_compute; reflexivity. Qed.

(** Further bodies outside the debug branch: a numeral in a string is
    logged at info level; the body [null], and a count that is an object
    with an own [toString] property, end in the [catch] block. *)
Example other_counts_outside_debug :
  logged (exec (pollSchedules (R := sample_runtime)
                  (sample_env (Some "secret")
                     (Normal (response_200
                                (Normal (VObject [("executedCount", VString "3")]))))))
            initial_world) =
    [entry debug "Polling schedules...";
     entry info "Schedule poll completed: 3 workflows executed"] /\
  logged (exec (pollSchedules (R := sample_runtime)
                  (sample_env (Some "secret")
                     (Normal (response_200 (Normal VNull)))))
            initial_world) =
    [entry debug "Polling schedules...";
     caught Schedule
       (TypeError "Cannot read properties of null (reading 'executedCount')")] /\
  logged (exec (pollSchedules (R := sample_runtime)
                  (sample_env (Some "secret")
                     (Normal (response_200
                                (Normal (VObject
                                           [("executedCount",
                                             VObject [("toString", VNumber 0%float)])]))))))
            initial_world) =
    [entry debug "Polling schedules...";
     caught Schedule (TypeError "Cannot convert object to primitive value")].
Proof. repeat split; vm_compute; reflexivity. Qed.

(* ================================================================== *)
(** ** The lifecycle: [start()] and [stop()] *)

Ltac run_lifecycle :=
  cbv beta iota zeta delta
    [start stop bind ret console_log logger_info logger_warn logger_write
     get_isRunning get_scheduleIntervalId get_outlookIntervalId
     set_isRunning set_scheduleIntervalId set_outlookIntervalId
     setInterval setTimeout arm clearInterval entry cleared armed_by_start
     with_this with_timers with_console with_logged new_InternalPoller
     this timers console logged network bodyReads invocations
     isRunning scheduleIntervalId outlookIntervalId now next_id pending negb];
  change (timer_delay (60 * 1000)) with 60000;
  change (timer_delay 5000) with 5000;
  change (timer_delay 10000) with 10000.

Lemma start_when_running (w : World) :
  isRunning (this w) = true ->
  start w =
    (Normal tt,
     with_logged (logged w ++ [entry warn "Internal poller already running"])
       (with_console
          (console w ++ ["[InternalPoller] start() called";
                         "[InternalPoller] Already running, skipping"]) w)).
Proof.
  destruct w as [[s o r] q c l n b i]. simpl. intros ->.
  run_lifecycle. rewrite <- app_assoc. reflexivity.
Qed.

Lemma start_when_stopped (w : World) :
  isRunning (this w) = false ->
  start w =
    (Normal tt,
     {| this := {| scheduleIntervalId := Some {| timer_id := next_id (timers w) |};
                   outlookIntervalId := Some {| timer_id := S (next_id (timers w)) |};
                   isRunning := true |};
        timers := {| now := now (timers w);
                     next_id := 4 + next_id (timers w);
                     pending := pending (timers w) ++ armed_by_start (timers w) |};
        console := console w ++
                   ["[InternalPoller] start() called";
                    "[InternalPoller] Starting internal polling service...";
                    "[InternalPoller] Service started successfully";
                    "[InternalPoller] Timers set: schedules in 5s, outlook in 10s"];
        logged := logged w ++
                  [entry info "Starting internal polling service...";
                   entry info "Internal polling service started successfully";
                   entry info "- Schedule polling: every 60 seconds";
                   entry info "- Outlook polling: every 60 seconds"];
        network := network w;
        bodyReads := bodyReads w;
        invocations := invocations w |}).
Proof.
  destruct w as [[s o r] [t k p] c l n b i]. simpl. intros ->.
  run_lifecycle. rewrite <- !app_assoc. reflexivity.
Qed.

Lemma stop_when_stopped (w : World) :
  isRunning (this w) = false -> stop w = (Normal tt, w).
Proof.
  destruct w as [[s o r] q c l n b i]. simpl. intros ->.
  run_lifecycle. reflexivity.
Qed.

Lemma stop_when_running (w : World) :
  isRunning (this w) = true ->
  stop w =
    (Normal tt,
     {| this := new_InternalPoller;
        timers := {| now := now (timers w);
                     next_id := next_id (timers w);
                     pending := cleared (outlookIntervalId (this w))
                                  (cleared (scheduleIntervalId (this w))
                                     (pending (timers w))) |};
        console := console w;
        logged := logged w ++
                  [entry info "Stopping internal polling service...";
                   entry info "Internal polling service stopped"];
        network := network w;
        bodyReads := bodyReads w;
        invocations := invocations w |}).
Proof.
  destruct w as [[s o r] [t k p] c l n b i]. simpl. intros ->.
  destruct s, o; run_lifecycle; rewrite <- ?app_assoc; reflexivity.
Qed.

(* ------------------------------------------------------------------ *)
(** *** A poll task leaves the poller and the timers alone *)

Lemma frames_lift {A} (c : completion A) : frames (lift c).
Proof. intros w c' w' H; inversion H; subst; auto. Qed.

Lemma frames_bind {A B} (m : M A) (k : A -> M B) :
  frames m -> (forall a, frames (k a)) -> frames (bind m k).
Proof.
  intros Hm Hk w c w'. unfold bind.
  destruct (m w) as [[a | e] w1] eqn:Hrun; intros H.
  - destruct (Hm _ _ _ Hrun) as (H1 & H2 & H3).
    destruct (Hk a _ _ _ H) as (H4 & H5 & H6).
    repeat split; congruence.
  - inversion H; subst. exact (Hm _ _ _ Hrun).
Qed.

Lemma frames_try_catch {A} (body : M A) (handler : exn -> M A) :
  frames body -> (forall e, frames (handler e)) -> frames (try_catch body handler).
Proof.
  intros Hm Hk w c w'. unfold try_catch.
  destruct (body w) as [[a | e] w1] eqn:Hrun; intros H.
  - inversion H; subst. exact (Hm _ _ _ Hrun).
  - destruct (Hm _ _ _ Hrun) as (H1 & H2 & H3).
    destruct (Hk e _ _ _ H) as (H4 & H5 & H6).
    repeat split; congruence.
Qed.

Lemma frames_logger_write (l : Level) (msg : string) (d : option exn) :
  frames (logger_write l msg d).
Proof. intros w c w' H; inversion H; subst; auto. Qed.

Lemma frames_await_fetch (E : Env) (request : Request) :
  frames (await_fetch E request).
Proof. intros w c w' H; inversion H; subst; auto. Qed.

Lemma frames_await_json (response : Response) : frames (await_json response).
Proof. intros w c w' H; inversion H; subst; auto. Qed.

Ltac frame :=
  repeat first
    [ apply frames_bind; [|intros ?]
    | apply frames_try_catch; [|intros ?]
    | apply frames_lift
    | apply frames_logger_write
    | apply frames_await_fetch
    | apply frames_await_json
    | match goal with
      | |- frames (if ?b then _ else _) => destruct b
      end ].

Lemma run_callback_frames {R : Runtime} (E : Env) (cb : Task) :
  frames (run_callback E cb).
Proof.
  destruct cb;
    unfold run_callback, pollSchedules, pollOutlook, pollSchedules_try,
      pollOutlook_try, logger_warn, logger_debug, logger_info, logger_error,
      logger_error_with;
    cbv zeta; frame.
Qed.

Lemma run_callback_resolves {R : Runtime} (E : Env) (cb : Task) (w : World) :
  exists w', run_callback E cb w = (Normal tt, w').
Proof.
  destruct cb; unfold run_callback, pollSchedules, pollOutlook, try_catch.
  - destruct (pollSchedules_try E w) as [[[] | e] w1]; eexists; reflexivity.
  - destruct (pollOutlook_try E w) as [[[] | e] w1]; eexists; reflexivity.
Qed.

Lemma run_callback_frame {R : Runtime} (E : Env) (cb : Task) (w : World) :
  exists w',
    run_callback E cb w = (Normal tt, w') /\
    this w' = this w /\ timers w' = timers w /\ invocations w' = invocations w.
Proof.
  destruct (run_callback_resolves E cb w) as [w' Hrun].
  exists w'. split; [exact Hrun|].
  exact (run_callback_frames E cb _ _ _ Hrun).
Qed.

(* ------------------------------------------------------------------ *)
(** *** Firing a timer keeps the queue well formed *)

Lemma earliest_In (l : list Timer) (t : Timer) :
  earliest l = Some t -> In t l.
Proof.
  revert t; induction l as [|a l IH]; simpl; intros t H; [discriminate|].
  destruct (earliest l) as [u|].
  - destruct (due u <? due a); inversion H; subst; auto.
  - inversion H; auto.
Qed.

Lemma identifiers_injective (l : list Timer) (x y : Timer) :
  NoDup (identifiers l) -> In x l -> In y l ->
  timer_id (handle x) = timer_id (handle y) -> x = y.
Proof.
  induction l as [|a l IH]; simpl; intros Hnd Hx Hy Heq; [contradiction|].
  inversion Hnd as [|? ? Hnotin Hnd']; subst.
  destruct Hx as [-> | Hx], Hy as [-> | Hy]; auto.
  - exfalso; apply Hnotin. rewrite Heq.
    apply (in_map (fun t => timer_id (handle t))), Hy.
  - exfalso; apply Hnotin. rewrite <- Heq.
    apply (in_map (fun t => timer_id (handle t))), Hx.
Qed.

Lemma identifiers_filter (p : Timer -> bool) (l : list Timer) :
  NoDup (identifiers l) -> NoDup (identifiers (filter p l)).
Proof.
  induction l as [|a l IH]; simpl; intros Hnd; [constructor|].
  inversion Hnd as [|? ? Hnotin Hnd']; subst.
  destruct (p a); simpl; auto.
  constructor; auto.
  intros Hin; apply Hnotin.
  unfold identifiers in *. apply in_map_iff in Hin.
  destruct Hin as (u & Hu & Hin). apply filter_In in Hin.
  apply in_map_iff. exists u. tauto.
Qed.

Lemma Forall_filter_keep {A} (P : A -> Prop) (p : A -> bool) (l : list A) :
  Forall P l -> Forall P (filter p l).
Proof.
  intros H. apply Forall_forall. intros x Hx. apply filter_In in Hx.
  rewrite Forall_forall in H. apply H, Hx.
Qed.

Lemma after_firing_identifiers (t : Timer) (l : list Timer) :
  kind t = Interval -> identifiers (after_firing t l) = identifiers l.
Proof.
  intros Hk. unfold after_firing, identifiers. rewrite Hk, map_map.
  apply map_ext. intros u. destruct (is_timer (handle t) u); reflexivity.
Qed.

Lemma after_firing_well_formed (t : Timer) (l : list Timer) (n : nat) :
  NoDup (identifiers l) ->
  Forall (fun u => (timer_id (handle u) < n)%nat) l ->
  NoDup (identifiers (after_firing t l)) /\
  Forall (fun u => (timer_id (handle u) < n)%nat) (after_firing t l).
Proof.
  intros Hnd Hlt. destruct (kind t) eqn:Hk.
  - rewrite after_firing_identifiers by assumption. split; [assumption|].
    unfold after_firing. rewrite Hk. apply Forall_forall.
    intros u Hu. apply in_map_iff in Hu. destruct Hu as (v & <- & Hv).
    rewrite Forall_forall in Hlt. specialize (Hlt v Hv).
    destruct (is_timer (handle t) v); simpl; assumption.
  - unfold after_firing. rewrite Hk. split.
    + apply identifiers_filter, Hnd.
    + apply Forall_filter_keep, Hlt.
Qed.

Lemma after_firing_recurring (t : Timer) (l : list Timer) :
  NoDup (identifiers l) -> In t l ->
  map (fun u => (handle u, callback u)) (filter is_interval (after_firing t l)) =
  map (fun u => (handle u, callback u)) (filter is_interval l).
Proof.
  intros Hnd Hin. unfold after_firing. destruct (kind t) eqn:Hk.
  - clear Hnd Hin. induction l as [|a l IH]; simpl; [reflexivity|].
    assert (Hsame : is_interval (if is_timer (handle t) a then postpone a else a)
                    = is_interval a)
      by (destruct (is_timer (handle t) a); reflexivity).
    rewrite Hsame. destruct (is_interval a); simpl; [|exact IH].
    rewrite IH. f_equal. destruct (is_timer (handle t) a); reflexivity.
  - f_equal.
    assert (Hkeep : forall u, In u l -> is_interval u = true ->
                              negb (is_timer (handle t) u) = true).
    { intros u Hu Hi. unfold is_timer.
      destruct (Nat.eqb (timer_id (handle u)) (timer_id (handle t))) eqn:He;
        [|reflexivity].
      apply Nat.eqb_eq in He.
      assert (u = t) by (eapply identifiers_injective; eauto).
      subst u. unfold is_interval in Hi. rewrite Hk in Hi. discriminate. }
    clear Hnd Hin. induction l as [|a l IH]; simpl; [reflexivity|].
    destruct (is_interval a) eqn:Hi.
    + rewrite (Hkeep a (or_introl eq_refl) Hi). simpl. rewrite Hi.
      f_equal. apply IH. intros u Hu. apply Hkeep. right; exact Hu.
    + destruct (negb (is_timer (handle t) a)); simpl; rewrite ?Hi;
        apply IH; intros u Hu; apply Hkeep; right; exact Hu.
Qed.

Lemma next_fire_spec (target : Z) (q q' : TimerQueue) (t : Timer) :
  next_fire target q = Some (t, q') ->
  In t (pending q) /\ due t <= target /\
  next_id q' = next_id q /\ pending q' = after_firing t (pending q).
Proof.
  unfold next_fire. destruct (earliest (pending q)) as [u|] eqn:He; [|discriminate].
  destruct (due u <=? target) eqn:Hle; [|discriminate].
  intros H; inversion H; subst; simpl.
  repeat split; [apply earliest_In, He | apply Z.leb_le, Hle].
Qed.

Lemma next_fire_keeps (target : Z) (q q' : TimerQueue) (t : Timer) :
  next_fire target q = Some (t, q') ->
  well_formed q ->
  well_formed q' /\ recurring_timers q' = recurring_timers q.
Proof.
  intros Hfire [Hnd Hlt].
  destruct (next_fire_spec _ _ _ _ Hfire) as (Hin & _ & Hid & Hpending).
  unfold well_formed, recurring_timers. rewrite Hid, Hpending.
  split; [apply after_firing_well_formed; assumption|].
  apply after_firing_recurring; assumption.
Qed.

Lemma drain_keeps (fuel : nat) (target : Z) (q q' : TimerQueue)
    (trace : list (Z * Task)) :
  drain fuel target q = Some (trace, q') ->
  well_formed q ->
  well_formed q' /\ recurring_timers q' = recurring_timers q.
Proof.
  revert q q' trace. induction fuel as [|fuel IH]; intros q q' trace; simpl.
  - destruct (next_fire target q) as [[t q1]|]; [discriminate|].
    intros H Hwf; inversion H; subst. split; [exact Hwf | reflexivity].
  - destruct (next_fire target q) as [[t q1]|] eqn:Hfire.
    + destruct (drain fuel target q1) as [[tr q2]|] eqn:Hd; [|discriminate].
      intros H Hwf; inversion H; subst.
      destruct (next_fire_keeps _ _ _ _ Hfire Hwf) as [Hwf1 Hrec1].
      destruct (IH _ _ _ Hd Hwf1) as [Hwf2 Hrec2].
      split; [exact Hwf2 | congruence].
    + intros H Hwf; inversion H; subst. split; [exact Hwf | reflexivity].
Qed.

(* ------------------------------------------------------------------ *)
(** *** Advancing the clock, seen from the timers *)

Lemma drain_more_fuel (fuel fuel' : nat) (target : Z) (q : TimerQueue)
    (r : list (Z * Task) * TimerQueue) :
  drain fuel target q = Some r -> (fuel <= fuel')%nat ->
  drain fuel' target q = Some r.
Proof.
  revert fuel' q r. induction fuel as [|fuel IH]; intros fuel' q r; simpl.
  - destruct (next_fire target q) as [[t q1]|] eqn:Hfire; [discriminate|].
    intros H _. destruct fuel'; simpl; rewrite Hfire; exact H.
  - destruct (next_fire target q) as [[t q1]|] eqn:Hfire.
    + destruct (drain fuel target q1) as [[tr q2]|] eqn:Hd; [|discriminate].
      intros H Hle. destruct fuel' as [|fuel']; [lia|].
      simpl. rewrite Hfire. rewrite (IH fuel' _ _ Hd) by lia. exact H.
    + intros H _. destruct fuel'; simpl; rewrite Hfire; exact H.
Qed.

(** The event loop fires what [drain] says, never crashes, and touches
    neither the poller nor the queue beyond that. *)
Lemma advance_drain {R : Runtime} (fuel : nat) (B : nat -> Env) (target : Z)
    (w : World) :
  match drain fuel target (timers w) with
  | Some (trace, q') =>
      exists w',
        advanceTimersTo fuel B target w = Done w' /\
        timers w' = q' /\
        invocations w' = (invocations w ++ trace)%list /\
        this w' = this w
  | None => advanceTimersTo fuel B target w = OutOfFuel
  end.
Proof.
  revert w. induction fuel as [|fuel IH]; intros w.
  - simpl. destruct (next_fire target (timers w)) as [[t q1]|]; [reflexivity|].
    eexists; split; [reflexivity|]. simpl. rewrite app_nil_r. auto.
  - cbn [advanceTimersTo drain].
    destruct (next_fire target (timers w)) as [[t q1]|] eqn:Hfire.
    + destruct (run_callback_frame (B (List.length (invocations w))) (callback t)
                  (with_invocations (invocations w ++ [(due t, callback t)])
                     (with_timers q1 w)))
        as (w2 & Hrun & Hthis & Htimers & Hinv).
      rewrite Hrun. specialize (IH w2).
      simpl in Htimers, Hinv, Hthis. rewrite Htimers in IH.
      destruct (drain fuel target q1) as [[tr q2]|].
      * destruct IH as (w' & Hadv & Hq & Hi & Ht).
        exists w'. repeat split; try assumption.
        -- rewrite Hi, Hinv, <- app_assoc. reflexivity.
        -- congruence.
      * exact IH.
    + eexists; split; [reflexivity|]. simpl. rewrite app_nil_r. auto.
Qed.

(** A poll task never ends the timer loop. *)
Lemma advance_never_crashes {R : Runtime} (fuel : nat) (B : nat -> Env)
    (target : Z) (w w' : World) (e : exn) :
  advanceTimersTo fuel B target w <> Crashed e w'.
Proof.
  pose proof (advance_drain fuel B target w) as H.
  destruct (drain fuel target (timers w)) as [[tr q]|].
  - destruct H as (w1 & -> & _). discriminate.
  - rewrite H. discriminate.
Qed.

(* ------------------------------------------------------------------ *)
(** *** The poller and the runtime stay consistent *)

Lemma recurring_count (cb : Task) (q : TimerQueue) :
  recurring cb q =
  List.length (filter (fun p => Task_eqb (snd p) cb) (recurring_timers q)).
Proof.
  unfold recurring, recurring_timers, is_recurring, is_interval.
  induction (pending q) as [|a l IH]; simpl; [reflexivity|].
  destruct (kind a); simpl; [|exact IH].
  destruct (Task_eqb (callback a) cb); simpl; rewrite IH; reflexivity.
Qed.

Lemma consistent_recurring (w : World) (cb : Task) :
  consistent w ->
  recurring cb (timers w) = if isRunning (this w) then 1%nat else 0%nat.
Proof.
  intros [_ H]. rewrite recurring_count.
  destruct (isRunning (this w)).
  - destruct H as (h1 & h2 & _ & _ & ->). destruct cb; reflexivity.
  - destruct H as (_ & _ & ->). reflexivity.
Qed.

Lemma consistent_initial : consistent initial_world.
Proof.
  unfold consistent, well_formed; simpl. repeat split; constructor.
Qed.

Lemma recurring_timers_app (l l' : list Timer) :
  map (fun u => (handle u, callback u)) (filter is_interval (l ++ l')) =
  (map (fun u => (handle u, callback u)) (filter is_interval l) ++
   map (fun u => (handle u, callback u)) (filter is_interval l'))%list.
Proof. rewrite filter_app, map_app. reflexivity. Qed.

Lemma consistent_start (w : World) : consistent w -> consistent (exec start w).
Proof.
  intros Hc. unfold exec. destruct (isRunning (this w)) eqn:Hrun.
  - rewrite (start_when_running w Hrun). simpl.
    destruct w; exact Hc.
  - rewrite (start_when_stopped w Hrun). simpl.
    destruct Hc as [[Hnd Hlt] Hrec]. rewrite Hrun in Hrec.
    destruct Hrec as (_ & _ & Hrec).
    unfold consistent, well_formed, recurring_timers in *; simpl.
    split; [split|].
    + unfold identifiers in *. rewrite map_app. simpl.
      assert (Hfresh : forall k, ~ In (k + next_id (timers w))%nat
                                   (map (fun t => timer_id (handle t))
                                      (pending (timers w)))).
      { intros k Hin. apply in_map_iff in Hin. destruct Hin as (u & Hu & Hin).
        rewrite Forall_forall in Hlt. specialize (Hlt u Hin). lia. }
      apply NoDup_app; repeat split.
      * exact Hnd.
      * repeat constructor; simpl; lia.
      * intros x Hx [<- | [<- | [<- | [<- | []]]]].
        -- apply (Hfresh 0%nat), Hx.
        -- apply (Hfresh 1%nat), Hx.
        -- apply (Hfresh 2%nat), Hx.
        -- apply (Hfresh 3%nat), Hx.
    + apply Forall_app. split.
      * eapply Forall_impl; [|exact Hlt]. simpl. intros; lia.
      * repeat constructor; simpl; lia.
    + exists {| timer_id := next_id (timers w) |},
             {| timer_id := S (next_id (timers w)) |}.
      repeat split. rewrite recurring_timers_app, Hrec. reflexivity.
Qed.

Lemma recurring_timers_cleared (h : Timeout) (l : list Timer) :
  map (fun u => (handle u, callback u))
      (filter is_interval (filter (fun u => negb (is_timer h u)) l)) =
  filter (fun p => negb (Nat.eqb (timer_id (fst p)) (timer_id h)))
         (map (fun u => (handle u, callback u)) (filter is_interval l)).
Proof.
  induction l as [|a l IH]; simpl; [reflexivity|].
  unfold is_timer at 1.
  destruct (is_interval a) eqn:Hi;
    destruct (Nat.eqb (timer_id (handle a)) (timer_id h)) eqn:He;
    simpl; rewrite ?Hi, ?He; simpl; rewrite ?IH; reflexivity.
Qed.

Lemma consistent_stop (w : World) : consistent w -> consistent (exec stop w).
Proof.
  intros Hc. unfold exec. destruct (isRunning (this w)) eqn:Hrun.
  - rewrite (stop_when_running w Hrun). simpl.
    destruct Hc as [[Hnd Hlt] Hrec]. rewrite Hrun in Hrec.
    destruct Hrec as (h1 & h2 & -> & -> & Hrec).
    unfold consistent, well_formed, recurring_timers in *; simpl.
    split; [split|].
    + apply identifiers_filter, identifiers_filter, Hnd.
    + apply Forall_filter_keep, Forall_filter_keep, Hlt.
    + repeat split.
      rewrite !recurring_timers_cleared, Hrec. simpl.
      rewrite Nat.eqb_refl. simpl.
      destruct (Nat.eqb (timer_id h2) (timer_id h1)); simpl;
        rewrite ?Nat.eqb_refl; reflexivity.
  - rewrite (stop_when_stopped w Hrun). exact Hc.
Qed.

Lemma consistent_advance {R : Runtime} (fuel : nat) (B : nat -> Env) (target : Z)
    (w w' : World) :
  advanceTimersTo fuel B target w = Done w' -> consistent w -> consistent w'.
Proof.
  intros Hadv [Hwf Hrec].
  pose proof (advance_drain fuel B target w) as H.
  destruct (drain fuel target (timers w)) as [[tr q]|] eqn:Hd.
  - destruct H as (w1 & Hadv1 & Hq & _ & Hthis).
    rewrite Hadv in Hadv1. inversion Hadv1; subst w1.
    destruct (drain_keeps _ _ _ _ _ Hd Hwf) as [Hwf' Hrec'].
    unfold consistent. rewrite Hq, Hthis, Hrec'. split; assumption.
  - rewrite Hadv in H. discriminate.
Qed.

Lemma reachable_consistent {R : Runtime} (w : World) :
  reachable w -> consistent w.
Proof.
  induction 1.
  - apply consistent_initial.
  - apply consistent_start; assumption.
  - apply consistent_stop; assumption.
  - eapply consistent_advance; eassumption.
Qed.

(* ------------------------------------------------------------------ *)
(** *** The timers of a fresh start, fired in order *)

Lemma drain_fire (fuel : nat) (T : Z) (q q' : TimerQueue) (t : Timer) :
  next_fire T q = Some (t, q') ->
  drain (S fuel) T q =
    match drain fuel T q' with
    | Some (trace, q'') => Some ((due t, callback t) :: trace, q'')
    | None => None
    end.
Proof. intros H. simpl. rewrite H. reflexivity. Qed.

Lemma drain_idle (fuel : nat) (T : Z) (q : TimerQueue) :
  next_fire T q = None -> drain fuel T q = Some ([], settle T q).
Proof. intros H. destruct fuel; simpl; rewrite H; reflexivity. Qed.

Ltac order :=
  repeat match goal with
         | |- context [Z.ltb ?a ?b] =>
             first [ replace (Z.ltb a b) with true by (symmetry; apply Z.ltb_lt; lia)
                   | replace (Z.ltb a b) with false by (symmetry; apply Z.ltb_ge; lia) ]
         | |- context [Z.leb ?a ?b] =>
             first [ replace (Z.leb a b) with true by (symmetry; apply Z.leb_le; lia)
                   | replace (Z.leb a b) with false by (symmetry; apply Z.leb_gt; lia) ]
         | |- context [Nat.eqb ?a ?b] =>
             first [ replace (Nat.eqb a b) with true by (symmetry; apply Nat.eqb_eq; lia)
                   | replace (Nat.eqb a b) with false
                       by (symmetry; apply Nat.eqb_neq; lia) ]
         end.

Ltac next :=
  unfold next_fire, after_firing, postpone, is_timer;
  repeat (cbn [earliest pending due kind callback handle delay now next_id
               map filter timer_id negb];
          order);
  reflexivity.

(** The queue right after a [start()] that found no timer armed. *)
Lemma fresh_drain_quiet (t0 T : Z) (n : nat) :
  T < t0 + 5000 ->
  exists q,
    drain 0 T {| now := t0; next_id := 4 + n;
                 pending := armed_by_start {| now := t0; next_id := n; pending := [] |} |}
    = Some ([], q).
Proof.
  intros HT. unfold armed_by_start. cbn [now next_id].
  erewrite drain_idle by next.
  eexists; reflexivity.
Qed.

Lemma fresh_drain_5s (t0 T : Z) (n : nat) :
  t0 + 5000 <= T < t0 + 10000 ->
  exists q,
    drain 1 T {| now := t0; next_id := 4 + n;
                 pending := armed_by_start {| now := t0; next_id := n; pending := [] |} |}
    = Some ([(t0 + 5000, Schedule)], q).
Proof.
  intros HT. unfold armed_by_start. cbn [now next_id].
  erewrite drain_fire by next.
  erewrite drain_idle by next.
  eexists; reflexivity.
Qed.

Lemma fresh_drain_10s (t0 T : Z) (n : nat) :
  t0 + 10000 <= T < t0 + 60000 ->
  exists q,
    drain 2 T {| now := t0; next_id := 4 + n;
                 pending := armed_by_start {| now := t0; next_id := n; pending := [] |} |}
    = Some ([(t0 + 5000, Schedule); (t0 + 10000, Outlook)], q).
Proof.
  intros HT. unfold armed_by_start. cbn [now next_id].
  erewrite drain_fire by next.
  erewrite drain_fire by next.
  erewrite drain_idle by next.
  eexists; reflexivity.
Qed.

Lemma fresh_drain_120s (t0 T : Z) (n : nat) :
  t0 + 120000 <= T < t0 + 180000 ->
  exists q,
    drain 6 T {| now := t0; next_id := 4 + n;
                 pending := armed_by_start {| now := t0; next_id := n; pending := [] |} |}
    = Some ([(t0 + 5000, Schedule); (t0 + 10000, Outlook);
             (t0 + 60000, Schedule); (t0 + 60000, Outlook);
             (t0 + 60000 + 60000, Schedule); (t0 + 60000 + 60000, Outlook)], q).
Proof.
  intros HT. unfold armed_by_start. cbn [now next_id].
  do 6 (erewrite drain_fire by next).
  erewrite drain_idle by next.
  eexists; reflexivity.
Qed.

Lemma advance_trace {R : Runtime} (f fuel : nat) (B : nat -> Env) (T : Z)
    (w : World) (q : TimerQueue) (trace : list (Z * Task)) :
  drain f T (timers w) = Some (trace, q) ->
  (f <= fuel)%nat ->
  exists w',
    advanceTimersTo fuel B T w = Done w' /\
    invocations w' = (invocations w ++ trace)%list.
Proof.
  intros Hd Hle.
  pose proof (advance_drain fuel B T w) as H.
  rewrite (drain_more_fuel _ _ _ _ _ Hd Hle) in H.
  destruct H as (w' & Hadv & _ & Hinv & _).
  exists w'. split; assumption.
Qed.

Lemma advance_trace_depends {R : Runtime} (fuel : nat) (B : nat -> Env) (T : Z)
    (w1 w2 : World) :
  timers w1 = timers w2 ->
  invocations w1 = invocations w2 ->
  trace_of (advanceTimersTo fuel B T w1) = trace_of (advanceTimersTo fuel B T w2).
Proof.
  intros Ht Hi.
  pose proof (advance_drain fuel B T w1) as H1.
  pose proof (advance_drain fuel B T w2) as H2.
  rewrite Ht in H1.
  destruct (drain fuel T (timers w2)) as [[tr q]|].
  - destruct H1 as (a & -> & _ & Ha & _).
    destruct H2 as (b & -> & _ & Hb & _).
    simpl. congruence.
  - rewrite H1, H2. reflexivity.
Qed.

(* ------------------------------------------------------------------ *)
(** *** Calling [start()] again *)

Lemma start_again (w : World) :
  isRunning (this w) = true ->
  this (exec start w) = this w /\
  timers (exec start w) = timers w /\
  invocations (exec start w) = invocations w.
Proof.
  intros Hrun. unfold exec. rewrite (start_when_running w Hrun).
  simpl. auto.
Qed.

Lemma start_many_times (n : nat) (w : World) :
  isRunning (this w) = true ->
  this (Nat.iter n (exec start) w) = this w /\
  timers (Nat.iter n (exec start) w) = timers w /\
  invocations (Nat.iter n (exec start) w) = invocations w.
Proof.
  intros Hrun. induction n as [|n (IH1 & IH2 & IH3)]; simpl; [auto|].
  destruct (start_again (Nat.iter n (exec start) w)) as (H1 & H2 & H3).
  - rewrite IH1. exact Hrun.
  - repeat split; congruence.
Qed.

Lemma start_runs (w : World) :
  isRunning (this w) = false -> isRunning (this (exec start w)) = true.
Proof.
  intros Hrun. unfold exec. rewrite (start_when_stopped w Hrun). reflexivity.
Qed.

(* ------------------------------------------------------------------ *)
(** *** The lifecycle claims *)

(** C1.  [start()] on a running poller changes neither the poller nor the
    timers: it prints two console lines and logs one warning.  Hence
    however often [start()] is called in a row, the poller and the timers
    are those of a single call; every world the process can reach has
    exactly one recurring timer per task while the poller runs (and none
    while it is stopped); and the callbacks that fire as time passes are
    those of a single [start()]. *)
Theorem start_is_idempotent {R : Runtime} :
  (forall w,
     isRunning (this w) = true ->
     start w =
       (Normal tt,
        with_logged (logged w ++ [entry warn "Internal poller already running"])
          (with_console
             (console w ++ ["[InternalPoller] start() called";
                            "[InternalPoller] Already running, skipping"]) w))) /\
  (forall w n,
     isRunning (this w) = false ->
     this (Nat.iter (S n) (exec start) w) = this (exec start w) /\
     timers (Nat.iter (S n) (exec start) w) = timers (exec start w)) /\
  (forall n cb,
     recurring cb (timers (Nat.iter (S n) (exec start) initial_world)) = 1%nat) /\
  (forall w,
     reachable w ->
     forall cb,
       recurring cb (timers w) = if isRunning (this w) then 1%nat else 0%nat) /\
  (forall w n fuel B target,
     isRunning (this w) = false ->
     trace_of (advanceTimersTo fuel B target (Nat.iter (S n) (exec start) w)) =
     trace_of (advanceTimersTo fuel B target (exec start w))).
Proof.
  assert (Hmany : forall w n,
             isRunning (this w) = false ->
             this (Nat.iter (S n) (exec start) w) = this (exec start w) /\
             timers (Nat.iter (S n) (exec start) w) = timers (exec start w) /\
             invocations (Nat.iter (S n) (exec start) w) =
               invocations (exec start w)).
  { intros w n Hrun. rewrite Nat.iter_succ_r.
    apply start_many_times, start_runs, Hrun. }
  split; [exact start_when_running|].
  split; [intros w n Hrun; destruct (Hmany w n Hrun) as (H1 & H2 & _); auto|].
  split.
  { intros n cb. destruct (Hmany initial_world n eq_refl) as (_ & -> & _).
    destruct cb; reflexivity. }
  split.
  { intros w Hreach cb. apply consistent_recurring, reachable_consistent, Hreach. }
  intros w n fuel B target Hrun.
  destruct (Hmany w n Hrun) as (_ & Ht & Hi).
  apply advance_trace_depends; assumption.
Qed.

Lemma start_is_idempotent_witness :
  start (exec start initial_world) =
    (Normal tt,
     with_logged
       (logged (exec start initial_world)
        ++ [entry warn "Internal poller already running"])
       (with_console
          (console (exec start initial_world)
           ++ ["[InternalPoller] start() called";
               "[InternalPoller] Already running, skipping"])
          (exec start initial_world))).
Proof.
  apply (proj1 (start_is_idempotent (R := sample_runtime))
           (exec start initial_world) eq_refl).
Defined.

(** C3.  A stopped poller holds no timer handle: this holds of a new
    poller and is kept by every sequence of [start()] and [stop()]. *)
Theorem PollerState_invariant_kept :
  PollerState_invariant (this initial_world) /\
  (forall calls w,
     PollerState_invariant (this w) ->
     PollerState_invariant (this (run_calls calls w))).
Proof.
  split.
  - intros _. split; reflexivity.
  - induction calls as [|c calls IH]; intros w Hinv; simpl; [exact Hinv|].
    apply IH. unfold exec.
    destruct (isRunning (this w)) eqn:Hrun; destruct c; simpl.
    + rewrite (start_when_running w Hrun). simpl. exact Hinv.
    + rewrite (stop_when_running w Hrun). simpl.
      intros _. split; reflexivity.
    + rewrite (start_when_stopped w Hrun). simpl.
      intros Hfalse. discriminate.
    + rewrite (stop_when_stopped w Hrun). exact Hinv.
Qed.

Lemma PollerState_invariant_kept_witness :
  scheduleIntervalId
    (this (run_calls [Start; Start; Stop; Stop; Start; Stop] initial_world)) = None /\
  outlookIntervalId
    (this (run_calls [Start; Start; Stop; Stop; Start; Stop] initial_world)) = None.
Proof.
  apply (proj2 PollerState_invariant_kept
           [Start; Start; Stop; Stop; Start; Stop] initial_world
           (proj1 PollerState_invariant_kept)).
  reflexivity.
Defined.

(** C4.  A [start()] that finds the poller stopped and no timer armed arms
    a recurring 60-second timer per task and a one-shot timer per task, at
    5 seconds for the Schedule task and at 10 seconds for the Outlook
    task.  With the clock advanced to 5 seconds the Schedule task has
    fired once and the Outlook task not at all; at 10 seconds each has
    fired once; at 120 seconds each has fired three times. *)
Theorem staggered_startup {R : Runtime} (B : nat -> Env) (w : World) (fuel : nat) :
  isRunning (this w) = false ->
  pending (timers w) = [] ->
  (6 <= fuel)%nat ->
  let t0 := now (timers w) in
  let started := exec start w in
  pending (timers started) = armed_by_start (timers w) /\
  (forall T,
     t0 + 5000 <= T < t0 + 10000 ->
     exists w' trace,
       advanceTimersTo fuel B T started = Done w' /\
       invocations w' = (invocations w ++ trace)%list /\
       trace = [(t0 + 5000, Schedule)] /\
       fires Schedule trace = 1%nat /\ fires Outlook trace = 0%nat) /\
  (forall T,
     t0 + 10000 <= T < t0 + 60000 ->
     exists w' trace,
       advanceTimersTo fuel B T started = Done w' /\
       invocations w' = (invocations w ++ trace)%list /\
       trace = [(t0 + 5000, Schedule); (t0 + 10000, Outlook)] /\
       fires Schedule trace = 1%nat /\ fires Outlook trace = 1%nat) /\
  (forall T,
     t0 + 120000 <= T < t0 + 180000 ->
     exists w' trace,
       advanceTimersTo fuel B T started = Done w' /\
       invocations w' = (invocations w ++ trace)%list /\
       trace = [(t0 + 5000, Schedule); (t0 + 10000, Outlook);
                (t0 + 60000, Schedule); (t0 + 60000, Outlook);
                (t0 + 60000 + 60000, Schedule); (t0 + 60000 + 60000, Outlook)] /\
       fires Schedule trace = 3%nat /\ fires Outlook trace = 3%nat).
Proof.
  intros Hrun Hnone Hfuel t0 started.
  assert (Htimers : timers started =
                    {| now := t0; next_id := 4 + next_id (timers w);
                       pending := armed_by_start
                                    {| now := t0; next_id := next_id (timers w);
                                       pending := [] |} |}).
  { unfold started, exec. rewrite (start_when_stopped w Hrun). simpl.
    rewrite Hnone. reflexivity. }
  assert (Hinv : invocations started = invocations w).
  { unfold started, exec. rewrite (start_when_stopped w Hrun). reflexivity. }
  split; [rewrite Htimers; reflexivity|].
  split; [|split]; intros T HT.
  - destruct (fresh_drain_5s t0 T (next_id (timers w)) HT) as [q Hd].
    rewrite <- Htimers in Hd.
    destruct (advance_trace 1 fuel B T started q _ Hd) as (w' & Hadv & Hi); [lia|].
    exists w'. eexists. rewrite <- Hinv.
    split; [exact Hadv|]. split; [exact Hi|]. repeat split.
  - destruct (fresh_drain_10s t0 T (next_id (timers w)) HT) as [q Hd].
    rewrite <- Htimers in Hd.
    destruct (advance_trace 2 fuel B T started q _ Hd) as (w' & Hadv & Hi); [lia|].
    exists w'. eexists. rewrite <- Hinv.
    split; [exact Hadv|]. split; [exact Hi|]. repeat split.
  - destruct (fresh_drain_120s t0 T (next_id (timers w)) HT) as [q Hd].
    rewrite <- Htimers in Hd.
    destruct (advance_trace 6 fuel B T started q _ Hd) as (w' & Hadv & Hi); [lia|].
    exists w'. eexists. rewrite <- Hinv.
    split; [exact Hadv|]. split; [exact Hi|]. repeat split.
Qed.

Lemma staggered_startup_witness :
  exists w' trace,
    advanceTimersTo (R := sample_runtime) 6 unconfigured 5000
      (exec start initial_world) = Done w' /\
    invocations w' = (invocations initial_world ++ trace)%list /\
    trace = [(5000, Schedule)] /\
    fires Schedule trace = 1%nat /\ fires Outlook trace = 0%nat.
Proof.
  destruct (staggered_startup (R := sample_runtime) unconfigured initial_world 6
              eq_refl eq_refl (le_n 6)) as (_ & H5 & _).
  apply (H5 5000). simpl. lia.
Defined.

(** The same run, evaluated: after two minutes each task has been invoked
    three times, and each time it logged the warning of a missing token. *)
Example two_minutes_unconfigured :
  match advanceTimersTo (R := sample_runtime) 6 unconfigured 120000
          (exec start initial_world) with
  | Done w =>
      invocations w = [(5000, Schedule); (10000, Outlook); (60000, Schedule);
                       (60000, Outlook); (120000, Schedule); (120000, Outlook)] /\
      List.length (filter (fun e => match level e with warn => true | _ => false end)
                     (logged w)) = 6%nat /\
      network w = []
  | _ => False
  end.
Proof. vm_compute. repeat split. Qed.

(** C8.  [stop()] always returns.  On a stopped poller it changes
    nothing.  On a running poller it clears the timers behind both
    handles, sets both handles to [null] and [isRunning] to [false];
    in every world the process can reach no recurring timer is left.
    Calling it twice is calling it once. *)
Theorem stop_is_idempotent_and_total {R : Runtime} :
  (forall w, exists w', stop w = (Normal tt, w')) /\
  (forall w, isRunning (this w) = false -> stop w = (Normal tt, w)) /\
  (forall w,
     isRunning (this w) = true ->
     stop w =
       (Normal tt,
        {| this := {| scheduleIntervalId := None; outlookIntervalId := None;
                      isRunning := false |};
           timers := {| now := now (timers w);
                        next_id := next_id (timers w);
                        pending := cleared (outlookIntervalId (this w))
                                     (cleared (scheduleIntervalId (this w))
                                        (pending (timers w))) |};
           console := console w;
           logged := logged w ++
                     [entry info "Stopping internal polling service...";
                      entry info "Internal polling service stopped"];
           network := network w;
           bodyReads := bodyReads w;
           invocations := invocations w |})) /\
  (forall w, exec stop (exec stop w) = exec stop w) /\
  (forall w,
     reachable w ->
     forall cb, recurring cb (timers (exec stop w)) = 0%nat).
Proof.
  split.
  { intros w. destruct (isRunning (this w)) eqn:Hrun.
    - rewrite (stop_when_running w Hrun). eexists; reflexivity.
    - rewrite (stop_when_stopped w Hrun). eexists; reflexivity. }
  split; [exact stop_when_stopped|].
  split; [exact stop_when_running|].
  split.
  { intros w. unfold exec at 1.
    rewrite stop_when_stopped; [reflexivity|].
    unfold exec. destruct (isRunning (this w)) eqn:Hrun.
    - rewrite (stop_when_running w Hrun). reflexivity.
    - rewrite (stop_when_stopped w Hrun). exact Hrun. }
  intros w Hreach cb.
  assert (Hc : consistent (exec stop w))
    by (apply consistent_stop, reachable_consistent, Hreach).
  rewrite (consistent_recurring _ cb Hc).
  unfold exec. destruct (isRunning (this w)) eqn:Hrun.
  - rewrite (stop_when_running w Hrun). reflexivity.
  - rewrite (stop_when_stopped w Hrun). simpl. rewrite Hrun. reflexivity.
Qed.

Lemma stop_is_idempotent_and_total_witness :
  stop initial_world = (Normal tt, initial_world) /\
  recurring Schedule (timers (exec stop (exec start initial_world))) = 0%nat /\
  recurring Outlook (timers (exec stop (exec start initial_world))) = 0%nat.
Proof.
  split.
  - apply (proj1 (proj2 (stop_is_idempotent_and_total (R := sample_runtime)))
             initial_world eq_refl).
  - split;
      apply (proj2 (proj2 (proj2 (proj2
                (stop_is_idempotent_and_total (R := sample_runtime)))))
               (exec start initial_world)
               (reach_start _ reach_initial)).
Defined.

(** C9.  After [stop()] on a running poller, [start()] takes effect again:
    the poller runs, holds two fresh handles, and the four timers of a
    start are armed anew, as a first [start()] of a new poller arms them;
    in every world the process can reach, each task then has exactly one
    recurring timer. *)
Theorem restart_after_stop {R : Runtime} (w : World) :
  isRunning (this w) = true ->
  let stopped := exec stop w in
  let restarted := exec start stopped in
  isRunning (this restarted) = true /\
  scheduleIntervalId (this restarted) =
    Some {| timer_id := next_id (timers stopped) |} /\
  outlookIntervalId (this restarted) =
    Some {| timer_id := S (next_id (timers stopped)) |} /\
  pending (timers restarted) =
    (pending (timers stopped) ++ armed_by_start (timers stopped))%list /\
  pending (timers (exec start initial_world)) =
    (pending (timers initial_world) ++ armed_by_start (timers initial_world))%list /\
  (reachable w -> forall cb, recurring cb (timers restarted) = 1%nat).
Proof.
  intros Hrun stopped restarted.
  assert (Hstopped : isRunning (this stopped) = false).
  { unfold stopped, exec. rewrite (stop_when_running w Hrun). reflexivity. }
  assert (Hlast : reachable w -> forall cb, recurring cb (timers restarted) = 1%nat).
  { intros Hreach cb.
    assert (Hc : consistent restarted)
      by (apply consistent_start, consistent_stop, reachable_consistent, Hreach).
    rewrite (consistent_recurring _ cb Hc).
    unfold restarted. rewrite (start_runs stopped Hstopped). reflexivity. }
  assert (Hstart := start_when_stopped stopped Hstopped).
  split; [|split; [|split; [|split; [|split]]]];
    try (unfold restarted, exec; rewrite Hstart; reflexivity).
  - unfold exec. rewrite (start_when_stopped initial_world eq_refl). reflexivity.
  - exact Hlast.
Qed.

Lemma restart_after_stop_witness :
  isRunning (this (exec start (exec stop (exec start initial_world)))) = true /\
  pending (timers (exec start (exec stop (exec start initial_world)))) =
    [ {| handle := {| timer_id := 3 |}; kind := OneShot; callback := Schedule;
         delay := 5000; due := 5000 |};
      {| handle := {| timer_id := 4 |}; kind := OneShot; callback := Outlook;
         delay := 10000; due := 10000 |};
      {| handle := {| timer_id := 5 |}; kind := Interval; callback := Schedule;
         delay := 60000; due := 60000 |};
      {| handle := {| timer_id := 6 |}; kind := Interval; callback := Outlook;
         delay := 60000; due := 60000 |};
      {| handle := {| timer_id := 7 |}; kind := OneShot; callback := Schedule;
         delay := 5000; due := 5000 |};
      {| handle := {| timer_id := 8 |}; kind := OneShot; callback := Outlook;
         delay := 10000; due := 10000 |} ].
Proof.
  destruct (restart_after_stop (R := sample_runtime) (exec start initial_world)
              eq_refl) as (H1 & _ & _ & H4 & _).
  split; [exact H1 | exact H4].
Defined.

(** C4 as written fails for a stopped poller that was started before:
    [stop()] clears the recurring timers only, so after [start()],
    [stop()], [start()] the one-shot timers of both starts are armed, and
    with the clock advanced to 5 seconds the Schedule task has fired
    twice. *)
Lemma restarted_poller_fires_twice :
  isRunning (this (exec stop (exec start initial_world))) = false /\
  match advanceTimersTo (R := sample_runtime) 6 unconfigured 5000
          (exec start (exec stop (exec start initial_world))) with
  | Done w => invocations w = [(5000, Schedule); (5000, Schedule)]
  | _ => False
  end.
Proof. split; vm_compute; reflexivity. Qed.

(* ================================================================== *)
(** ** More on the poll tasks *)

Ltac innermost :=
  match goal with
  | |- context [match ?x with _ => _ end] =>
      lazymatch x with
      | context [match _ with _ => _ end] => fail
      | _ => destruct x eqn:?
      end
  end.

(** X1.  A run of a poll task sends one request, the authenticated [GET]
    to its endpoint under the configured base URL, exactly when the
    configuration is readable and holds a token; otherwise it sends none.
    Whatever the answer, the request is not repeated. *)
Theorem one_request_when_configured {R : Runtime} (E : Env) (cb : Task) (w : World) :
  network (exec (run_callback E cb) w) =
    match NEXT_PUBLIC_APP_URL E, CRON_SECRET E with
    | Normal configured, Normal cronSecret =>
        if truthy cronSecret
        then (network w ++ [poll_request (endpoint cb) configured cronSecret])%list
        else network w
    | _, _ => network w
    end.
Proof.
  destruct cb; unfold exec, endpoint; unfold_task;
    repeat (innermost; cbn [negb] in *); try discriminate; reflexivity.
Qed.

(** X2.  When the HTTP call itself fails (the promise of [fetch] rejects),
    the task has sent its one request, logs the exception at error level,
    reads no body and resolves. *)
Theorem transport_failure_is_logged {R : Runtime} (E : Env) (w : World)
    (configured cronSecret : option string) (e : exn) :
  configured_with E configured cronSecret ->
  (fetch E (schedule_request configured cronSecret) = Throw e ->
   pollSchedules E w =
     (Normal tt,
      polled w (schedule_request configured cronSecret) 0
        [entry debug "Polling schedules..."; caught Schedule e])) /\
  (fetch E (outlook_request configured cronSecret) = Throw e ->
   pollOutlook E w =
     (Normal tt,
      polled w (outlook_request configured cronSecret) 0
        [entry debug "Polling Outlook..."; caught Outlook e])).
Proof.
  intros (Hurl & Htoken & Hpresent).
  split; intros Hfetch; unfold_task;
    rewrite Hurl, Htoken, Hpresent; simpl in *;
    rewrite Hfetch; simpl;
    destruct w; simpl; rewrite <- app_assoc; reflexivity.
Qed.

Lemma transport_failure_is_logged_witness :
  pollOutlook (R := sample_runtime)
    (sample_env (Some "secret") (Throw (Thrown "ECONNREFUSED"))) initial_world =
    (Normal tt,
     polled initial_world (sample_request "/api/webhooks/poll/outlook") 0
       [entry debug "Polling Outlook..."; caught Outlook (Thrown "ECONNREFUSED")]).
Proof.
  apply (proj2 (transport_failure_is_logged (R := sample_runtime)
                  (sample_env (Some "secret") (Throw (Thrown "ECONNREFUSED")))
                  initial_world None (Some "secret") (Thrown "ECONNREFUSED")
                  (conj eq_refl (conj eq_refl eq_refl)))).
  reflexivity.
Defined.

(** X3.  A 2xx response whose body cannot be used ends in the [catch]
    block: when [json()] rejects, its exception is logged at error level;
    when the body decodes to [null], reading the count field throws a
    [TypeError], which is logged at error level.  Either way the body was
    read once and the task resolves. *)
Theorem unusable_body_is_logged {R : Runtime} (E : Env) (cb : Task) (w : World)
    (configured cronSecret : option string) (response : Response) :
  configured_with E configured cronSecret ->
  fetch E (poll_request (endpoint cb) configured cronSecret) = Normal response ->
  ok response = true ->
  (forall e,
     json response = Throw e ->
     run_callback E cb w =
       (Normal tt,
        polled w (poll_request (endpoint cb) configured cronSecret) 1
          [entry debug (polling_message cb); caught cb e])) /\
  (json response = Normal VNull ->
   exists msg,
     run_callback E cb w =
       (Normal tt,
        polled w (poll_request (endpoint cb) configured cronSecret) 1
          [entry debug (polling_message cb); caught cb (TypeError msg)])).
Proof.
  intros (Hurl & Htoken & Hpresent) Hfetch Hok.
  destruct cb; (split; [intros e Hjson | intros Hjson; eexists]);
    unfold endpoint, polling_message in *; unfold_task;
    rewrite Hurl, Htoken, Hpresent; simpl in Hfetch |- *;
    rewrite Hfetch, Hok; simpl; rewrite Hjson; simpl;
    destruct w; simpl; rewrite <- !app_assoc; reflexivity.
Qed.

Lemma unusable_body_is_logged_witness :
  exists msg,
    run_callback (R := sample_runtime)
      (sample_env (Some "secret") (Normal (response_200 (Normal VNull))))
      Outlook initial_world =
      (Normal tt,
       polled initial_world (sample_request "/api/webhooks/poll/outlook") 1
         [entry debug "Polling Outlook..."; caught Outlook (TypeError msg)]).
Proof.
  apply (proj2 (unusable_body_is_logged (R := sample_runtime)
                  (sample_env (Some "secret") (Normal (response_200 (Normal VNull))))
                  Outlook initial_world None (Some "secret")
                  (response_200 (Normal VNull))
                  (conj eq_refl (conj eq_refl eq_refl)) eq_refl eq_refl)).
  reflexivity.
Defined.

(** X4.  What a run of a poll task leaves alone, whatever its
    surroundings do: the poller's fields, the timers and the console.  It
    reads at most one response body and appends one or two log
    entries. *)
Theorem poll_task_footprint {R : Runtime} (E : Env) (cb : Task) (w : World) :
  this (exec (run_callback E cb) w) = this w /\
  timers (exec (run_callback E cb) w) = timers w /\
  console (exec (run_callback E cb) w) = console w /\
  invocations (exec (run_callback E cb) w) = invocations w /\
  (bodyReads (exec (run_callback E cb) w) = bodyReads w \/
   bodyReads (exec (run_callback E cb) w) = S (bodyReads w)) /\
  exists new,
    logged (exec (run_callback E cb) w) = (logged w ++ new)%list /\
    (List.length new = 1 \/ List.length new = 2)%nat.
Proof.
  destruct cb; unfold exec; unfold_task;
    repeat (innermost; cbn [negb] in *); try discriminate;
    simpl; rewrite <- ?app_assoc; simpl;
    (repeat split; auto; eexists; split; [reflexivity | simpl; auto]).
Qed.

(* ================================================================== *)
(** ** More on the lifecycle *)

(** Whatever was called before, the last call decides: after
    [start()] the poller runs, after [stop()] it does not. *)
Theorem last_call_decides (cs : list Call) (c : Call) (w : World) :
  isRunning (this (run_calls (cs ++ [c]) w)) =
    match c with
    | Start => true
    | Stop => false
    end.
Proof.
  unfold run_calls. rewrite fold_left_app. simpl.
  set (v := fold_left (fun w0 c0 => exec (call c0) w0) cs w).
  unfold exec. destruct c; simpl; destruct (isRunning (this v)) eqn:Hrun.
  - rewrite (start_when_running v Hrun). exact Hrun.
  - rewrite (start_when_stopped v Hrun). reflexivity.
  - rewrite (stop_when_running v Hrun). reflexivity.
  - rewrite (stop_when_stopped v Hrun). exact Hrun.
Qed.

(* ------------------------------------------------------------------ *)
(** *** Periods never change *)

Lemma periods_after_firing (t : Timer) (l : list Timer) :
  Forall (fun u => delay u = period_of (kind u) (callback u)) l ->
  Forall (fun u => delay u = period_of (kind u) (callback u)) (after_firing t l).
Proof.
  intros H. unfold after_firing. destruct (kind t).
  - apply Forall_forall. intros u Hu. apply in_map_iff in Hu.
    destruct Hu as (v & <- & Hv). rewrite Forall_forall in H.
    specialize (H v Hv). destruct (is_timer (handle t) v); simpl; exact H.
  - apply Forall_filter_keep, H.
Qed.

Lemma periods_drain (fuel : nat) (target : Z) (q q' : TimerQueue)
    (trace : list (Z * Task)) :
  drain fuel target q = Some (trace, q') -> periods_fixed q -> periods_fixed q'.
Proof.
  revert q q' trace. induction fuel as [|fuel IH]; intros q q' trace; simpl.
  - destruct (next_fire target q) as [[t q1]|]; [discriminate|].
    intros H Hp; inversion H; subst. exact Hp.
  - destruct (next_fire target q) as [[t q1]|] eqn:Hfire.
    + destruct (drain fuel target q1) as [[tr q2]|] eqn:Hd; [|discriminate].
      intros H Hp; inversion H; subst.
      apply (IH _ _ _ Hd).
      destruct (next_fire_spec _ _ _ _ Hfire) as (_ & _ & _ & Hpending).
      unfold periods_fixed. rewrite Hpending. apply periods_after_firing, Hp.
    + intros H Hp; inversion H; subst. exact Hp.
Qed.

Lemma reachable_periods {R : Runtime} (w : World) :
  reachable w -> periods_fixed (timers w).
Proof.
  induction 1 as [ | w Hw IH | w Hw IH | w fuel B target w' Hw IH Hadv].
  - constructor.
  - unfold exec. destruct (isRunning (this w)) eqn:Hrun.
    + rewrite (start_when_running w Hrun). exact IH.
    + rewrite (start_when_stopped w Hrun). unfold periods_fixed in *. simpl.
      apply Forall_app. split; [exact IH|]. repeat constructor.
  - unfold exec. destruct (isRunning (this w)) eqn:Hrun.
    + rewrite (stop_when_running w Hrun). unfold periods_fixed in *. simpl.
      destruct (outlookIntervalId (this w)), (scheduleIntervalId (this w)); simpl;
        repeat apply Forall_filter_keep; exact IH.
    + rewrite (stop_when_stopped w Hrun). exact IH.
  - pose proof (advance_drain fuel B target w) as H.
    destruct (drain fuel target (timers w)) as [[tr q]|] eqn:Hd.
    + destruct H as (w1 & Hadv1 & Hq & _).
      rewrite Hadv in Hadv1. inversion Hadv1; subst w1.
      rewrite Hq. eapply periods_drain; eassumption.
    + rewrite Hadv in H. discriminate.
Qed.

(** X5.  In every world the process can reach, a running poller holds the
    handles of two distinct armed timers, which are the only recurring
    timers: one calls the Schedule task, the other the Outlook task, each
    every 60 seconds.  A stopped poller holds no handle, and no recurring
    timer is armed. *)
Theorem handles_name_the_recurring_timers {R : Runtime} (w : World) :
  reachable w ->
  (forall t, In t (pending (timers w)) -> kind t = Interval -> delay t = 60000) /\
  if isRunning (this w)
  then exists h1 h2,
         scheduleIntervalId (this w) = Some h1 /\
         outlookIntervalId (this w) = Some h2 /\
         timer_id h1 <> timer_id h2 /\
         recurring_timers (timers w) = [(h1, Schedule); (h2, Outlook)]
  else scheduleIntervalId (this w) = None /\
       outlookIntervalId (this w) = None /\
       recurring_timers (timers w) = [].
Proof.
  intros Hreach. split.
  { intros t Hin Hk. pose proof (reachable_periods w Hreach) as Hp.
    unfold periods_fixed in Hp. rewrite Forall_forall in Hp.
    rewrite (Hp t Hin), Hk. reflexivity. }
  destruct (reachable_consistent w Hreach) as [[Hnd _] Hrec].
  destruct (isRunning (this w)); [|exact Hrec].
  destruct Hrec as (h1 & h2 & H1 & H2 & Hrec).
  exists h1, h2. repeat split; try assumption.
  apply (identifiers_filter is_interval) in Hnd.
  assert (Hids : identifiers (filter is_interval (pending (timers w))) =
                 map (fun p => timer_id (fst p)) (recurring_timers (timers w))).
  { unfold identifiers, recurring_timers. rewrite map_map. reflexivity. }
  rewrite Hids, Hrec in Hnd. simpl in Hnd.
  inversion Hnd as [|? ? Hnotin _]; subst.
  intros Heq. apply Hnotin. left. symmetry. exact Heq.
Qed.

Lemma handles_name_the_recurring_timers_witness :
  exists h1 h2,
    scheduleIntervalId (this (exec start initial_world)) = Some h1 /\
    outlookIntervalId (this (exec start initial_world)) = Some h2 /\
    timer_id h1 <> timer_id h2 /\
    recurring_timers (timers (exec start initial_world)) =
      [(h1, Schedule); (h2, Outlook)].
Proof.
  exact (proj2 (handles_name_the_recurring_timers (R := sample_runtime)
                  (exec start initial_world) (reach_start _ reach_initial))).
Defined.

(* ------------------------------------------------------------------ *)
(** *** Stopping right after starting *)

Lemma stopped_right_after_start (w : World) :
  isRunning (this w) = false ->
  pending (timers w) = [] ->
  timers (exec stop (exec start w)) =
    {| now := now (timers w);
       next_id := 4 + next_id (timers w);
       pending :=
         [ {| handle := {| timer_id := S (S (next_id (timers w))) |};
              kind := OneShot; callback := Schedule;
              delay := 5000; due := now (timers w) + 5000 |};
           {| handle := {| timer_id := S (S (S (next_id (timers w)))) |};
              kind := OneShot; callback := Outlook;
              delay := 10000; due := now (timers w) + 10000 |} ] |}.
Proof.
  intros Hrun Hnone. unfold exec at 2. rewrite (start_when_stopped w Hrun).
  unfold exec. cbn [snd]. rewrite stop_when_running by reflexivity.
  cbn [snd timers this scheduleIntervalId outlookIntervalId now next_id pending].
  rewrite Hnone. unfold armed_by_start, cleared, is_timer.
  repeat (cbn [app filter handle timer_id negb]; order).
  reflexivity.
Qed.

(** X6.  [stop()] does not cancel the two one-shot timers of [start()].
    A poller that is stopped right after it was started still polls once
    per task, at 5 and at 10 seconds; after that no timer is left, so
    nothing fires again however far the clock is advanced. *)
Theorem stop_leaves_the_startup_polls {R : Runtime} (B : nat -> Env) (w : World)
    (fuel : nat) (T : Z) :
  isRunning (this w) = false ->
  pending (timers w) = [] ->
  (2 <= fuel)%nat ->
  now (timers w) + 10000 <= T ->
  exists w',
    advanceTimersTo fuel B T (exec stop (exec start w)) = Done w' /\
    invocations w' =
      (invocations w ++ [(now (timers w) + 5000, Schedule);
                         (now (timers w) + 10000, Outlook)])%list /\
    pending (timers w') = [].
Proof.
  intros Hrun Hnone Hfuel HT.
  pose proof (stopped_right_after_start w Hrun Hnone) as Hq.
  assert (Hinv : invocations (exec stop (exec start w)) = invocations w).
  { unfold exec at 2. rewrite (start_when_stopped w Hrun).
    unfold exec. cbn [snd]. rewrite stop_when_running by reflexivity. reflexivity. }
  pose proof (advance_drain fuel B T (exec stop (exec start w))) as H.
  rewrite Hq in H.
  assert (Hd : exists q,
             drain 2 T
               {| now := now (timers w);
                  next_id := 4 + next_id (timers w);
                  pending :=
                    [ {| handle := {| timer_id := S (S (next_id (timers w))) |};
                         kind := OneShot; callback := Schedule;
                         delay := 5000; due := now (timers w) + 5000 |};
                      {| handle := {| timer_id := S (S (S (next_id (timers w)))) |};
                         kind := OneShot; callback := Outlook;
                         delay := 10000; due := now (timers w) + 10000 |} ] |}
             = Some ([(now (timers w) + 5000, Schedule);
                      (now (timers w) + 10000, Outlook)], q) /\
             pending q = []).
  { erewrite drain_fire by next.
    erewrite drain_fire by next.
    erewrite drain_idle by next.
    eexists; split; reflexivity. }
  destruct Hd as (q & Hd & Hempty).
  rewrite (drain_more_fuel _ _ _ _ _ Hd Hfuel) in H.
  destruct H as (w' & Hadv & Hq' & Hi & _).
  exists w'. split; [exact Hadv|]. split.
  - rewrite Hi, Hinv. reflexivity.
  - rewrite Hq'. exact Hempty.
Qed.

Lemma stop_leaves_the_startup_polls_witness :
  exists w',
    advanceTimersTo (R := sample_runtime) 2 unconfigured 3600000
      (exec stop (exec start initial_world)) = Done w' /\
    invocations w' = [(5000, Schedule); (10000, Outlook)] /\
    pending (timers w') = [].
Proof.
  apply (stop_leaves_the_startup_polls (R := sample_runtime) unconfigured
           initial_world 2 3600000 eq_refl eq_refl (le_n 2)).
  simpl. lia.
Defined.

(* ------------------------------------------------------------------ *)
(** *** Minute after minute *)

Lemma rounds_drain (k : nat) :
  forall (c D T : Z) (n a b : nat),
    a <> b ->
    D + Z.of_nat k * 60000 <= T < D + (Z.of_nat k + 1) * 60000 ->
    exists q,
      drain (2 * S k) T
        {| now := c; next_id := n;
           pending :=
             [ {| handle := {| timer_id := a |}; kind := Interval;
                  callback := Schedule; delay := 60000; due := D |};
               {| handle := {| timer_id := b |}; kind := Interval;
                  callback := Outlook; delay := 60000; due := D |} ] |}
      = Some (rounds_trace D k, q).
Proof.
  induction k as [|k IH]; intros c D T n a b Hab HT.
  - change (2 * 1)%nat with 2%nat.
    erewrite drain_fire by next.
    erewrite drain_fire by next.
    erewrite drain_idle by next.
    eexists; reflexivity.
  - replace (2 * S (S k))%nat with (S (S (2 * S k))) by lia.
    erewrite drain_fire by next.
    erewrite drain_fire by next.
    cbn [due callback rounds_trace].
    destruct (IH (Z.max (Z.max c D) D) (D + 60000) T n a b Hab) as [q Hq]; [lia|].
    rewrite Hq. eexists; reflexivity.
Qed.

Lemma fires_rounds (cb : Task) (D : Z) (k : nat) :
  fires cb (rounds_trace D k) = S k.
Proof.
  revert D. induction k as [|k IH]; intros D.
  - destruct cb; reflexivity.
  - specialize (IH (D + 60000)). unfold fires in *.
    destruct cb; simpl in *; rewrite IH; reflexivity.
Qed.

Lemma minutes_drain (t0 T : Z) (m k : nat) :
  t0 + Z.of_nat (S k) * 60000 <= T < t0 + (Z.of_nat (S k) + 1) * 60000 ->
  exists q trace,
    drain (S (S (2 * S k))) T
      {| now := t0; next_id := 4 + m;
         pending := armed_by_start {| now := t0; next_id := m; pending := [] |} |}
    = Some (trace, q) /\
    fires Schedule trace = S (S k) /\
    fires Outlook trace = S (S k).
Proof.
  intros HT. unfold armed_by_start. cbn [now next_id].
  erewrite drain_fire by next.
  erewrite drain_fire by next.
  cbn [due callback].
  destruct (rounds_drain k (Z.max (Z.max t0 (t0 + 5000)) (t0 + 10000))
              (t0 + 60000) T (4 + m) m (S m)) as [q Hq];
    [lia | lia |].
  rewrite Hq. eexists; eexists. split; [reflexivity|].
  unfold fires. simpl. split; f_equal; apply fires_rounds.
Qed.

Lemma timers_of_first_start (w : World) :
  isRunning (this w) = false ->
  pending (timers w) = [] ->
  timers (exec start w) =
    {| now := now (timers w); next_id := 4 + next_id (timers w);
       pending := armed_by_start
                    {| now := now (timers w); next_id := next_id (timers w);
                       pending := [] |} |}.
Proof.
  intros Hrun Hnone. unfold exec. rewrite (start_when_stopped w Hrun). simpl.
  rewrite Hnone. reflexivity.
Qed.

(** X7.  The polling goes on at one call per task and minute.  After a
    [start()] that found the poller stopped and no timer armed, with the
    clock anywhere in the [n]-th minute after it ([n >= 1]), each task has
    been called exactly [n + 1] times: once by its one-shot timer and once
    at every full minute. *)
Theorem polls_every_minute {R : Runtime} (B : nat -> Env) (w : World)
    (fuel n : nat) (T : Z) :
  isRunning (this w) = false ->
  pending (timers w) = [] ->
  (1 <= n)%nat ->
  (2 * n + 2 <= fuel)%nat ->
  now (timers w) + Z.of_nat n * 60000 <= T
    < now (timers w) + (Z.of_nat n + 1) * 60000 ->
  exists w' trace,
    advanceTimersTo fuel B T (exec start w) = Done w' /\
    invocations w' = (invocations w ++ trace)%list /\
    fires Schedule trace = S n /\
    fires Outlook trace = S n.
Proof.
  intros Hrun Hnone Hn Hfuel HT.
  destruct n as [|k]; [lia|].
  assert (Hinv : invocations (exec start w) = invocations w).
  { unfold exec. rewrite (start_when_stopped w Hrun). reflexivity. }
  destruct (minutes_drain (now (timers w)) T (next_id (timers w)) k HT)
    as (q & trace & Hd & Hs & Ho).
  rewrite <- (timers_of_first_start w Hrun Hnone) in Hd.
  destruct (advance_trace _ fuel B T (exec start w) q _ Hd) as (w' & Hadv & Hi);
    [lia|].
  exists w', trace. split; [exact Hadv|]. split; [rewrite <- Hinv; exact Hi|].
  split; assumption.
Qed.

Lemma polls_every_minute_witness :
  exists w' trace,
    advanceTimersTo (R := sample_runtime) 22 unconfigured 600000
      (exec start initial_world) = Done w' /\
    invocations w' = (invocations initial_world ++ trace)%list /\
    fires Schedule trace = 11%nat /\
    fires Outlook trace = 11%nat.
Proof.
  apply (polls_every_minute (R := sample_runtime) unconfigured initial_world
           22 10 600000 eq_refl eq_refl); simpl; lia.
Defined.

(* ------------------------------------------------------------------ *)
(** *** Advancing the clock comes to an end *)

Lemma fires_left_postpone (T : Z) (u : Timer) :
  1 <= delay u ->
  (fires_left T (postpone u) <= fires_left T u)%nat /\
  (due u <= T -> kind u = Interval ->
   (fires_left T (postpone u) < fires_left T u)%nat).
Proof.
  intros Hd. unfold fires_left, postpone. cbn [due kind delay].
  destruct (due u + delay u <=? T) eqn:Hnext.
  - apply Z.leb_le in Hnext.
    replace (due u <=? T) with true by (symmetry; apply Z.leb_le; lia).
    assert (Hq : (T - (due u + delay u)) / delay u = (T - due u) / delay u - 1).
    { replace (T - (due u + delay u)) with ((T - due u) + (-1) * delay u) by lia.
      rewrite Z.div_add by lia. lia. }
    assert (Hpos : 1 <= (T - due u) / delay u).
    { apply Z.div_le_lower_bound; lia. }
    rewrite Hq. destruct (kind u); split; intros; try lia; try discriminate.
  - destruct (due u <=? T) eqn:Hnow; destruct (kind u);
      split; intros; try lia; try discriminate.
Qed.

Lemma list_sum_filter_lt {A} (g : A -> nat) (p : A -> bool) (l : list A) (x : A) :
  In x l -> p x = false -> (1 <= g x)%nat ->
  (list_sum (map g (filter p l)) < list_sum (map g l))%nat.
Proof.
  assert (Hle : forall l', (list_sum (map g (filter p l')) <= list_sum (map g l'))%nat).
  { induction l' as [|a l' IH]; simpl; [lia|].
    destruct (p a); simpl; lia. }
  induction l as [|a l IH]; simpl; intros Hin Hp Hg; [contradiction|].
  destruct Hin as [-> | Hin].
  - rewrite Hp. specialize (Hle l). lia.
  - specialize (IH Hin Hp Hg). destruct (p a); simpl; lia.
Qed.

Lemma list_sum_map_lt {A} (g : A -> nat) (f : A -> A) (l : list A) (x : A) :
  (forall u, In u l -> (g (f u) <= g u)%nat) ->
  In x l -> (g (f x) < g x)%nat ->
  (list_sum (map g (map f l)) < list_sum (map g l))%nat.
Proof.
  assert (Hle : forall l', (forall u, In u l' -> (g (f u) <= g u)%nat) ->
                           (list_sum (map g (map f l')) <= list_sum (map g l'))%nat).
  { induction l' as [|a l' IH]; simpl; intros H; [lia|].
    specialize (IH (fun u Hu => H u (or_intror Hu))).
    specialize (H a (or_introl eq_refl)). lia. }
  induction l as [|a l IH]; simpl; intros Hall Hin Hlt; [contradiction|].
  destruct Hin as [-> | Hin].
  - specialize (Hle l (fun u Hu => Hall u (or_intror Hu))). lia.
  - specialize (IH (fun u Hu => Hall u (or_intror Hu)) Hin Hlt).
    specialize (Hall a (or_introl eq_refl)). lia.
Qed.

Lemma next_fire_unloads (T : Z) (q q' : TimerQueue) (t : Timer) :
  next_fire T q = Some (t, q') ->
  Forall (fun u => 1 <= delay u) (pending q) ->
  (load T q' < load T q)%nat /\ Forall (fun u => 1 <= delay u) (pending q').
Proof.
  intros Hfire Hd.
  destruct (next_fire_spec _ _ _ _ Hfire) as (Hin & Hdue & _ & Hpending).
  unfold load. rewrite Hpending. unfold after_firing.
  rewrite Forall_forall in Hd.
  destruct (kind t) eqn:Hk; split.
  - apply list_sum_map_lt with (x := t).
    + intros u Hu. destruct (is_timer (handle t) u); [|lia].
      apply fires_left_postpone, Hd, Hu.
    + exact Hin.
    + unfold is_timer. rewrite Nat.eqb_refl.
      apply fires_left_postpone; auto.
  - apply Forall_forall. intros u Hu. apply in_map_iff in Hu.
    destruct Hu as (v & <- & Hv). specialize (Hd v Hv).
    destruct (is_timer (handle t) v); simpl; exact Hd.
  - apply list_sum_filter_lt with (x := t).
    + exact Hin.
    + unfold is_timer. rewrite Nat.eqb_refl. reflexivity.
    + unfold fires_left. rewrite Hk.
      replace (due t <=? T) with true by (symmetry; apply Z.leb_le; lia). lia.
  - apply Forall_filter_keep. apply Forall_forall. exact Hd.
Qed.

Lemma drain_terminates (fuel : nat) (T : Z) (q : TimerQueue) :
  Forall (fun u => 1 <= delay u) (pending q) ->
  (load T q <= fuel)%nat ->
  exists r, drain fuel T q = Some r.
Proof.
  revert q. induction fuel as [|fuel IH]; intros q Hd Hload; simpl.
  - destruct (next_fire T q) as [[t q1]|] eqn:Hfire; [|eauto].
    destruct (next_fire_unloads _ _ _ _ Hfire Hd) as [Hlt _]. lia.
  - destruct (next_fire T q) as [[t q1]|] eqn:Hfire; [|eauto].
    destruct (next_fire_unloads _ _ _ _ Hfire Hd) as [Hlt Hd1].
    destruct (IH q1 Hd1) as [[tr q2] Hr]; [lia|].
    rewrite Hr. eauto.
Qed.

Lemma next_fire_settled (T T' : Z) (q : TimerQueue) :
  next_fire T q = None -> next_fire T (settle T' q) = None.
Proof.
  unfold next_fire, settle. cbn [pending].
  destruct (earliest (pending q)) as [t|]; [|reflexivity].
  destruct (due t <=? T); [discriminate | reflexivity].
Qed.

(** X8.  Advancing the clock always comes to an end, and no poll task
    ends the timer loop: in every world the process can reach and for
    every target time there is enough fuel (as many steps as callbacks
    are still due), and with it every timer due has been run, whatever
    the surroundings answered. *)
Theorem the_timer_loop_finishes {R : Runtime} (B : nat -> Env) (T : Z) (w : World) :
  reachable w ->
  exists w',
    advanceTimersTo (load T (timers w)) B T w = Done w' /\
    next_fire T (timers w') = None /\
    this w' = this w.
Proof.
  intros Hreach.
  assert (Hd : Forall (fun u => 1 <= delay u) (pending (timers w))).
  { pose proof (reachable_periods w Hreach) as Hp. unfold periods_fixed in Hp.
    eapply Forall_impl; [|exact Hp]. simpl. intros u ->.
    destruct (kind u), (callback u); simpl; lia. }
  destruct (drain_terminates (load T (timers w)) T (timers w) Hd (le_n _))
    as [[tr q] Hr].
  pose proof (advance_drain (load T (timers w)) B T w) as H.
  rewrite Hr in H. destruct H as (w' & Hadv & Hq & _ & Hthis).
  exists w'. split; [exact Hadv|]. split; [|exact Hthis].
  rewrite Hq. clear - Hr.
  revert Hr. generalize (load T (timers w)) as fuel. generalize (timers w) as q0.
  intros q0 fuel. revert q0 tr.
  induction fuel as [|fuel IH]; intros q0 tr; simpl.
  - destruct (next_fire T q0) as [[t q1]|] eqn:Hfire; [discriminate|].
    intros H; inversion H; subst. apply next_fire_settled, Hfire.
  - destruct (next_fire T q0) as [[t q1]|] eqn:Hfire.
    + destruct (drain fuel T q1) as [[tr1 q2]|] eqn:Hd1; [|discriminate].
      intros H; inversion H; subst. eapply IH; eassumption.
    + intros H; inversion H; subst. apply next_fire_settled, Hfire.
Qed.

Lemma the_timer_loop_finishes_witness :
  exists w',
    advanceTimersTo (R := sample_runtime)
      (load 600000 (timers (exec start initial_world))) unconfigured 600000
      (exec start initial_world) = Done w' /\
    next_fire 600000 (timers w') = None /\
    this w' = this (exec start initial_world).
Proof.
  exact (the_timer_loop_finishes (R := sample_runtime) unconfigured 600000
           (exec start initial_world) (reach_start _ reach_initial)).
Defined.

(* ------------------------------------------------------------------ *)
(** *** Advancing the clock in steps *)

Lemma drain_clock (fuel : nat) (T : Z) :
  forall q q',
    pending q = pending q' -> next_id q = next_id q' ->
    match drain fuel T q, drain fuel T q' with
    | Some (tr, a), Some (tr', b) =>
        tr = tr' /\ pending a = pending b /\ next_id a = next_id b
    | None, None => True
    | _, _ => False
    end.
Proof.
  induction fuel as [|fuel IH]; intros q q' Hp Hn; simpl;
    unfold next_fire; rewrite Hp, Hn;
    destruct (earliest (pending q')) as [t|]; try (simpl; auto; fail);
    destruct (due t <=? T); try (simpl; auto; fail).
  specialize (IH {| now := Z.max (now q) (due t); next_id := next_id q';
                    pending := after_firing t (pending q') |}
                 {| now := Z.max (now q') (due t); next_id := next_id q';
                    pending := after_firing t (pending q') |} eq_refl eq_refl).
  destruct (drain fuel T _) as [[tr a]|], (drain fuel T _) as [[tr' b]|];
    try contradiction; [|exact I].
  destruct IH as (-> & H1 & H2). auto.
Qed.

Lemma next_fire_later (T1 T2 : Z) (q q' : TimerQueue) (t : Timer) :
  T1 <= T2 -> next_fire T1 q = Some (t, q') -> next_fire T2 q = Some (t, q').
Proof.
  intros HT. unfold next_fire.
  destruct (earliest (pending q)) as [u|]; [|discriminate].
  destruct (due u <=? T1) eqn:Hle; [|discriminate].
  apply Z.leb_le in Hle.
  replace (due u <=? T2) with true by (symmetry; apply Z.leb_le; lia).
  auto.
Qed.

Lemma drain_split (f1 f2 : nat) (T1 T2 : Z) :
  T1 <= T2 ->
  forall q tr1 q1 tr2 q2,
    drain f1 T1 q = Some (tr1, q1) ->
    drain f2 T2 q1 = Some (tr2, q2) ->
    exists q',
      drain (f1 + f2) T2 q = Some ((tr1 ++ tr2)%list, q') /\
      pending q' = pending q2 /\ next_id q' = next_id q2.
Proof.
  intros HT.
  assert (Hidle : forall f q tr2 q2,
             next_fire T1 q = None ->
             drain f2 T2 (settle T1 q) = Some (tr2, q2) ->
             exists q', drain (f + f2) T2 q = Some (tr2, q') /\
                        pending q' = pending q2 /\ next_id q' = next_id q2).
  { intros f q tr2 q2 _ Hd2.
    pose proof (drain_clock f2 T2 q (settle T1 q) eq_refl eq_refl) as Hc.
    rewrite Hd2 in Hc.
    destruct (drain f2 T2 q) as [[tr a]|] eqn:Hd; [|contradiction].
    destruct Hc as (-> & Hp & Hn).
    exists a. split; [|auto].
    apply (drain_more_fuel f2); [exact Hd | lia]. }
  induction f1 as [|f1 IH]; intros q tr1 q1 tr2 q2 Hd1 Hd2.
  - simpl in Hd1. destruct (next_fire T1 q) as [[t qa]|] eqn:Hfire; [discriminate|].
    inversion Hd1; subst. apply (Hidle 0%nat); assumption.
  - simpl in Hd1. destruct (next_fire T1 q) as [[t qa]|] eqn:Hfire.
    + destruct (drain f1 T1 qa) as [[tr q1']|] eqn:Hd; [|discriminate].
      inversion Hd1; subst.
      destruct (IH _ _ _ _ _ Hd Hd2) as (q' & Hq' & Hp & Hn).
      exists q'. split; [|auto].
      simpl. rewrite (next_fire_later _ _ _ _ _ HT Hfire), Hq'. reflexivity.
    + inversion Hd1; subst. apply (Hidle (S f1)); assumption.
Qed.

Lemma advance_done_drain {R : Runtime} (fuel : nat) (B : nat -> Env) (T : Z)
    (w w' : World) :
  advanceTimersTo fuel B T w = Done w' ->
  exists trace,
    drain fuel T (timers w) = Some (trace, timers w') /\
    invocations w' = (invocations w ++ trace)%list.
Proof.
  intros Hadv. pose proof (advance_drain fuel B T w) as H.
  destruct (drain fuel T (timers w)) as [[tr q]|].
  - destruct H as (w1 & Hadv1 & Hq & Hi & _).
    rewrite Hadv in Hadv1. inversion Hadv1; subst w1.
    exists tr. rewrite Hq. auto.
  - rewrite Hadv in H. discriminate.
Qed.

(** X9.  Advancing the clock in two steps calls the same tasks, at the
    same times and in the same order, as advancing it to the later time at
    once, and leaves the same timers armed. *)
Theorem advancing_in_steps {R : Runtime} (f1 f2 : nat) (B : nat -> Env)
    (T1 T2 : Z) (w w1 w2 : World) :
  T1 <= T2 ->
  advanceTimersTo f1 B T1 w = Done w1 ->
  advanceTimersTo f2 B T2 w1 = Done w2 ->
  exists w',
    advanceTimersTo (f1 + f2) B T2 w = Done w' /\
    invocations w' = invocations w2 /\
    pending (timers w') = pending (timers w2).
Proof.
  intros HT H1 H2.
  destruct (advance_done_drain _ _ _ _ _ H1) as (tr1 & Hd1 & Hi1).
  destruct (advance_done_drain _ _ _ _ _ H2) as (tr2 & Hd2 & Hi2).
  destruct (drain_split f1 f2 T1 T2 HT _ _ _ _ _ Hd1 Hd2) as (q' & Hd & Hp & _).
  pose proof (advance_drain (f1 + f2) B T2 w) as H.
  rewrite Hd in H. destruct H as (w' & Hadv & Hq & Hi & _).
  exists w'. split; [exact Hadv|]. split.
  - rewrite Hi, Hi2, Hi1, app_assoc. reflexivity.
  - rewrite Hq. exact Hp.
Qed.

Lemma advancing_in_steps_witness :
  exists w',
    advanceTimersTo (R := sample_runtime) (1 + 1) unconfigured 10000
      (exec start initial_world) = Done w' /\
    invocations w' = [(5000, Schedule); (10000, Outlook)] /\
    List.length (pending (timers w')) = 2%nat.
Proof.
  destruct (advanceTimersTo (R := sample_runtime) 1 unconfigured 5000
              (exec start initial_world)) as [w1 | |] eqn:H1;
    try (vm_compute in H1; discriminate).
  destruct (advanceTimersTo (R := sample_runtime) 1 unconfigured 10000 w1)
    as [w2 | |] eqn:H2;
    try (vm_compute in H1; inversion H1; subst w1; vm_compute in H2; discriminate).
  destruct (advancing_in_steps (R := sample_runtime) 1 1 unconfigured 5000 10000
              (exec start initial_world) w1 w2 ltac:(lia) H1 H2)
    as (w' & Hadv & Hi & Hp).
  exists w'. split; [exact Hadv|].
  vm_compute in H1. inversion H1; subst w1.
  vm_compute in H2. inversion H2; subst w2.
  rewrite Hi, Hp. split; reflexivity.
Defined.

(* ================================================================== *)
(** ** The bootstrap *)

Lemma set_poller_same (p : Process) : set_poller (poller p) p = p.
Proof. destruct p; reflexivity. Qed.

Lemma ignores_keeps {A} (m : MB A) (p : Process) :
  ignores_poller m -> poller (snd (m p)) = poller p.
Proof.
  intros H. specialize (H p (poller p)). rewrite set_poller_same in H.
  rewrite H. reflexivity.
Qed.

Lemma ignores_retP {A} (a : A) : ignores_poller (retP a).
Proof. intros p w; reflexivity. Qed.

Lemma ignores_liftP {A} (c : completion A) : ignores_poller (liftP c).
Proof. intros p w; reflexivity. Qed.

Lemma ignores_perform (H : Host) (x : Effect) : ignores_poller (perform H x).
Proof. intros p w; reflexivity. Qed.

Lemma ignores_import_telemetry_config (H : Host) :
  ignores_poller (import_telemetry_config H).
Proof. intros p w; reflexivity. Qed.

Lemma ignores_otel_write (l : Level) (msg : string) (d : option exn) :
  ignores_poller (otel_write l msg d).
Proof. intros p w; reflexivity. Qed.

Lemma ignores_bindP {A B} (m : MB A) (k : A -> MB B) :
  ignores_poller m -> (forall a, ignores_poller (k a)) -> ignores_poller (bindP m k).
Proof.
  intros Hm Hk p w. unfold bindP. rewrite Hm.
  destruct (m p) as [[a | e] p1]; simpl; [apply Hk | reflexivity].
Qed.

Lemma ignores_try_catchP {A} (body : MB A) (handler : exn -> MB A) :
  ignores_poller body -> (forall e, ignores_poller (handler e)) ->
  ignores_poller (try_catchP body handler).
Proof.
  intros Hm Hk p w. unfold try_catchP. rewrite Hm.
  destruct (body p) as [[a | e] p1]; simpl; [reflexivity | apply Hk].
Qed.

Ltac ignore_poller :=
  repeat first
    [ apply ignores_bindP; [|intros ?]
    | apply ignores_try_catchP; [|intros ?]
    | apply ignores_retP
    | apply ignores_liftP
    | apply ignores_perform
    | apply ignores_import_telemetry_config
    | apply ignores_otel_write
    | match goal with
      | |- ignores_poller (if ?b then _ else _) => destruct b
      end ].

Lemma initializeOpenTelemetry_ignores_poller (H : Host) :
  ignores_poller (InstrumentationNode.initializeOpenTelemetry H).
Proof.
  unfold InstrumentationNode.initializeOpenTelemetry,
    InstrumentationNode.initializeOpenTelemetry_try,
    InstrumentationNode.start_sdk, otel_info, otel_error.
  ignore_poller.
Qed.

Lemma initializeOpenTelemetry_resolves (H : Host) (p : Process) :
  exists p', InstrumentationNode.initializeOpenTelemetry H p = (Normal tt, p').
Proof.
  unfold InstrumentationNode.initializeOpenTelemetry, try_catchP.
  destruct (InstrumentationNode.initializeOpenTelemetry_try H p) as [[[] | e] p1];
    eexists; reflexivity.
Qed.

(* ------------------------------------------------------------------ *)
(** *** Stepping through [initializeOpenTelemetry()] *)

Lemma try_perform {A} (H : Host) (x : Effect) (k : unit -> MB A)
    (h : exn -> MB A) (p : Process) :
  try_catchP (bindP (perform H x) k) h p =
    match answer H (List.length (effects p)) x with
    | Normal a => try_catchP (k a) h (record x p)
    | Throw e => h e (record x p)
    end.
Proof.
  unfold try_catchP, bindP, perform.
  destruct (answer H (List.length (effects p)) x); reflexivity.
Qed.

Lemma try_lift {A B} (c : completion B) (k : B -> MB A) (h : exn -> MB A)
    (p : Process) :
  try_catchP (bindP (liftP c) k) h p =
    match c with
    | Normal a => try_catchP (k a) h p
    | Throw e => h e p
    end.
Proof. unfold try_catchP, bindP, liftP. destruct c; reflexivity. Qed.

Lemma try_config {A} (H : Host) (D : value) (k : value -> MB A)
    (h : exn -> MB A) (p : Process) :
  try_catchP
    (bindP (try_catchP (import_telemetry_config H) (fun _ => retP D)) k) h p =
  try_catchP
    (k match telemetry_config H with
       | Normal config => config
       | Throw _ => D
       end)
    h (record (ImportModule "./telemetry.config") p).
Proof.
  unfold try_catchP, bindP, import_telemetry_config, retP.
  destruct (telemetry_config H); reflexivity.
Qed.

Lemma try_info (msg : string) (h : exn -> MB unit) (p : Process) :
  try_catchP (otel_info msg) h p = otel_info msg p.
Proof. reflexivity. Qed.

Lemma try_lift_normal {A B} (a : B) (k : B -> MB A) (h : exn -> MB A)
    (p : Process) :
  try_catchP (bindP (liftP (Normal a)) k) h p = try_catchP (k a) h p.
Proof. reflexivity. Qed.

Ltac boot_step :=
  first
    [ rewrite try_lift_normal
    | rewrite try_perform;
      match goal with
      | |- context [answer ?H ?n ?x] => destruct (answer H n x) as [[] | ?] eqn:?
      end
    | rewrite try_lift;
      match goal with
      | |- context [match ?c with Normal _ => _ | Throw _ => _ end] =>
          destruct c eqn:?
      end
    | rewrite try_config
    | match goal with
      | |- context [try_catchP (if ?b then _ else _)] => destruct b eqn:?
      end ];
  cbv beta.

Ltac boot_leaf :=
  rewrite ?try_info;
  cbv beta iota delta [otel_info otel_error otel_write record
                       poller effects otel_logged console_errors fst snd];
  rewrite <- ?app_assoc; cbn [app].

Lemma telemetry_trace (H : Host) (p : Process) :
  exists new entry_,
    InstrumentationNode.initializeOpenTelemetry H p =
      (Normal tt,
       {| poller := poller p;
          effects := (effects p ++ new)%list;
          otel_logged := (otel_logged p ++ [entry_])%list;
          console_errors := console_errors p |}) /\
    (In (Invoke "process.on" [VString "SIGTERM"]) new ->
     In (Invoke "sdk.start" []) new) /\
    (In (Invoke "process.on" [VString "SIGINT"]) new ->
     In (Invoke "sdk.start" []) new) /\
    (message entry_ = "OpenTelemetry instrumentation initialized" ->
     In (Invoke "sdk.start" []) new /\
     In (Invoke "process.on" [VString "SIGTERM"]) new /\
     In (Invoke "process.on" [VString "SIGINT"]) new) /\
    (level entry_ = info \/
     level entry_ = error /\
     message entry_ = "Failed to initialize OpenTelemetry instrumentation" /\
     detail entry_ <> None).
Proof.
  unfold InstrumentationNode.initializeOpenTelemetry,
    InstrumentationNode.initializeOpenTelemetry_try,
    InstrumentationNode.start_sdk.
  repeat boot_step; boot_leaf.
  all: eexists; eexists;
    (split; [first [reflexivity | rewrite app_nil_r; reflexivity]|]).
  all: cbn [message level detail In].
  all: repeat split; intros; try discriminate; auto 40.
  all: try (right; repeat split; discriminate).
  all: try tauto.
  all: repeat match goal with
              | Hin : _ \/ _ |- _ => destruct Hin
              | Heq : _ = _ |- _ => discriminate Heq
              | Hf : False |- _ => contradiction
              end.
Qed.

(** X10.  [initializeOpenTelemetry()] is contained.  Whatever the host
    answers, it resolves, leaves the poller's world and [console.error]
    alone, and gives its logger exactly one entry: an info entry, or the
    error entry of its [catch] block with the exception attached.  The
    entry is the one of a finished initialisation only if [sdk.start()]
    and both signal listeners were reached, and no listener is registered
    before [sdk.start()]. *)
Theorem telemetry_init_is_contained (H : Host) (p : Process) :
  exists new entry_,
    InstrumentationNode.initializeOpenTelemetry H p =
      (Normal tt,
       {| poller := poller p;
          effects := (effects p ++ new)%list;
          otel_logged := (otel_logged p ++ [entry_])%list;
          console_errors := console_errors p |}) /\
    (In (Invoke "process.on" [VString "SIGTERM"]) new ->
     In (Invoke "sdk.start" []) new) /\
    (In (Invoke "process.on" [VString "SIGINT"]) new ->
     In (Invoke "sdk.start" []) new) /\
    (message entry_ = "OpenTelemetry instrumentation initialized" ->
     In (Invoke "sdk.start" []) new /\
     In (Invoke "process.on" [VString "SIGTERM"]) new /\
     In (Invoke "process.on" [VString "SIGINT"]) new) /\
    (level entry_ = info \/
     level entry_ = error /\
     message entry_ = "Failed to initialize OpenTelemetry instrumentation" /\
     detail entry_ <> None).
Proof. exact (telemetry_trace H p). Qed.

(** X11.  The two switches that turn telemetry off.  With
    [NEXT_TELEMETRY_DISABLED] equal to ['1'] nothing is imported at all;
    with [serverSide.enabled] strictly [false] in the imported
    configuration only that configuration was imported.  In both cases
    one info entry is logged and the SDK is not touched.  The default
    configuration, used when the import fails, never turns it off: the
    SDK's first module is imported next. *)
Theorem telemetry_off_switches (H : Host) (p : Process) :
  (NEXT_TELEMETRY_DISABLED H = Normal (Some "1") ->
   InstrumentationNode.initializeOpenTelemetry H p =
     (Normal tt,
      {| poller := poller p; effects := effects p;
         otel_logged :=
           (otel_logged p
            ++ [otel_entry info
                  "OpenTelemetry disabled via NEXT_TELEMETRY_DISABLED=1" None])%list;
         console_errors := console_errors p |})) /\
  (forall disabled config serverSide,
     NEXT_TELEMETRY_DISABLED H = Normal disabled ->
     is_string disabled "1" = false ->
     telemetry_config H = Normal config ->
     Get config "serverSide" = Normal serverSide ->
     optional_Get serverSide "enabled" = Normal (VBool false) ->
     InstrumentationNode.initializeOpenTelemetry H p =
       (Normal tt,
        {| poller := poller p;
           effects := (effects p ++ [ImportModule "./telemetry.config"])%list;
           otel_logged :=
             (otel_logged p
              ++ [otel_entry info
                    "Server-side OpenTelemetry disabled in config" None])%list;
           console_errors := console_errors p |})) /\
  (forall disabled e,
     NEXT_TELEMETRY_DISABLED H = Normal disabled ->
     is_string disabled "1" = false ->
     telemetry_config H = Throw e ->
     exists rest,
       effects (execP (InstrumentationNode.initializeOpenTelemetry H) p) =
         (effects p ++ ImportModule "./telemetry.config"
                    :: ImportModule "@opentelemetry/sdk-node" :: rest)%list).
Proof.
  unfold execP, InstrumentationNode.initializeOpenTelemetry,
    InstrumentationNode.initializeOpenTelemetry_try.
  split; [|split].
  - intros Hoff. rewrite try_lift, Hoff. cbn [is_string String.eqb Ascii.eqb Bool.eqb].
    rewrite try_info. reflexivity.
  - intros disabled config serverSide Hread Hon Hconfig Hside Henabled.
    rewrite try_lift, Hread, Hon. rewrite try_config, Hconfig.
    rewrite try_lift, Hside. rewrite try_lift, Henabled.
    cbn [strictly_false]. rewrite try_info. reflexivity.
  - intros disabled e Hread Hon Hconfig.
    rewrite try_lift, Hread, Hon. rewrite try_config, Hconfig.
    rewrite try_lift. cbn [Get InstrumentationNode.DEFAULT_TELEMETRY_CONFIG
                             own_property String.eqb Ascii.eqb Bool.eqb].
    rewrite try_lift. cbn [optional_Get Get own_property String.eqb Ascii.eqb
                             Bool.eqb strictly_false].
    unfold InstrumentationNode.start_sdk.
    rewrite try_perform.
    set (q := record (ImportModule "./telemetry.config") p).
    set (x := ImportModule "@opentelemetry/sdk-node").
    destruct (answer H (List.length (effects q)) x) as [[] | e1].
    + set (rest := try_catchP _ _).
      assert (Hrest : exists new,
                 effects (snd (rest (record x q))) = (effects (record x q) ++ new)%list).
      { subst rest. clear.
        generalize (record x q) as q0. intros q0.
        repeat boot_step; boot_leaf;
          eexists; (first [reflexivity | rewrite app_nil_r; reflexivity]). }
      destruct Hrest as [new Hnew]. exists new. rewrite Hnew.
      subst q x. cbn [record effects]. rewrite <- !app_assoc. reflexivity.
    + exists []. subst q x. cbn [otel_error otel_write record effects snd].
      rewrite <- !app_assoc. reflexivity.
Qed.

Lemma telemetry_off_switches_witness :
  InstrumentationNode.initializeOpenTelemetry
    (with_telemetry_config
       (Normal (VObject [("serverSide", VObject [("enabled", VBool false)])]))
       (quiet_host None))
    initial_process =
    (Normal tt,
     {| poller := initial_world;
        effects := [ImportModule "./telemetry.config"];
        otel_logged :=
          [otel_entry info "Server-side OpenTelemetry disabled in config" None];
        console_errors := [] |}).
Proof.
  apply (proj1 (proj2 (telemetry_off_switches
                         (with_telemetry_config
                            (Normal (VObject [("serverSide",
                                               VObject [("enabled", VBool false)])]))
                            (quiet_host None))
                         initial_process))
           None
           (VObject [("serverSide", VObject [("enabled", VBool false)])])
           (VObject [("enabled", VBool false)])
           eq_refl eq_refl eq_refl eq_refl eq_refl).
Defined.

(** X12.  A failing import of [./telemetry.config] falls back to
    [DEFAULT_TELEMETRY_CONFIG]: the initialisation then runs exactly as
    on a host whose configuration module exports the default. *)
Theorem missing_config_means_default (H : Host) (e : exn) (p : Process) :
  telemetry_config H = Throw e ->
  InstrumentationNode.initializeOpenTelemetry H p =
  InstrumentationNode.initializeOpenTelemetry
    (with_telemetry_config
       (Normal (InstrumentationNode.DEFAULT_TELEMETRY_CONFIG H)) H) p.
Proof.
  intros Hconfig.
  unfold InstrumentationNode.initializeOpenTelemetry,
    InstrumentationNode.initializeOpenTelemetry_try.
  rewrite !try_lift.
  change (NEXT_TELEMETRY_DISABLED (with_telemetry_config _ H))
    with (NEXT_TELEMETRY_DISABLED H).
  destruct (NEXT_TELEMETRY_DISABLED H) as [disabled | e1]; [|reflexivity].
  destruct (is_string disabled "1"); [reflexivity|].
  rewrite !try_config, Hconfig.
  reflexivity.
Qed.

Lemma missing_config_means_default_witness :
  InstrumentationNode.initializeOpenTelemetry (quiet_host None) initial_process =
  InstrumentationNode.initializeOpenTelemetry
    (with_telemetry_config
       (Normal (InstrumentationNode.DEFAULT_TELEMETRY_CONFIG (quiet_host None)))
       (quiet_host None))
    initial_process.
Proof.
  apply (missing_config_means_default (quiet_host None)
           (Thrown "Cannot find module './telemetry.config'") initial_process
           eq_refl).
Defined.

(** What a host that answers every effect gets from the default
    configuration: the exporter's endpoint and timeout, the batch
    settings, the 10% sampler, and both listeners. *)
Example telemetry_on_a_quiet_host :
  execP (InstrumentationNode.initializeOpenTelemetry (quiet_host (Some "production")))
    initial_process =
    {| poller := initial_world;
       effects :=
         [ImportModule "./telemetry.config";
          ImportModule "@opentelemetry/sdk-node";
          ImportModule "@opentelemetry/resources";
          ImportModule "@opentelemetry/semantic-conventions/incubating";
          ImportModule "@opentelemetry/exporter-trace-otlp-http";
          ImportModule "@opentelemetry/sdk-trace-node";
          ImportModule "@opentelemetry/sdk-trace-base";
          Construct "OTLPTraceExporter"
            [VObject [("url", VString "https://telemetry.simstudio.ai/v1/traces");
                      ("headers", VObject []);
                      ("timeoutMillis", VNumber 30000%float)]];
          Construct "BatchSpanProcessor"
            [VObject [("maxQueueSize", VNumber 2048%float);
                      ("maxExportBatchSize", VNumber 512%float);
                      ("scheduledDelayMillis", VNumber 5000%float);
                      ("exportTimeoutMillis", VNumber 30000%float)]];
          Invoke "defaultResource" [];
          Invoke "resourceFromAttributes"
            [VObject [("ATTR_SERVICE_NAME", VString "sim-studio");
                      ("ATTR_SERVICE_VERSION", VString "0.1.0");
                      ("ATTR_DEPLOYMENT_ENVIRONMENT", VString "production");
                      ("service.namespace", VString "sim-ai-platform");
                      ("telemetry.sdk.name", VString "opentelemetry");
                      ("telemetry.sdk.language", VString "nodejs");
                      ("telemetry.sdk.version", VString "1.0.0")]];
          Invoke "merge" [];
          Construct "TraceIdRatioBasedSampler" [VNumber 0x1.999999999999ap-4%float];
          Construct "ParentBasedSampler" [];
          Construct "NodeSDK" [];
          Invoke "sdk.start" [];
          Invoke "process.on" [VString "SIGTERM"];
          Invoke "process.on" [VString "SIGINT"]];
       otel_logged :=
         [otel_entry info "OpenTelemetry instrumentation initialized" None];
       console_errors := [] |}.
Proof. vm_compute. reflexivity. Qed.

(** [shutdownHandler] never throws: it asks the SDK to shut down
    once; when that completes it logs an info entry, when it fails it
    logs the failure at error level with the exception attached. *)
Theorem shutdownHandler_never_throws (H : Host) (p : Process) :
  InstrumentationNode.shutdownHandler H p =
    (Normal tt,
     {| poller := poller p;
        effects := (effects p ++ [Invoke "sdk.shutdown" []])%list;
        otel_logged :=
          (otel_logged p
           ++ [match answer H (List.length (effects p)) (Invoke "sdk.shutdown" []) with
               | Normal _ =>
                   otel_entry info "OpenTelemetry SDK shut down successfully" None
               | Throw err =>
                   otel_entry error "Error shutting down OpenTelemetry SDK" (Some err)
               end])%list;
        console_errors := console_errors p |}).
Proof.
  unfold InstrumentationNode.shutdownHandler. rewrite try_perform.
  destruct (answer H (List.length (effects p)) (Invoke "sdk.shutdown" []))
    as [[] | err]; reflexivity.
Qed.

(* ------------------------------------------------------------------ *)
(** *** Stepping through [register()] *)

Lemma bindP_print {A} (line : string) (k : unit -> MB A) (p : Process) :
  bindP (print line) k p = k tt (printed [line] p).
Proof. reflexivity. Qed.

Lemma try_print {A} (line : string) (k : unit -> MB A) (h : exn -> MB A)
    (p : Process) :
  try_catchP (bindP (print line) k) h p = try_catchP (k tt) h (printed [line] p).
Proof. reflexivity. Qed.

Lemma start_resolves (w : World) : start w = (Normal tt, exec start w).
Proof.
  unfold exec. destruct (isRunning (this w)) eqn:Hrun.
  - rewrite (start_when_running w Hrun). reflexivity.
  - rewrite (start_when_stopped w Hrun). reflexivity.
Qed.

Lemma try_start {A} (k : unit -> MB A) (h : exn -> MB A) (p : Process) :
  try_catchP (bindP (in_poller start) k) h p =
  try_catchP (k tt) h (set_poller (exec start (poller p)) p).
Proof.
  unfold try_catchP, bindP, in_poller. rewrite start_resolves. reflexivity.
Qed.

Lemma bindP_telemetry {A} (H : Host) (k : unit -> MB A) (p : Process) :
  bindP (InstrumentationNode.initializeOpenTelemetry H) k p =
  k tt (set_poller (poller p)
          (execP (InstrumentationNode.initializeOpenTelemetry H) p)).
Proof.
  unfold bindP, execP.
  destruct (initializeOpenTelemetry_resolves H p) as [p1 Hp1].
  rewrite Hp1. cbn [snd].
  pose proof (ignores_keeps (InstrumentationNode.initializeOpenTelemetry H) p
                (initializeOpenTelemetry_ignores_poller H)) as Hkeep.
  rewrite Hp1 in Hkeep. cbn [snd] in Hkeep. rewrite <- Hkeep.
  rewrite set_poller_same. reflexivity.
Qed.

Lemma telemetry_after_print (H : Host) (lines : list string) (p : Process) :
  execP (InstrumentationNode.initializeOpenTelemetry H) (printed lines p) =
  set_poller (poller (printed lines p))
    (execP (InstrumentationNode.initializeOpenTelemetry H) p).
Proof.
  unfold execP, printed.
  rewrite (initializeOpenTelemetry_ignores_poller H). reflexivity.
Qed.

Lemma start_reads_no_console (c : list string) (w : World) :
  this (exec start (with_console c w)) = this (exec start w) /\
  timers (exec start (with_console c w)) = timers (exec start w).
Proof.
  unfold exec. destruct (isRunning (this w)) eqn:Hrun.
  - rewrite (start_when_running w Hrun).
    rewrite (start_when_running (with_console c w)) by exact Hrun.
    split; reflexivity.
  - rewrite (start_when_stopped w Hrun).
    rewrite (start_when_stopped (with_console c w)) by exact Hrun.
    split; reflexivity.
Qed.

Lemma print_eq (line : string) (p : Process) :
  print line p = (Normal tt, printed [line] p).
Proof. reflexivity. Qed.

Lemma try_note (l : Level) (msg : string) (d : option exn) (h : exn -> MB unit)
    (p : Process) :
  try_catchP (otel_write l msg d) h p = (Normal tt, noted (otel_entry l msg d) p).
Proof. reflexivity. Qed.

Lemma complain_and_note (line msg : string) (e : exn) (p : Process) :
  bindP (print_error line e) (fun _ => otel_error msg e) p =
    (Normal tt, noted (otel_entry error msg (Some e)) (complained line e p)).
Proof. reflexivity. Qed.

Lemma this_printed (l : list string) (p : Process) :
  this (poller (printed l p)) = this (poller p).
Proof. reflexivity. Qed.

Lemma timers_printed (l : list string) (p : Process) :
  timers (poller (printed l p)) = timers (poller p).
Proof. reflexivity. Qed.

Lemma this_start_printed (l : list string) (p : Process) :
  this (exec start (poller (printed l p))) = this (exec start (poller p)).
Proof. apply start_reads_no_console. Qed.

Lemma timers_start_printed (l : list string) (p : Process) :
  timers (exec start (poller (printed l p))) = timers (exec start (poller p)).
Proof. apply start_reads_no_console. Qed.

Lemma effects_printed (l : list string) (p : Process) :
  effects (printed l p) = effects p.
Proof. reflexivity. Qed.

Lemma otel_logged_printed (l : list string) (p : Process) :
  otel_logged (printed l p) = otel_logged p.
Proof. reflexivity. Qed.

Lemma console_errors_printed (l : list string) (p : Process) :
  console_errors (printed l p) = console_errors p.
Proof. reflexivity. Qed.

Lemma poller_set_poller (w : World) (p : Process) : poller (set_poller w p) = w.
Proof. reflexivity. Qed.

Lemma effects_set_poller (w : World) (p : Process) :
  effects (set_poller w p) = effects p.
Proof. reflexivity. Qed.

Lemma otel_logged_set_poller (w : World) (p : Process) :
  otel_logged (set_poller w p) = otel_logged p.
Proof. reflexivity. Qed.

Lemma console_errors_set_poller (w : World) (p : Process) :
  console_errors (set_poller w p) = console_errors p.
Proof. reflexivity. Qed.

Lemma poller_record (x : Effect) (p : Process) : poller (record x p) = poller p.
Proof. reflexivity. Qed.

Lemma effects_record (x : Effect) (p : Process) :
  effects (record x p) = (effects p ++ [x])%list.
Proof. reflexivity. Qed.

Lemma otel_logged_record (x : Effect) (p : Process) :
  otel_logged (record x p) = otel_logged p.
Proof. reflexivity. Qed.

Lemma console_errors_record (x : Effect) (p : Process) :
  console_errors (record x p) = console_errors p.
Proof. reflexivity. Qed.

Lemma poller_noted (e : LogEntry) (p : Process) : poller (noted e p) = poller p.
Proof. reflexivity. Qed.

Lemma effects_noted (e : LogEntry) (p : Process) : effects (noted e p) = effects p.
Proof. reflexivity. Qed.

Lemma otel_logged_noted (e : LogEntry) (p : Process) :
  otel_logged (noted e p) = (otel_logged p ++ [e])%list.
Proof. reflexivity. Qed.

Lemma console_errors_noted (e : LogEntry) (p : Process) :
  console_errors (noted e p) = console_errors p.
Proof. reflexivity. Qed.

Lemma poller_complained (line : string) (e : exn) (p : Process) :
  poller (complained line e p) = poller p.
Proof. reflexivity. Qed.

Lemma effects_complained (line : string) (e : exn) (p : Process) :
  effects (complained line e p) = effects p.
Proof. reflexivity. Qed.

Lemma otel_logged_complained (line : string) (e : exn) (p : Process) :
  otel_logged (complained line e p) = otel_logged p.
Proof. reflexivity. Qed.

Lemma console_errors_complained (line : string) (e : exn) (p : Process) :
  console_errors (complained line e p) =
    (console_errors p ++ [(line, e)])%list.
Proof. reflexivity. Qed.

Lemma telemetry_keeps (H : Host) (p : Process) :
  poller (execP (InstrumentationNode.initializeOpenTelemetry H) p) = poller p /\
  console_errors (execP (InstrumentationNode.initializeOpenTelemetry H) p) =
    console_errors p.
Proof.
  pose proof (telemetry_trace H p) as (new & entry_ & Htel & _).
  unfold execP. rewrite Htel. split; reflexivity.
Qed.

Lemma console_errors_telemetry (H : Host) (p : Process) :
  console_errors (execP (InstrumentationNode.initializeOpenTelemetry H) p) =
    console_errors p.
Proof. apply telemetry_keeps. Qed.

Create Rewrite HintDb boot.

#[local] Hint Rewrite this_start_printed timers_start_printed this_printed
  timers_printed effects_printed otel_logged_printed console_errors_printed
  poller_set_poller effects_set_poller otel_logged_set_poller
  console_errors_set_poller poller_record effects_record otel_logged_record
  console_errors_record poller_noted effects_noted otel_logged_noted
  console_errors_noted poller_complained effects_complained
  otel_logged_complained console_errors_complained console_errors_telemetry
  : boot.

Lemma node_register_spec (H : Host) (p : Process) :
  exists p',
    InstrumentationNode.register H p = (Normal tt, p') /\
    if InstrumentationNode.polling_enabled H
    then
      match answer H
              (List.length
                 (effects (execP (InstrumentationNode.initializeOpenTelemetry H) p)))
              poller_import with
      | Normal _ =>
          this (poller p') = this (exec start (poller p)) /\
          timers (poller p') = timers (exec start (poller p)) /\
          effects p' =
            (effects (execP (InstrumentationNode.initializeOpenTelemetry H) p)
             ++ [poller_import])%list /\
          otel_logged p' =
            (otel_logged (execP (InstrumentationNode.initializeOpenTelemetry H) p)
             ++ [otel_entry info "Internal polling service registered" None])%list /\
          console_errors p' = console_errors p
      | Throw e =>
          this (poller p') = this (poller p) /\
          timers (poller p') = timers (poller p) /\
          effects p' =
            (effects (execP (InstrumentationNode.initializeOpenTelemetry H) p)
             ++ [poller_import])%list /\
          otel_logged p' =
            (otel_logged (execP (InstrumentationNode.initializeOpenTelemetry H) p)
             ++ [otel_entry error "Failed to start internal polling service"
                   (Some e)])%list /\
          console_errors p' =
            (console_errors p
             ++ [("[OTelInstrumentation] Failed to start internal polling service:",
                  e)])%list
      end
    else
      this (poller p') = this (poller p) /\
      timers (poller p') = timers (poller p) /\
      effects p' = effects (execP (InstrumentationNode.initializeOpenTelemetry H) p) /\
      otel_logged p' =
        otel_logged (execP (InstrumentationNode.initializeOpenTelemetry H) p) /\
      console_errors p' = console_errors p.
Proof.
  unfold InstrumentationNode.register.
  rewrite !bindP_print, bindP_telemetry, bindP_print.
  rewrite !telemetry_after_print.
  set (T := execP (InstrumentationNode.initializeOpenTelemetry H) p).
  destruct (InstrumentationNode.polling_enabled H).
  - unfold bindP at 1. rewrite bindP_print, try_perform.
    fold poller_import.
    autorewrite with boot.
    destruct (answer H (List.length (effects T)) poller_import) as [[] | e].
    + rewrite try_print, try_start, try_print. unfold otel_info.
      rewrite try_note. cbv beta iota. rewrite print_eq.
      eexists. split; [reflexivity|].
      autorewrite with boot. subst T. autorewrite with boot. repeat split.
    + rewrite complain_and_note. cbv beta iota. rewrite print_eq.
      eexists. split; [reflexivity|].
      autorewrite with boot. subst T. autorewrite with boot. repeat split.
  - rewrite bindP_print, print_eq.
    eexists. split; [reflexivity|].
    autorewrite with boot. subst T. autorewrite with boot. repeat split.
Qed.

(** X13.  [register()] of the Node.js instrumentation never throws, and
    it starts the poller exactly when [NODE_ENV] is ['production'] or
    [ENABLE_POLLING] is ['true'].  If so and the poller module loads,
    [start()] has been called on the poller; if the module fails to load,
    the failure goes to [console.error] and to the logger and the poller
    is as it was; otherwise the poller module is not even imported. *)
Theorem node_register_gates_polling (H : Host) (p : Process) :
  exists p',
    InstrumentationNode.register H p = (Normal tt, p') /\
    if InstrumentationNode.polling_enabled H
    then
      match answer H
              (List.length
                 (effects (execP (InstrumentationNode.initializeOpenTelemetry H) p)))
              poller_import with
      | Normal _ =>
          this (poller p') = this (exec start (poller p)) /\
          timers (poller p') = timers (exec start (poller p)) /\
          effects p' =
            (effects (execP (InstrumentationNode.initializeOpenTelemetry H) p)
             ++ [poller_import])%list /\
          otel_logged p' =
            (otel_logged (execP (InstrumentationNode.initializeOpenTelemetry H) p)
             ++ [otel_entry info "Internal polling service registered" None])%list /\
          console_errors p' = console_errors p
      | Throw e =>
          this (poller p') = this (poller p) /\
          timers (poller p') = timers (poller p) /\
          effects p' =
            (effects (execP (InstrumentationNode.initializeOpenTelemetry H) p)
             ++ [poller_import])%list /\
          otel_logged p' =
            (otel_logged (execP (InstrumentationNode.initializeOpenTelemetry H) p)
             ++ [otel_entry error "Failed to start internal polling service"
                   (Some e)])%list /\
          console_errors p' =
            (console_errors p
             ++ [("[OTelInstrumentation] Failed to start internal polling service:",
                  e)])%list
      end
    else
      this (poller p') = this (poller p) /\
      timers (poller p') = timers (poller p) /\
      effects p' = effects (execP (InstrumentationNode.initializeOpenTelemetry H) p) /\
      otel_logged p' =
        otel_logged (execP (InstrumentationNode.initializeOpenTelemetry H) p) /\
      console_errors p' = console_errors p.
Proof. exact (node_register_spec H p). Qed.

Lemma consistent_same_machine (w w' : World) :
  this w' = this w -> timers w' = timers w -> consistent w -> consistent w'.
Proof. unfold consistent. intros -> ->. auto. Qed.

Lemma node_register_consistent (H : Host) (p : Process) :
  consistent (poller p) ->
  consistent (poller (execP (InstrumentationNode.register H) p)).
Proof.
  intros Hc. destruct (node_register_spec H p) as (p' & Hrun & Hspec).
  unfold execP. rewrite Hrun. cbn [snd].
  destruct (InstrumentationNode.polling_enabled H).
  - destruct (answer H _ poller_import).
    + destruct Hspec as (Hthis & Htimers & _).
      apply (consistent_same_machine (exec start (poller p))); auto.
      apply consistent_start, Hc.
    + destruct Hspec as (Hthis & Htimers & _).
      apply (consistent_same_machine (poller p)); auto.
  - destruct Hspec as (Hthis & Htimers & _).
    apply (consistent_same_machine (poller p)); auto.
Qed.

(** X14.  However often the bootstrap registers, and on whatever hosts,
    the poller keeps at most one recurring timer per task: exactly one
    while it runs, none while it is stopped. *)
Theorem registering_again_adds_no_timer (hosts : list Host) (p : Process) (cb : Task) :
  consistent (poller p) ->
  recurring cb
    (timers (poller (fold_left (fun q H => execP (InstrumentationNode.register H) q)
                       hosts p))) =
    if isRunning
         (this (poller (fold_left
                          (fun q H => execP (InstrumentationNode.register H) q)
                          hosts p)))
    then 1%nat else 0%nat.
Proof.
  intros Hc. apply consistent_recurring.
  revert p Hc. induction hosts as [|H hosts IH]; intros p Hc; simpl; [exact Hc|].
  apply IH, node_register_consistent, Hc.
Qed.

Lemma registering_again_adds_no_timer_witness :
  recurring Schedule
    (timers (poller (fold_left (fun q H => execP (InstrumentationNode.register H) q)
                       [quiet_host (Some "production");
                        quiet_host (Some "production")]
                       initial_process))) = 1%nat.
Proof.
  rewrite (registering_again_adds_no_timer
             [quiet_host (Some "production"); quiet_host (Some "production")]
             initial_process Schedule consistent_initial).
  vm_compute. reflexivity.
Defined.

(* ------------------------------------------------------------------ *)
(** *** The entry point *)

Lemma bindP_perform {A} (H : Host) (x : Effect) (k : unit -> MB A) (p : Process) :
  bindP (perform H x) k p =
    match answer H (List.length (effects p)) x with
    | Normal a => k a (record x p)
    | Throw e => (Throw e, record x p)
    end.
Proof.
  unfold bindP, perform.
  destruct (answer H (List.length (effects p)) x); reflexivity.
Qed.

Lemma perform_eq (H : Host) (x : Effect) (p : Process) :
  perform H x p = (answer H (List.length (effects p)) x, record x p).
Proof. reflexivity. Qed.

Lemma this_record (x : Effect) (p : Process) :
  this (poller (record x p)) = this (poller p).
Proof. reflexivity. Qed.

Lemma timers_record (x : Effect) (p : Process) :
  timers (poller (record x p)) = timers (poller p).
Proof. reflexivity. Qed.

Lemma not_loading_node (H : Host) :
  NEXT_RUNTIME H = Some "edge" \/
  window_defined H = true /\ NEXT_RUNTIME H <> Some "nodejs" ->
  Instrumentation.loads_node H = false.
Proof.
  unfold Instrumentation.loads_node.
  intros [Hedge | [Hwindow Hnot]].
  - rewrite Hedge. reflexivity.
  - rewrite Hwindow, andb_false_r, orb_false_r.
    destruct (NEXT_RUNTIME H) as [s|]; [|reflexivity].
    simpl. apply String.eqb_neq. congruence.
Qed.

(** The tail of the entry point: the edge and the client instrumentation,
    neither of which is the poller's. *)
Lemma entry_tail_keeps (H : Host) (q : Process) (c : completion unit) (p' : Process) :
  bindP
    (if is_string (NEXT_RUNTIME H) "edge"
     then bindP (print "[Instrumentation] Loading Edge instrumentation...")
            (fun _ =>
               bindP (perform H (ImportModule "./instrumentation-edge"))
                 (fun _ =>
                    if edge_exports_register H
                    then perform H (Invoke "instrumentation-edge.register" [])
                    else retP tt))
     else retP tt)
    (fun _ =>
       if window_defined H
       then bindP (print "[Instrumentation] Loading client instrumentation...")
              (fun _ => perform H (ImportModule "./instrumentation-client"))
       else retP tt) q = (c, p') ->
  this (poller p') = this (poller q) /\
  timers (poller p') = timers (poller q) /\
  otel_logged p' = otel_logged q /\
  exists new,
    effects p' = (effects q ++ new)%list /\
    ~ In node_import new /\ ~ In poller_import new.
Proof.
  assert (Hclient : forall q0 c0 p0,
             (if window_defined H
              then bindP (print "[Instrumentation] Loading client instrumentation...")
                     (fun _ => perform H (ImportModule "./instrumentation-client"))
              else retP tt) q0 = (c0, p0) ->
             this (poller p0) = this (poller q0) /\
             timers (poller p0) = timers (poller q0) /\
             otel_logged p0 = otel_logged q0 /\
             exists new,
               effects p0 = (effects q0 ++ new)%list /\
               ~ In node_import new /\ ~ In poller_import new).
  { intros q0 c0 p0. destruct (window_defined H).
    - rewrite bindP_print, perform_eq. intros Heq; inversion Heq; subst.
      autorewrite with boot. repeat split.
      exists [ImportModule "./instrumentation-client"]. split; [reflexivity|].
      split; intros [Hx | []]; discriminate Hx.
    - intros Heq; inversion Heq; subst. repeat split.
      exists []. rewrite app_nil_r. split; [reflexivity|]. split; intros []. }
  assert (Hglue : forall q0 q1 c0 p0 mid,
             this (poller q1) = this (poller q0) ->
             timers (poller q1) = timers (poller q0) ->
             otel_logged q1 = otel_logged q0 ->
             effects q1 = (effects q0 ++ mid)%list ->
             ~ In node_import mid -> ~ In poller_import mid ->
             (if window_defined H
              then bindP (print "[Instrumentation] Loading client instrumentation...")
                     (fun _ => perform H (ImportModule "./instrumentation-client"))
              else retP tt) q1 = (c0, p0) ->
             this (poller p0) = this (poller q0) /\
             timers (poller p0) = timers (poller q0) /\
             otel_logged p0 = otel_logged q0 /\
             exists new,
               effects p0 = (effects q0 ++ new)%list /\
               ~ In node_import new /\ ~ In poller_import new).
  { intros q0 q1 c0 p0 mid H1 H2 H3 H4 H5 H6 Hrun.
    destruct (Hclient _ _ _ Hrun) as (G1 & G2 & G3 & new & G4 & G5 & G6).
    repeat split; try congruence.
    exists (mid ++ new)%list. rewrite G4, H4, app_assoc.
    split; [reflexivity|].
    split; intros Hin; apply in_app_or in Hin; tauto. }
  unfold bindP at 1.
  destruct (is_string (NEXT_RUNTIME H) "edge").
  - rewrite bindP_print, bindP_perform.
    destruct (answer H _ (ImportModule "./instrumentation-edge")) as [[] | e].
    + destruct (edge_exports_register H).
      * rewrite perform_eq.
        destruct (answer H _ (Invoke "instrumentation-edge.register" []))
          as [[] | e].
        -- apply (Hglue q _ c p'
                    [ImportModule "./instrumentation-edge";
                     Invoke "instrumentation-edge.register" []]);
             autorewrite with boot; try reflexivity;
             try (rewrite <- app_assoc; reflexivity);
             intros [Hx | [Hx | []]]; discriminate Hx.
        -- intros Heq; inversion Heq; subst. autorewrite with boot.
           repeat split.
           exists [ImportModule "./instrumentation-edge";
                   Invoke "instrumentation-edge.register" []].
           rewrite <- app_assoc. split; [reflexivity|].
           split; intros [Hx | [Hx | []]]; discriminate Hx.
      * apply (Hglue q _ c p' [ImportModule "./instrumentation-edge"]);
          autorewrite with boot; try reflexivity;
          intros [Hx | []]; discriminate Hx.
    + intros Heq; inversion Heq; subst. autorewrite with boot. repeat split.
      exists [ImportModule "./instrumentation-edge"].
      split; [reflexivity|].
      split; intros [Hx | []]; discriminate Hx.
  - apply Hclient.
Qed.

(** X15.  Outside the Node.js runtime the poller is never started.  With
    [NEXT_RUNTIME] equal to ['edge'], or in a browser (a [window] exists
    and [NEXT_RUNTIME] is not ['nodejs']), the entry point imports neither
    the Node.js instrumentation nor the poller module, and the poller and
    its timers are as they were, however the other imports end. *)
Theorem other_runtimes_leave_the_poller_alone (H : Host) (p : Process) :
  NEXT_RUNTIME H = Some "edge" \/
  window_defined H = true /\ NEXT_RUNTIME H <> Some "nodejs" ->
  this (poller (execP (Instrumentation.register H) p)) = this (poller p) /\
  timers (poller (execP (Instrumentation.register H) p)) = timers (poller p) /\
  exists new,
    effects (execP (Instrumentation.register H) p) = (effects p ++ new)%list /\
    ~ In node_import new /\ ~ In poller_import new.
Proof.
  intros Hrt. pose proof (not_loading_node H Hrt) as Hnode.
  unfold execP.
  destruct (Instrumentation.register H p) as [c p'] eqn:Hrun.
  unfold Instrumentation.register in Hrun.
  rewrite bindP_print, Hnode in Hrun.
  change (bindP (retP tt) ?k ?q) with (k tt q) in Hrun. cbv beta in Hrun.
  destruct (entry_tail_keeps H _ c p' Hrun) as (H1 & H2 & _ & new & H4 & H5 & H6).
  cbn [snd]. autorewrite with boot in H1, H2, H4.
  split; [assumption|]. split; [assumption|].
  exists new. auto.
Qed.

Lemma other_runtimes_leave_the_poller_alone_witness :
  this (poller (execP (Instrumentation.register
                         {| NODE_ENV := Some "production"; ENABLE_POLLING := Some "true";
                            NEXT_RUNTIME := Some "edge"; window_defined := false;
                            NEXT_TELEMETRY_DISABLED := Normal None;
                            TELEMETRY_ENDPOINT := None;
                            env_NODE_ENV := Normal (Some "production");
                            telemetry_config := Throw (Thrown "missing");
                            edge_exports_register := true;
                            answer := fun _ _ => Normal tt |})
                  initial_process)) = new_InternalPoller.
Proof.
  apply (other_runtimes_leave_the_poller_alone
           {| NODE_ENV := Some "production"; ENABLE_POLLING := Some "true";
              NEXT_RUNTIME := Some "edge"; window_defined := false;
              NEXT_TELEMETRY_DISABLED := Normal None;
              TELEMETRY_ENDPOINT := None;
              env_NODE_ENV := Normal (Some "production");
              telemetry_config := Throw (Thrown "missing");
              edge_exports_register := true;
              answer := fun _ _ => Normal tt |}
           initial_process (or_introl eq_refl)).
Defined.

(** The entry point on the Node.js runtime: a failed import rejects
    [register()]; otherwise the poller is the one the Node.js
    [register()] leaves, started from a poller with the same fields and
    timers as before. *)
Lemma entry_on_node (H : Host) (p : Process) :
  Instrumentation.loads_node H = true ->
  match answer H (List.length (effects p)) node_import with
  | Normal _ =>
      exists p0,
        this (poller p0) = this (poller p) /\
        timers (poller p0) = timers (poller p) /\
        this (poller (execP (Instrumentation.register H) p)) =
          this (poller (execP (InstrumentationNode.register H) p0)) /\
        timers (poller (execP (Instrumentation.register H) p)) =
          timers (poller (execP (InstrumentationNode.register H) p0))
  | Throw e =>
      fst (Instrumentation.register H p) = Throw e /\
      this (poller (execP (Instrumentation.register H) p)) = this (poller p) /\
      timers (poller (execP (Instrumentation.register H) p)) = timers (poller p) /\
      effects (execP (Instrumentation.register H) p) =
        (effects p ++ [node_import])%list
  end.
Proof.
  intros Hnode. unfold execP.
  destruct (Instrumentation.register H p) as [c p'] eqn:Hrun.
  unfold Instrumentation.register in Hrun.
  rewrite bindP_print, Hnode in Hrun.
  unfold bindP at 1 in Hrun.
  rewrite bindP_print, bindP_perform in Hrun. fold node_import in Hrun.
  autorewrite with boot in Hrun.
  destruct (answer H (List.length (effects p)) node_import) as [[] | e].
  - match type of Hrun with
    | context [InstrumentationNode.register H ?q] =>
        exists q; destruct (node_register_spec H q) as (p1 & Hreg & _)
    end.
    rewrite Hreg in *.
    destruct (entry_tail_keeps H _ c p' Hrun) as (H1 & H2 & _).
    cbn [snd]. autorewrite with boot. auto.
  - inversion Hrun; subst. cbn [fst snd]. autorewrite with boot. auto.
Qed.

(** X16.  The entry point has no [catch]: on the Node.js runtime, a failed
    import of [./instrumentation-node] rejects [register()] with the
    import's exception.  Nothing after the import is run: it is the last
    effect, and the poller is not started. *)
Theorem failed_node_import_rejects_register (H : Host) (p : Process) (e : exn) :
  Instrumentation.loads_node H = true ->
  answer H (List.length (effects p)) node_import = Throw e ->
  fst (Instrumentation.register H p) = Throw e /\
  this (poller (execP (Instrumentation.register H) p)) = this (poller p) /\
  timers (poller (execP (Instrumentation.register H) p)) = timers (poller p) /\
  effects (execP (Instrumentation.register H) p) =
    (effects p ++ [node_import])%list.
Proof.
  intros Hnode Hfail. pose proof (entry_on_node H p Hnode) as Hspec.
  rewrite Hfail in Hspec. exact Hspec.
Qed.

Lemma failed_node_import_rejects_register_witness :
  fst (Instrumentation.register
         {| NODE_ENV := Some "production"; ENABLE_POLLING := None;
            NEXT_RUNTIME := Some "nodejs"; window_defined := false;
            NEXT_TELEMETRY_DISABLED := Normal None;
            TELEMETRY_ENDPOINT := None;
            env_NODE_ENV := Normal (Some "production");
            telemetry_config := Throw (Thrown "missing");
            edge_exports_register := false;
            answer := fun _ _ => Throw (Thrown "Cannot find module") |}
         initial_process) = Throw (Thrown "Cannot find module").
Proof.
  apply (failed_node_import_rejects_register
           {| NODE_ENV := Some "production"; ENABLE_POLLING := None;
              NEXT_RUNTIME := Some "nodejs"; window_defined := false;
              NEXT_TELEMETRY_DISABLED := Normal None;
              TELEMETRY_ENDPOINT := None;
              env_NODE_ENV := Normal (Some "production");
              telemetry_config := Throw (Thrown "missing");
              edge_exports_register := false;
              answer := fun _ _ => Throw (Thrown "Cannot find module") |}
           initial_process (Thrown "Cannot find module") eq_refl eq_refl).
Defined.

Lemma start_same_machine (w1 w2 : World) :
  this w1 = this w2 -> timers w1 = timers w2 ->
  this (exec start w1) = this (exec start w2) /\
  timers (exec start w1) = timers (exec start w2).
Proof.
  intros Hthis Htimers. unfold exec.
  destruct (isRunning (this w2)) eqn:Hrun.
  - rewrite (start_when_running w2 Hrun).
    rewrite (start_when_running w1) by (rewrite Hthis; exact Hrun).
    split; assumption.
  - rewrite (start_when_stopped w2 Hrun).
    rewrite (start_when_stopped w1) by (rewrite Hthis; exact Hrun).
    cbn [fst snd this timers]. rewrite Htimers. split; reflexivity.
Qed.

(** The poller after the entry point has run on a server whose modules
    load and whose environment enables polling. *)
Lemma entry_starts_the_poller (H : Host) (p : Process) :
  Instrumentation.loads_node H = true ->
  InstrumentationNode.polling_enabled H = true ->
  (forall k, answer H k node_import = Normal tt) ->
  (forall k, answer H k poller_import = Normal tt) ->
  this (poller (execP (Instrumentation.register H) p)) =
    this (exec start (poller p)) /\
  timers (poller (execP (Instrumentation.register H) p)) =
    timers (exec start (poller p)).
Proof.
  intros Hnode Hpoll Himport Hpoller.
  pose proof (entry_on_node H p Hnode) as Hspec.
  rewrite Himport in Hspec.
  destruct Hspec as (p0 & H1 & H2 & H3 & H4).
  destruct (node_register_spec H p0) as (p1 & Hreg & Hp1).
  rewrite Hpoll, Hpoller in Hp1. destruct Hp1 as (G1 & G2 & _).
  unfold execP in H3, H4. rewrite Hreg in H3, H4. cbn [snd] in H3, H4.
  destruct (start_same_machine (poller p0) (poller p) H1 H2) as [S1 S2].
  unfold execP. split; congruence.
Qed.

(** X17.  A server boot polls.  On the Node.js runtime, with [NODE_ENV]
    ['production'] or [ENABLE_POLLING] ['true'] and the two modules
    loading, the entry point leaves the poller running; from a process
    whose poller was stopped with no timer armed, with the clock anywhere
    in the [n]-th minute after the boot ([n >= 1]) each task has been
    called exactly [n + 1] times. *)
Theorem server_boot_polls_every_minute {R : Runtime} (B : nat -> Env) (H : Host)
    (p : Process) (fuel n : nat) (T : Z) :
  Instrumentation.loads_node H = true ->
  InstrumentationNode.polling_enabled H = true ->
  (forall k, answer H k node_import = Normal tt) ->
  (forall k, answer H k poller_import = Normal tt) ->
  isRunning (this (poller p)) = false ->
  pending (timers (poller p)) = [] ->
  (1 <= n)%nat ->
  (2 * n + 2 <= fuel)%nat ->
  now (timers (poller p)) + Z.of_nat n * 60000 <= T
    < now (timers (poller p)) + (Z.of_nat n + 1) * 60000 ->
  isRunning (this (poller (execP (Instrumentation.register H) p))) = true /\
  exists w' trace,
    advanceTimersTo fuel B T (poller (execP (Instrumentation.register H) p)) =
      Done w' /\
    invocations w' =
      (invocations (poller (execP (Instrumentation.register H) p)) ++ trace)%list /\
    fires Schedule trace = S n /\
    fires Outlook trace = S n.
Proof.
  intros Hnode Hpoll Himport Hpoller Hrun Hnone Hn Hfuel HT.
  destruct (entry_starts_the_poller H p Hnode Hpoll Himport Hpoller)
    as [Hthis Htimers].
  split.
  - rewrite Hthis. unfold exec. rewrite (start_when_stopped _ Hrun). reflexivity.
  - destruct n as [|k]; [lia|].
    destruct (minutes_drain (now (timers (poller p))) T
                (next_id (timers (poller p))) k HT)
      as (q & trace & Hd & Hs & Ho).
    rewrite <- (timers_of_first_start _ Hrun Hnone), <- Htimers in Hd.
    destruct (advance_trace _ fuel B T _ q _ Hd) as (w' & Hadv & Hi); [lia|].
    exists w', trace. auto.
Qed.

Lemma server_boot_polls_every_minute_witness :
  isRunning (this (poller (execP (Instrumentation.register
                                    (quiet_host (Some "production")))
                             initial_process))) = true /\
  exists w' trace,
    advanceTimersTo (R := sample_runtime) 22 unconfigured 600000
      (poller (execP (Instrumentation.register (quiet_host (Some "production")))
                 initial_process)) = Done w' /\
    invocations w' =
      (invocations (poller (execP (Instrumentation.register
                                     (quiet_host (Some "production")))
                              initial_process)) ++ trace)%list /\
    fires Schedule trace = 11%nat /\
    fires Outlook trace = 11%nat.
Proof.
  apply (server_boot_polls_every_minute (R := sample_runtime) unconfigured
           (quiet_host (Some "production")) initial_process 22 10 600000
           eq_refl eq_refl (fun _ => eq_refl) (fun _ => eq_refl) eq_refl eq_refl);
    simpl; lia.
Defined.

(** X18.  A server that is not told to poll does not.  On the Node.js
    runtime with [NODE_ENV] other than ['production'] and [ENABLE_POLLING]
    other than ['true'], the entry point leaves the poller and its timers
    as they were, whatever the host answers. *)
Theorem no_polling_unless_enabled (H : Host) (p : Process) :
  Instrumentation.loads_node H = true ->
  InstrumentationNode.polling_enabled H = false ->
  this (poller (execP (Instrumentation.register H) p)) = this (poller p) /\
  timers (poller (execP (Instrumentation.register H) p)) = timers (poller p).
Proof.
  intros Hnode Hpoll.
  pose proof (entry_on_node H p Hnode) as Hspec.
  destruct (answer H (List.length (effects p)) node_import) as [[] | e].
  - destruct Hspec as (p0 & H1 & H2 & H3 & H4).
    destruct (node_register_spec H p0) as (p1 & Hreg & Hp1).
    rewrite Hpoll in Hp1. destruct Hp1 as (G1 & G2 & _).
    unfold execP in H3, H4. rewrite Hreg in H3, H4. cbn [snd] in H3, H4.
    unfold execP. split; congruence.
  - destruct Hspec as (_ & H1 & H2 & _). split; assumption.
Qed.

Lemma no_polling_unless_enabled_witness :
  this (poller (execP (Instrumentation.register (quiet_host (Some "development")))
                  initial_process)) = this (poller initial_process) /\
  timers (poller (execP (Instrumentation.register (quiet_host (Some "development")))
                    initial_process)) = timers (poller initial_process).
Proof.
  apply (no_polling_unless_enabled (quiet_host (Some "development"))
           initial_process eq_refl eq_refl).
Defined.
